(** * Mock-interview platform: skill extraction, question generation,
      interview session, answer evaluation, score aggregation, reports.

    Shallow embedding of [src/utils.py], [src/models.py] and the route
    handlers of [src/main.py], followed by the properties of the
    specification that were checked against it.

    Conventions of the embedding.
    - A Python [str] is a [string]; every [ascii] stands for the Unicode
      code point of the same number (0..255).  Texts with higher code points
      are outside the model.
    - A Python [int] is a [Z].
    - A Python [float] is a primitive binary64 [float].
    - The relational store is a record of tables; each table is the list of
      its rows in insertion order, and [first()] is the first matching row.
      Column widths of the storage engine are not modelled.
    - What the outside world supplies (the replies of the generation,
      evaluation and speech-to-text services, the time stamps) is an input
      of the handler that asks for it.
    - An uncaught Python exception inside a route handler is the outcome
      [InternalError]; the session is closed without commit, so writes that
      were added but not committed are dropped. *)

From Stdlib Require Import ZArith List String Ascii Bool Lia Floats QArith.
From Stdlib Require Import DecimalString DecimalZ Permutation.
Import ListNotations.

Local Open Scope string_scope.
Local Open Scope list_scope.
Local Open Scope Z_scope.

(** ** Python built-ins used by the program *)

Module Py.

(** Code point of a character. *)
Definition ord (c : ascii) : Z := Z.of_N (N_of_ascii c).

Definition in_range (lo hi : Z) (c : ascii) : bool :=
  (lo <=? ord c) && (ord c <=? hi).

(** [str.isspace] on one character: TAB..CR, FS..US, SPACE, NEL, NBSP. *)
Definition isspace (c : ascii) : bool :=
  in_range 9 13 c || in_range 28 32 c || (ord c =? 133) || (ord c =? 160).

(** [\w] of the [re] module for [str] patterns: [isalnum()] or underscore. *)
Definition isword (c : ascii) : bool :=
  in_range 48 57 c || in_range 65 90 c || in_range 97 122 c || (ord c =? 95)
  || (ord c =? 170) || (ord c =? 181) || (ord c =? 186)
  || in_range 178 179 c || (ord c =? 185) || in_range 188 190 c
  || in_range 192 214 c || in_range 216 246 c || in_range 248 255 c.

Definition shift (c : ascii) (d : Z) : ascii :=
  ascii_of_N (Z.to_N (ord c + d)).

(** [str.lower] on one character. *)
Definition lower_char (c : ascii) : ascii :=
  if in_range 65 90 c || in_range 192 214 c || in_range 216 222 c
  then shift c 32 else c.

(** [str.upper] on one character; exact wherever the upper-case form is a
    single code point below 256 (all of ASCII). *)
Definition upper_char (c : ascii) : ascii :=
  if in_range 97 122 c || in_range 224 246 c || in_range 248 254 c
  then shift c (-32) else c.

Fixpoint lower (s : string) : string :=
  match s with
  | EmptyString => EmptyString
  | String c r => String (lower_char c) (lower r)
  end.

(** [str.capitalize]: first character upper-cased, the rest lower-cased. *)
Definition capitalize (s : string) : string :=
  match s with
  | EmptyString => EmptyString
  | String c r => String (upper_char c) (lower r)
  end.

(** [str.split()] without arguments: the maximal runs of non-whitespace
    characters.  [cur] is the run being read, in reverse. *)
Definition flush (cur : list ascii) (acc : list string) : list string :=
  match cur with
  | [] => acc
  | _ => string_of_list_ascii (rev cur) :: acc
  end.

Fixpoint split_go (s : string) (cur : list ascii) (acc : list string)
  : list string :=
  match s with
  | EmptyString => rev (flush cur acc)
  | String c r =>
      if isspace c then split_go r [] (flush cur acc)
      else split_go r (c :: cur) acc
  end.

Definition split (s : string) : list string := split_go s [] [].

(** [sep.join(parts)]. *)
Fixpoint join (sep : string) (parts : list string) : string :=
  match parts with
  | [] => ""
  | [p] => p
  | p :: rest => p ++ sep ++ join sep rest
  end.

(** [s * n]. *)
Fixpoint repeat_str (s : string) (n : nat) : string :=
  match n with
  | O => ""
  | S k => s ++ repeat_str s k
  end.

(** [len(l)] and [l[i]] for a list, with Python's negative indices;
    [None] is [IndexError]. *)
Definition len {A} (l : list A) : Z := Z.of_nat (List.length l).

Definition index {A} (l : list A) (i : Z) : option A :=
  if 0 <=? i then nth_error l (Z.to_nat i)
  else if - len l <=? i then nth_error l (Z.to_nat (len l + i))
  else None.

(** [str(n)] for an [int]: decimal digits, with a leading minus sign. *)
Definition str_of_int (z : Z) : string := NilZero.string_of_int (Z.to_int z).

(** [sum(...)] over integers. *)
Definition sum (l : list Z) : Z := fold_left Z.add l 0.

(** [int(x)] for a [float] value given exactly as a rational: truncation
    towards zero. *)
Definition trunc (q : Q) : Z := Z.quot (Qnum q) (Zpos (Qden q)).

(** Conversion of an [int] to the nearest [float] (ties to even). *)
Definition float_of_int (z : Z) : float :=
  SF2Prim (binary_normalize prec emax z 0 false).

(** [a / b] on two [int]s, as the interpreter computes it; the result is
    the float nearest to the exact quotient, ties to even.  Operands that
    both fit in 53 bits are converted, exactly, and divided as floats
    ([truediv]).  Otherwise ([long_truediv]) the quotient of the magnitudes
    is taken with more than 64 significant bits and one more bit that
    records whether the division left a remainder; rounding that number
    rounds the exact quotient.  [ZeroDivisionError] ([b = 0]) and
    [OverflowError] (a quotient beyond the float range, which needs
    [|a| >= 2^1023]) are not modelled: the program divides only under the
    guard [b > 0]. *)
Definition fits_mantissa (a : Z) : bool := Z.abs a <? 2 ^ 53.

Definition long_truediv (a b : Z) : float :=
  let negative := xorb (a <? 0) (b <? 0) in
  let k := Z.max 0 (64 + Z.log2 (Z.abs b) - Z.log2 (Z.abs a)) in
  let n := Z.abs a * 2 ^ k in
  let q := n / Z.abs b in
  let sticky := if n mod Z.abs b =? 0 then 0 else 1 in
  let m := 2 * q + sticky in
  SF2Prim (binary_normalize prec emax (if negative then - m else m)
                            (- k - 1) negative).

Definition truediv (a b : Z) : float :=
  if fits_mantissa a && fits_mantissa b
  then PrimFloat.div (float_of_int a) (float_of_int b)
  else long_truediv a b.

End Py.

(** ** Regular expressions of the form [\b literal \b] *)

Module Re.

(** Whether position [p] of [s] holds a word character; positions outside
    the text do not. *)
Definition word_at (s : string) (p : Z) : bool :=
  if p <? 0 then false
  else match String.get (Z.to_nat p) s with
       | Some c => Py.isword c
       | None => false
       end.

(** [\b] at position [p]: exactly one side is a word character. *)
Definition boundary (s : string) (p : Z) : bool :=
  xorb (word_at s (p - 1)) (word_at s p).

Definition slen (s : string) : Z := Z.of_nat (String.length s).

(** The literal [lit] occupies positions [p .. p + len lit - 1] of [s]. *)
Definition literal_at (lit s : string) (p : Z) : bool :=
  String.eqb (String.substring (Z.to_nat p) (String.length lit) s) lit.

(** A match of [\b lit \b] starting at position [p]. *)
Definition match_at (lit s : string) (p : Z) : bool :=
  boundary s p && literal_at lit s p && boundary s (p + slen lit).

(** [re.search(r"\b" + re.escape(lit) + r"\b", s)] is not [None]. *)
Definition search_word (lit s : string) : bool :=
  existsb (fun i => match_at lit s (Z.of_nat i)) (seq 0 (S (String.length s))).

End Re.

(** ** [utils.py] *)

Definition KNOWN_SKILLS : list string :=
  [ "python"; "java"; "c++"; "c#"; "javascript"; "node"; "react"; "django";
    "flask"; "sql"; "mysql"; "postgres"; "mongodb"; "aws"; "docker";
    "kubernetes"; "spring" ].

(** [extract_skills_from_text]; the argument is a [str], so [text or ""] is
    the text itself. *)
Definition extract_skills_from_text (text : string) : list string :=
  let text_low := Py.lower text in
  let found :=
    fold_left
      (fun found s =>
         if Re.search_word s text_low then found ++ [Py.capitalize s]
         else found)
      KNOWN_SKILLS [] in
  match found with
  | [] => ["General"]
  | _ => found
  end.

(** The extraction as the specification words it: a label is collected when
    it occurs in the case-folded text as a whole word, that is, with no word
    character immediately before or after the occurrence. *)
Definition whole_word_at (lit s : string) (p : Z) : bool :=
  Re.literal_at lit s p
  && negb (Re.word_at s (p - 1))
  && negb (Re.word_at s (p + Re.slen lit)).

Definition occurs_as_whole_word (lit s : string) : bool :=
  existsb (fun i => whole_word_at lit s (Z.of_nat i))
          (seq 0 (S (String.length s))).

Definition extract_spec (text : string) : list string :=
  let found :=
    map Py.capitalize
        (filter (fun s => occurs_as_whole_word s (Py.lower text)) KNOWN_SKILLS)
  in
  match found with
  | [] => ["General"]
  | _ => found
  end.

(** ** Parsed JSON values *)

(** The result of [json.loads].  A finite float is given by its exact
    rational value; [JNonFinite] is [NaN], [Infinity] or [-Infinity].  A
    [JDict] lists the keys of the parsed object once each. *)
#[warnings="-register-all"]
Inductive json : Type :=
| JNull
| JBool (b : bool)
| JInt (z : Z)
| JFloat (q : Q)
| JNonFinite
| JStr (s : string)
| JList (l : list json)
| JDict (d : list (string * json)).

Module Json.

(** [d.get(key, default)] on a parsed object. *)
Fixpoint get (d : list (string * json)) (key : string) (default : json) : json :=
  match d with
  | [] => default
  | (k, v) :: r => if String.eqb k key then v else get r key default
  end.

(** [s.lstrip()] and [s.strip()], on the characters of [s]. *)
Fixpoint lstrip (l : list ascii) : list ascii :=
  match l with
  | c :: r => if Py.isspace c then lstrip r else l
  | [] => []
  end.

Definition strip (l : list ascii) : list ascii :=
  rev (lstrip (rev (lstrip l))).

(** Decimal digits in which single underscores may separate digits. *)
Fixpoint digits (l : list ascii) (acc : Z) (after_digit : bool) : option Z :=
  match l with
  | [] => if after_digit then Some acc else None
  | c :: r =>
      if Py.in_range 48 57 c then digits r (10 * acc + (Py.ord c - 48)) true
      else if (Py.ord c =? 95) && after_digit then digits r acc false
      else None
  end.

(** The characters [int] skips around a number: the ASCII whitespace (tab to
    carriage return, space) and, of the other Latin-1 characters, U+0085 and
    U+00A0.  The separators U+001C to U+001F, which [str.strip] removes, are
    not among them. *)
Definition int_space (c : ascii) : bool :=
  Py.in_range 9 13 c || (Py.ord c =? 32) || (Py.ord c =? 133) || (Py.ord c =? 160).

Fixpoint int_lstrip (l : list ascii) : list ascii :=
  match l with
  | c :: r => if int_space c then int_lstrip r else l
  | [] => []
  end.

Definition int_strip (l : list ascii) : list ascii :=
  rev (int_lstrip (rev (int_lstrip l))).

(** [int(s)] for a [str]: surrounding whitespace, an optional sign, decimal
    digits; [None] is [ValueError].  (The interpreter's cap on the number of
    digits is not modelled.) *)
Definition int_of_str (s : string) : option Z :=
  match int_strip (list_ascii_of_string s) with
  | c :: r =>
      if Py.ord c =? 45 then option_map Z.opp (digits r 0 false)
      else if Py.ord c =? 43 then digits r 0 false
      else digits (c :: r) 0 false
  | [] => None
  end.

(** [int(v)]; [None] is [TypeError], [ValueError] or [OverflowError]. *)
Definition to_int (v : json) : option Z :=
  match v with
  | JInt z => Some z
  | JBool b => Some (if b then 1 else 0)
  | JFloat q => Some (Py.trunc q)
  | JStr s => int_of_str s
  | JNull | JNonFinite | JList _ | JDict _ => None
  end.

End Json.

(** ** Answer evaluation (the [try]/[except] block of [stt_endpoint]) *)

(** What the evaluation call produced: [None] when [ollama.chat] raised or
    its content was not valid JSON, [Some v] when [json.loads] returned [v]. *)
Definition eval_reply := option json.

Definition fallback_feedback : json := JStr "Automated fallback feedback.".

(** [min(5, max(0, len(transcript.split()) // 20))]. *)
Definition fallback_score (transcript : string) : Z :=
  Z.min 5 (Z.max 0 (Py.len (Py.split transcript) / 20)).

(** Returns [(score_obtained, feedback)].  Reading ["score"] from a value
    that is not an object, or converting it with [int], may raise; every
    exception lands in the [except] branch. *)
Definition evaluate (transcript : string) (reply : eval_reply) : Z * json :=
  match reply with
  | Some (JDict eval_json) =>
      match Json.to_int (Json.get eval_json "score" (JInt 0)) with
      | Some score_obtained =>
          (score_obtained, Json.get eval_json "feedback" (JStr ""))
      | None => (fallback_score transcript, fallback_feedback)
      end
  | _ => (fallback_score transcript, fallback_feedback)
  end.

(** ** [models.py] and the résumé collection *)

(** One item of the question list kept in [Interview.questions]: a JSON
    object whose ["question"] is a string, whose ["skill"], when the key is
    present, is a string and whose ["max_score"], when present, is an
    integer.  [None] is an absent key.  Such a list is what [json.loads]
    gives back from the text that [json.dumps] stored. *)
Module QuestionSpec.
Record t : Type := mk
  { skill : option string; question : string; max_score : option Z }.
End QuestionSpec.

Module Interview.
Record t : Type := mk
  { id : Z; user_id : Z; type : string; date : Z;
    questions : list QuestionSpec.t }.
End Interview.

Module Answer.
Record t : Type := mk
  { interview_id : Z; question_text : string; answer_text : option string;
    skill : option string; max_score : Z }.
End Answer.

Module Score.
Record t : Type := mk
  { interview_id : Z; skill : string; score_obtained : Z; score_total : Z }.
End Score.

Module Report.
Record t : Type := mk
  { interview_id : Z; overall_score : float; pdf_path : string;
    generated_at : Z }.
End Report.

(** A document of the résumé collection, reduced to the fields read here. *)
Module Resume.
Record t : Type := mk { user_id : Z; skills : list string }.
End Resume.

(** The persisted state.  Primary keys of answers, scores and reports are
    never read by the program and are left out.  A column is taken to hold
    whatever is written to it: the limits of the column types (the range of
    [Integer], the lengths of [String(n)] and [Text]) and a commit that the
    database refuses are not modelled. *)
Record Store : Type := mkStore
  { resumes : list Resume.t;
    interviews : list Interview.t;
    answers : list Answer.t;
    scores : list Score.t;
    reports : list Report.t }.

Definition empty_store (rs : list Resume.t) : Store :=
  mkStore rs [] [] [] [].

(** Rejections raised with [HTTPException], and the uncaught exception. *)
Inductive error : Type :=
| NotFound        (* 404 "Interview not found" *)
| InvalidIndex    (* 400 "Invalid question index" *)
| ResumeMissing   (* 400 "Resume not found" *)
| InternalError.  (* any exception that no handler catches *)

Inductive outcome (A : Type) : Type :=
| Ok (a : A)
| Err (e : error).
Arguments Ok {A} a.
Arguments Err {A} e.

(** ** Queries *)

(** [db.query(Interview).filter_by(id=..., user_id=...).first()] *)
Definition find_interview (st : Store) (interview_id user : Z)
  : option Interview.t :=
  find (fun iv => (Interview.id iv =? interview_id)
                  && (Interview.user_id iv =? user))
       (interviews st).

(** [resume_collection.find_one({"user_id": ...})] *)
Definition find_resume (st : Store) (user : Z) : option Resume.t :=
  find (fun r => Resume.user_id r =? user) (resumes st).

Definition answer_matches (interview_id : Z) (question_text : string)
  (a : Answer.t) : bool :=
  (Answer.interview_id a =? interview_id)
  && String.eqb (Answer.question_text a) question_text.

(** [db.query(Answer).filter_by(interview_id=..., question_text=...).first()] *)
Definition find_answer (st : Store) (interview_id : Z) (question_text : string)
  : option Answer.t :=
  find (answer_matches interview_id question_text) (answers st).

(** [db.query(Answer).filter_by(interview_id=...).all()] *)
Definition answers_of (st : Store) (interview_id : Z) : list Answer.t :=
  filter (fun a => Answer.interview_id a =? interview_id) (answers st).

(** [db.query(Score).filter_by(interview_id=...).all()] *)
Definition scores_of (st : Store) (interview_id : Z) : list Score.t :=
  filter (fun s => Score.interview_id s =? interview_id) (scores st).


(** ** [start_interview] *)

(** What the generation call produced: [None] when [ollama.chat] raised or
    its content was not valid JSON, [Some qs] when [json.loads] returned the
    array [qs] of well-formed items (see [QuestionSpec.t]).  Replies that
    parse to anything else (a value that is not an array, an item without a
    string ["question"], a key bound to [null] or to a value of another
    type) are outside this model; on some of them the handler commits the
    interview row and raises before the answer rows are committed. *)
Definition gen_reply := option (list QuestionSpec.t).

(** One iteration of the placeholder loop; [None] is the exception raised by
    [i % len(skills)] or by the subscript. *)
Definition placeholder (skills : list string) (i : Z)
  : option QuestionSpec.t :=
  if Py.len skills =? 0 then None
  else match Py.index skills (i mod Py.len skills) with
       | Some sk =>
           Some (QuestionSpec.mk
                   (Some sk)
                   ("Placeholder question #" ++ Py.str_of_int (i + 1)
                      ++ " for " ++ sk)
                   (Some 5))
       | None => None
       end.

(** [for i in range(n): questions_json.append(...)], from [i = start]. *)
Fixpoint placeholders_from (skills : list string) (start : Z) (n : nat)
  : option (list QuestionSpec.t) :=
  match n with
  | O => Some []
  | S k =>
      match placeholder skills start with
      | Some q => option_map (cons q) (placeholders_from skills (start + 1) k)
      | None => None
      end
  end.

Definition fallback_questions (skills : list string)
  : option (list QuestionSpec.t) :=
  placeholders_from skills 0 15.

(** [resume_doc.get("skills", []) or ["General"]] *)
Definition skills_or_general (skills : list string) : list string :=
  match skills with
  | [] => ["General"]
  | _ => skills
  end.

(** The question list that [start_interview] ends up with; [None] when the
    [except] branch itself raises. *)
Definition generate_questions (skills : list string) (reply : gen_reply)
  : option (list QuestionSpec.t) :=
  match reply with
  | Some questions_json => Some questions_json
  | None => fallback_questions skills
  end.

(** [q.get("max_score", 5)] on a well-formed item: the key is absent or
    bound to an integer. *)
Definition max_score_or_5 (q : QuestionSpec.t) : Z :=
  match QuestionSpec.max_score q with Some m => m | None => 5 end.

(** [q.get("skill", "General")] on a well-formed item: the key is absent or
    bound to a string. *)
Definition skill_or_general (q : QuestionSpec.t) : string :=
  match QuestionSpec.skill q with Some s => s | None => "General" end.

(** The row added for one question by the loop that follows the commit of
    the interview. *)
Definition answer_placeholder (interview_id : Z) (q : QuestionSpec.t)
  : Answer.t :=
  Answer.mk interview_id (QuestionSpec.question q) None (QuestionSpec.skill q)
            (max_score_or_5 q).

(** The primary key given to the next interview row: keys are handed out in
    sequence from 1 and no row is ever deleted. *)
Definition next_interview_id (st : Store) : Z := Py.len (interviews st) + 1.

(** Returns [(interview_id, questions_count)]. *)
Definition start_interview (interview_type : string) (user now : Z)
  (reply : gen_reply) (st : Store) : outcome (Z * Z) * Store :=
  match find_resume st user with
  | None => (Err ResumeMissing, st)
  | Some resume_doc =>
      let skills := skills_or_general (Resume.skills resume_doc) in
      match generate_questions skills reply with
      | None => (Err InternalError, st)
      | Some questions_json =>
          let iid := next_interview_id st in
          let interview :=
            Interview.mk iid user interview_type now questions_json in
          let st1 :=
            mkStore (resumes st) (interviews st ++ [interview])
                    (answers st ++ map (answer_placeholder iid) questions_json)
                    (scores st) (reports st) in
          (Ok (iid, Py.len questions_json), st1)
      end
  end.

(** ** [question_page] *)

Inductive page : Type :=
| Complete (interview_id : Z)   (* 303 redirect to [/result1/{interview_id}] *)
| QuestionPage (interview_id q_index : Z) (question : string) (total : Z).

Definition question_page (interview_id q_index user : Z) (st : Store)
  : outcome page :=
  match find_interview st interview_id user with
  | None => Err NotFound
  | Some interview =>
      let questions := Interview.questions interview in
      if q_index >=? Py.len questions then Ok (Complete interview_id)
      else match Py.index questions q_index with
           | None => Err InternalError
           | Some q =>
               Ok (QuestionPage interview_id q_index (QuestionSpec.question q)
                                (Py.len questions))
           end
  end.

(** ** [stt_endpoint] *)

(** What the speech-to-text call produced: the texts of the segments, or
    [None] when it raised. *)
Definition stt_reply := option (list string).

Definition transcribe (whisper : stt_reply) : string :=
  match whisper with
  | Some segments => Py.join " " segments
  | None => ""
  end.

Definition set_answer_text (transcript : string) (a : Answer.t) : Answer.t :=
  Answer.mk (Answer.interview_id a) (Answer.question_text a) (Some transcript)
            (Answer.skill a) (Answer.max_score a).

(** [answer_row.answer_text = transcript] on the row that [first()] returned. *)
Fixpoint update_first_answer (interview_id : Z) (question_text transcript : string)
  (rows : list Answer.t) : list Answer.t :=
  match rows with
  | [] => []
  | a :: r =>
      if answer_matches interview_id question_text a
      then set_answer_text transcript a :: r
      else a :: update_first_answer interview_id question_text transcript r
  end.

(** The block "update Answer row": the answers table once the transcript is
    written to the row that [first()] found, or to a new row when there is
    none. *)
Definition update_answer_row (st : Store) (interview_id : Z)
  (q : QuestionSpec.t) (transcript : string) : list Answer.t :=
  let question_text := QuestionSpec.question q in
  match find_answer st interview_id question_text with
  | None =>
      answers st
      ++ [Answer.mk interview_id question_text (Some transcript)
                    (QuestionSpec.skill q) (max_score_or_5 q)]
  | Some _ =>
      update_first_answer interview_id question_text transcript (answers st)
  end.

Record stt_response : Type := mkSttResponse
  { transcript : string; score : Z; feedback : json }.

(** The handler commits twice, the answer row before the evaluation and the
    score row after it; both commits are taken to succeed (see [Store]), so
    the two writes appear together in the resulting store. *)
Definition stt_endpoint (interview_id q_index : Z) (whisper : stt_reply)
  (reply : eval_reply) (user : Z) (st : Store)
  : outcome stt_response * Store :=
  let transcript := transcribe whisper in
  match find_interview st interview_id user with
  | None => (Err NotFound, st)
  | Some interview =>
      let questions := Interview.questions interview in
      if q_index >=? Py.len questions then (Err InvalidIndex, st)
      else
        match Py.index questions q_index with
        | None => (Err InternalError, st)
        | Some q =>
            let answers1 := update_answer_row st interview_id q transcript in
            let (score_obtained, feedback) := evaluate transcript reply in
            let score_obj :=
              Score.mk interview_id (skill_or_general q) score_obtained
                       (max_score_or_5 q) in
            (Ok (mkSttResponse transcript score_obtained feedback),
             mkStore (resumes st) (interviews st) answers1
                     (scores st ++ [score_obj]) (reports st))
        end
  end.

(** ** [immediate_result] *)

(** [(x / y * 100) if y > 0 else 0.0] *)
Definition percent (x y : Z) : float :=
  if y >? 0 then PrimFloat.mul (Py.truediv x y) (Py.float_of_int 100)
  else 0%float.

Module Bucket.
Record t : Type := mk { obtained : Z; total : Z }.
End Bucket.

(** A Python [dict] with string keys: bindings in insertion order. *)
Module Dict.
Section Ops.
Context {V : Type}.

Definition t := list (string * V).

Fixpoint get (m : t) (k : string) : option V :=
  match m with
  | [] => None
  | (k', v) :: r => if String.eqb k' k then Some v else get r k
  end.

Definition mem (m : t) (k : string) : bool :=
  match get m k with Some _ => true | None => false end.

(** [m[k] = v]: in place for a key already present, at the end otherwise. *)
Fixpoint set (m : t) (k : string) (v : V) : t :=
  match m with
  | [] => [(k, v)]
  | (k', v') :: r =>
      if String.eqb k' k then (k', v) :: r else (k', v') :: set r k v
  end.

Definition keys (m : t) : list string := map fst m.
Definition values (m : t) : list V := map snd m.

End Ops.
Arguments t V : clear implicits.
End Dict.

(** The body of [for s in scores]. *)
Definition add_score (skill_map : Dict.t Bucket.t) (s : Score.t)
  : Dict.t Bucket.t :=
  let skill_map1 :=
    if Dict.mem skill_map (Score.skill s) then skill_map
    else Dict.set skill_map (Score.skill s) (Bucket.mk 0 0) in
  match Dict.get skill_map1 (Score.skill s) with
  | Some b =>
      Dict.set skill_map1 (Score.skill s)
               (Bucket.mk (Bucket.obtained b + Score.score_obtained s)
                          (Bucket.total b + Score.score_total s))
  | None => skill_map1   (* unreachable: the key was just ensured *)
  end.

Record result_view : Type := mkResultView
  { skill_map : Dict.t Bucket.t;
    overall_obtained : Z;
    overall_total : Z;
    overall_pct : float }.

(** The aggregation of [immediate_result], from the line that follows the
    query to the template context. *)
Definition aggregate (scores : list Score.t) : result_view :=
  let skill_map := fold_left add_score scores [] in
  let overall_obtained := Py.sum (map Bucket.obtained (Dict.values skill_map)) in
  let overall_total := Py.sum (map Bucket.total (Dict.values skill_map)) in
  mkResultView skill_map overall_obtained overall_total
               (percent overall_obtained overall_total).

Definition immediate_result (interview_id user : Z) (st : Store)
  : outcome result_view :=
  match find_interview st interview_id user with
  | None => Err NotFound
  | Some _ => Ok (aggregate (scores_of st interview_id))
  end.

(** ** [generate_pdf_report] and [generate_report_api] *)

(** The clock is an input of the model: [stamp] is the integer that
    [int(datetime.utcnow().timestamp())] returned in the call.  How that
    integer follows from the wall clock (the naive UTC reading is taken as
    local time and converted through a float) is the platform's business
    and is left outside. *)
Definition report_filename (interview_id stamp : Z) : string :=
  "report_" ++ Py.str_of_int interview_id ++ "_"
    ++ Py.str_of_int stamp ++ ".pdf".

(** The path returned by [generate_pdf_report]; drawing the document is the
    renderer's business and has no part in the path. *)
Definition generate_pdf_report (interview_id stamp : Z) : string :=
  "reports/" ++ report_filename interview_id stamp.

Record report_response : Type := mkReportResponse
  { pdf_url : string; pdf_path : string }.

(** [now] is the stamp obtained inside [generate_pdf_report], [now'] the
    clock reading stored as [generated_at]. *)
Definition generate_report_api (interview_id user now now' : Z) (st : Store)
  : outcome report_response * Store :=
  match find_interview st interview_id user with
  | None => (Err NotFound, st)
  | Some interview =>
      let score_rows := scores_of st interview_id in
      let total_obtained := Py.sum (map Score.score_obtained score_rows) in
      let total_possible := Py.sum (map Score.score_total score_rows) in
      let overall_pct := percent total_obtained total_possible in
      let pdf_path := generate_pdf_report interview_id now in
      let report := Report.mk interview_id overall_pct pdf_path now' in
      (Ok (mkReportResponse ("/reports/" ++ report_filename interview_id now)
                            pdf_path),
       mkStore (resumes st) (interviews st) (answers st) (scores st)
               (reports st ++ [report]))
  end.

(** ** The drawing of [generate_pdf_report] *)

Module Str.

(** [s[:n]] *)
Fixpoint slice_to (n : nat) (s : string) : string :=
  match n, s with
  | S k, String c r => String c (slice_to k r)
  | _, _ => EmptyString
  end.

(** [s[n:]] *)
Fixpoint slice_from (n : nat) (s : string) : string :=
  match n, s with
  | S k, String c r => slice_from k r
  | _, _ => s
  end.

(** [s.strip()] *)
Definition strip (s : string) : string :=
  string_of_list_ascii (Json.strip (list_ascii_of_string s)).

End Str.

Module Pdf.

(** A call on the canvas, in the order the calls are made. *)
Inductive op : Type :=
| SetFont (name : string) (size : Z)
| DrawString (x y : Z) (text : string)
| ShowPage
| Save.

End Pdf.

(** [if y < 80: c.showPage(); y = 800] *)
Definition page_break (y : Z) : list Pdf.op * Z :=
  if y <? 80 then ([Pdf.ShowPage], 800) else ([], y).

(** [for s in scores], started with the pen at height [y]; returns the calls
    made and the height of the pen after the loop. *)
Fixpoint draw_scores (score_rows : list Score.t) (y : Z) : list Pdf.op * Z :=
  match score_rows with
  | [] => ([], y)
  | s :: rest =>
      let line :=
        (Score.skill s ++ ": " ++ Py.str_of_int (Score.score_obtained s)
           ++ "/" ++ Py.str_of_int (Score.score_total s))%string in
      let (brk, y1) := page_break (y - 18) in
      let (ops, y2) := draw_scores rest y1 in
      (Pdf.SetFont "Helvetica" 12 :: Pdf.DrawString 50 y line :: brk ++ ops, y2)
  end.

(** [while text: chunk = text[:120]; ...; text = text[120:]].  Every round
    shortens a non-empty text, so [fuel] rounds are enough for a text of
    [fuel] characters. *)
Fixpoint draw_chunks (fuel : nat) (text : string) (y : Z) : list Pdf.op * Z :=
  match fuel with
  | O => ([], y)
  | S k =>
      match text with
      | EmptyString => ([], y)
      | _ =>
          let chunk := Str.slice_to 120 text in
          let (brk, y1) := page_break (y - 14) in
          let (ops, y2) := draw_chunks k (Str.slice_from 120 text) y1 in
          (Pdf.DrawString 50 y chunk :: brk ++ ops, y2)
      end
  end.

(** [(a.answer_text or "").strip()] *)
Definition stripped_answer (a : Answer.t) : string :=
  Str.strip (match Answer.answer_text a with Some t => t | None => "" end).

(** [for a in answers]; an answer whose stripped text is empty is skipped. *)
Fixpoint draw_answers (answer_rows : list Answer.t) (y : Z)
  : list Pdf.op * Z :=
  match answer_rows with
  | [] => ([], y)
  | a :: rest =>
      let text := stripped_answer a in
      let (ops1, y1) := draw_chunks (String.length text) text y in
      let (ops2, y2) := draw_answers rest y1 in
      (ops1 ++ ops2, y2)
  end.

Section Drawing.

(** [str(d)] for the [datetime] of a clock reading and [format(x, ".2f")]
    for a [float] are taken as given. *)
Variable str_of_datetime : Z -> string.
Variable format_2f : float -> string.

(** The calls that [generate_pdf_report] makes on the canvas. *)
Definition report_drawing (interview_id : Z) (interview_obj : Interview.t)
  (answer_rows : list Answer.t) (score_rows : list Score.t)
  (total_obtained total_possible : Z) (overall_pct : float) : list Pdf.op :=
  let x := 50 in
  let y := 800 in
  let head :=
    [ Pdf.SetFont "Helvetica-Bold" 16;
      Pdf.DrawString x y ("Interview Report - ID " ++ Py.str_of_int interview_id);
      Pdf.SetFont "Helvetica" 12;
      Pdf.DrawString x (y - 30)
        ("Date: " ++ str_of_datetime (Interview.date interview_obj));
      Pdf.DrawString x (y - 30 - 20)
        ("Interview Type: " ++ Interview.type interview_obj);
      Pdf.SetFont "Helvetica-Bold" 14;
      Pdf.DrawString x (y - 30 - 20 - 30) "Per-Skill Scores:" ] in
  let (score_ops, y1) := draw_scores score_rows (y - 30 - 20 - 30 - 20) in
  let y2 := y1 - 10 in
  let overall :=
    [ Pdf.SetFont "Helvetica-Bold" 12;
      Pdf.DrawString x y2
        ("Overall: " ++ Py.str_of_int total_obtained ++ "/"
           ++ Py.str_of_int total_possible ++ " (" ++ format_2f overall_pct
           ++ "%)");
      Pdf.SetFont "Helvetica-Bold" 12;
      Pdf.DrawString x (y2 - 30) "Answers (transcripts):";
      Pdf.SetFont "Helvetica" 11 ] in
  let (answer_ops, _) := draw_answers answer_rows (y2 - 30 - 18) in
  head ++ score_ops ++ overall ++ answer_ops ++ [Pdf.Save].

End Drawing.

(** The texts of the [drawString] calls, in order. *)
Definition drawn_texts (ops : list Pdf.op) : list string :=
  flat_map (fun o => match o with Pdf.DrawString _ _ t => [t] | _ => [] end) ops.

(** A call that draws, if at all, at the left margin and at a height within
    [lo, 800]. *)
Definition drawn_within (lo : Z) (o : Pdf.op) : Prop :=
  match o with
  | Pdf.DrawString x y _ => x = 50 /\ lo <= y <= 800
  | _ => True
  end.

(** ** Sequences of requests *)

Inductive request : Type :=
| Start (user : Z) (interview_type : string) (now : Z) (reply : gen_reply)
| GetQuestion (user interview_id q_index : Z)
| SubmitAnswer (user interview_id q_index : Z) (whisper : stt_reply)
               (reply : eval_reply)
| ViewResult (user interview_id : Z)
| GenerateReport (user interview_id now now' : Z).

Definition step (st : Store) (r : request) : Store :=
  match r with
  | Start user ty now reply => snd (start_interview ty user now reply st)
  | GetQuestion _ _ _ => st
  | SubmitAnswer user iid i whisper reply =>
      snd (stt_endpoint iid i whisper reply user st)
  | ViewResult _ _ => st
  | GenerateReport user iid now now' =>
      snd (generate_report_api iid user now now' st)
  end.

Definition run (st : Store) (rs : list request) : Store :=
  fold_left step rs st.

(** ** [api_register] *)

Module User.
Record t : Type := mk
  { id : Z; username : string; email : string; password_hash : string;
    created_at : Z }.
End User.










(** ** Notions used to state the properties *)

(** The elements of [l] in order of first appearance. *)
Fixpoint first_seen (l : list string) : list string :=
  match l with
  | [] => []
  | x :: r => x :: filter (fun y => negb (String.eqb y x)) (first_seen r)
  end.

(** The rows of one skill. *)
Definition of_skill (k : string) (rows : list Score.t) : list Score.t :=
  filter (fun s => String.eqb (Score.skill s) k) rows.

(** The rows of the answers table for one question text of one interview. *)
Definition answer_rows (st : Store) (interview_id : Z) (question_text : string)
  : list Answer.t :=
  filter (answer_matches interview_id question_text) (answers st).


(** The text of placeholder number [i] (counted from 0) for skill [sk]. *)
Definition placeholder_text (i : Z) (sk : string) : string :=
  "Placeholder question #" ++ Py.str_of_int (i + 1) ++ " for " ++ sk.

(** A store with one résumé and one interview of fifteen placeholder
    questions, used in the examples. *)
Definition demo_store : Store :=
  snd (start_interview "technical" 1 1730000000000000 None
                       (empty_store [Resume.mk 1 ["Python"]])).

(** The demo interview after two submissions, scored 3 and 4 by the
    evaluation call. *)
Definition answered_store : Store :=
  run demo_store
      [SubmitAnswer 1 1 0 (Some ["a list is mutable"])
                    (Some (JDict [("score", JInt 3); ("feedback", JStr "ok")]));
       SubmitAnswer 1 1 1 (Some ["a tuple is not"])
                    (Some (JDict [("score", JInt 4); ("feedback", JStr "good")]))].

(** The values that [int] refuses whatever they contain: [None], a list,
    an object ([TypeError]) and NaN or an infinity ([ValueError],
    [OverflowError]). *)
Definition refused_by_int (v : json) : bool :=
  match v with
  | JNull | JNonFinite | JList _ | JDict _ => true
  | JBool _ | JInt _ | JFloat _ | JStr _ => false
  end.


(** The bucket of a skill, all zero while the skill has none. *)
Definition bucket_of (m : Dict.t Bucket.t) (k : string) : Bucket.t :=
  match Dict.get m k with Some b => b | None => Bucket.mk 0 0 end.

Definition bump (b : Bucket.t) (s : Score.t) : Bucket.t :=
  Bucket.mk (Bucket.obtained b + Score.score_obtained s)
            (Bucket.total b + Score.score_total s).

(** The part of a string that precedes its first space. *)
Fixpoint before_space (s : string) : string :=
  match s with
  | EmptyString => EmptyString
  | String c r =>
      if Ascii.eqb c " " then EmptyString else String c (before_space r)
  end.

(** What every store reached from an empty one satisfies: interview rows
    carry the keys 1, 2, ... in order; answer rows refer to interviews that
    exist; and an interview whose question texts are pairwise distinct has
    at most one answer row per question text. *)
Definition well_formed (st : Store) : Prop :=
  (forall k iv, nth_error (interviews st) k = Some iv ->
                Interview.id iv = Z.of_nat k + 1)
  /\ (forall a, In a (answers st) ->
                1 <= Answer.interview_id a <= Py.len (interviews st))
  /\ (forall iv, In iv (interviews st) ->
                 NoDup (map QuestionSpec.question (Interview.questions iv)) ->
                 forall text,
                   (List.length (answer_rows st (Interview.id iv) text) <= 1)%nat).

(** A label that begins and ends with a word character. *)
Definition word_delimited (lit : string) : bool :=
  match String.get 0 lit, String.get (String.length lit - 1) lit with
  | Some a, Some b => Py.isword a && Py.isword b
  | _, _ => false
  end.

(** A label whose last character is not a word character. *)
Definition ends_nonword (lit : string) : bool :=
  match String.get (String.length lit - 1) lit with
  | Some b => negb (Py.isword b)
  | None => false
  end.

(** The part of a string that precedes the first occurrence of [stop]. *)
Fixpoint before (stop : ascii) (s : string) : string :=
  match s with
  | EmptyString => EmptyString
  | String c r =>
      if Ascii.eqb c stop then EmptyString else String c (before stop r)
  end.

(** The key under which the program looks an answer row up. *)
Definition answer_key (a : Answer.t) : Z * string :=
  (Answer.interview_id a, Answer.question_text a).

(** The keys of all questions of all interviews: interview by interview, in
    the order of each question list. *)
Definition question_keys (st : Store) : list (Z * string) :=
  List.concat
    (map (fun iv => map (fun q => (Interview.id iv, QuestionSpec.question q))
                        (Interview.questions iv))
         (interviews st)).

(** Requests made while the generation service, respectively the evaluation
    service, is out of order. *)
Definition generation_down (r : request) : bool :=
  match r with
  | Start _ _ _ (Some _) => false
  | _ => true
  end.

Definition evaluation_down (r : request) : bool :=
  match r with
  | SubmitAnswer _ _ _ _ (Some _) => false
  | _ => true
  end.

(** How many requests of a sequence start an interview, submit an answer,
    generate a report. *)
Definition count_requests (kind : request -> bool) (reqs : list request) : nat :=
  List.length (filter kind reqs).

Definition is_start (r : request) : bool :=
  match r with Start _ _ _ _ => true | _ => false end.

Definition is_submission (r : request) : bool :=
  match r with SubmitAnswer _ _ _ _ _ => true | _ => false end.

Definition is_report (r : request) : bool :=
  match r with GenerateReport _ _ _ _ => true | _ => false end.

(** The strings of a list, one after another. *)
Definition glue (l : list string) : string := fold_right append EmptyString l.

(** The line drawn for one score row. *)
Definition score_line (s : Score.t) : string :=
  (Score.skill s ++ ": " ++ Py.str_of_int (Score.score_obtained s)
     ++ "/" ++ Py.str_of_int (Score.score_total s))%string.

(** * Properties *)

(** ** Concrete runs *)


Example ex_extract_1 :
  extract_skills_from_text "Senior PYTHON developer; MySQL, Docker and AWS."
  = ["Python"; "Mysql"; "Aws"; "Docker"].
Proof. vm_compute. reflexivity. Qed.

Example ex_extract_2 : extract_skills_from_text "" = ["General"].
Proof. vm_compute. reflexivity. Qed.

Example ex_extract_3 : extract_skills_from_text "I know C++ and C#" = ["General"].
Proof. vm_compute. reflexivity. Qed.

Example ex_extract_4 : extract_skills_from_text "c++11" = ["C++"].
Proof. vm_compute. reflexivity. Qed.

Example ex_extract_5 : extract_skills_from_text "javascripts" = ["General"].
Proof. vm_compute. reflexivity. Qed.

Example ex_split_1 : Py.split "  two  words " = ["two"; "words"].
Proof. vm_compute. reflexivity. Qed.

Example ex_str_of_int : Py.str_of_int 15 = "15" /\ Py.str_of_int (-3) = "-3"
                        /\ Py.str_of_int 0 = "0".
Proof. vm_compute. auto. Qed.

Example ex_int_of_str :
  Json.int_of_str " 4 " = Some 4 /\ Json.int_of_str "-1_0" = Some (-10)
  /\ Json.int_of_str "4/5" = None /\ Json.int_of_str "" = None
  /\ Json.int_of_str "_4" = None /\ Json.int_of_str "+" = None.
Proof. vm_compute. repeat split. Qed.

Example ex_evaluate_ok :
  evaluate "an answer"
           (Some (JDict [("score", JInt 4); ("feedback", JStr "Good.")]))
  = (4, JStr "Good.").
Proof. reflexivity. Qed.

Example ex_evaluate_str_score :
  evaluate "an answer" (Some (JDict [("score", JStr "3/5")]))
  = (0, fallback_feedback).
Proof. vm_compute. reflexivity. Qed.

Example ex_demo_questions :
  map QuestionSpec.question
      (List.concat (map Interview.questions (interviews demo_store)))
  = map (fun i => placeholder_text i "Python")
        [0; 1; 2; 3; 4; 5; 6; 7; 8; 9; 10; 11; 12; 13; 14].
Proof. vm_compute. reflexivity. Qed.

Example ex_end_to_end :
  let submit i := SubmitAnswer 1 1 (Z.of_nat i) None None in
  immediate_result 1 1 (run demo_store (map submit (seq 0 15)))
  = Ok (mkResultView [("Python", Bucket.mk 0 75)] 0 75 0%float).
Proof. vm_compute. reflexivity. Qed.

(** ** Answer evaluation *)

Lemma fallback_score_range (transcript : string) :
  0 <= fallback_score transcript <= 5.
Proof. unfold fallback_score. lia. Qed.

Lemma split_go_length_words (n : nat) (acc : list string) :
  List.length (Py.split_go (Py.repeat_str "word " n) [] acc)
  = (List.length acc + n)%nat.
Proof.
  revert acc. induction n as [|n IH]; intros acc.
  - simpl. rewrite length_rev. lia.
  - change (Py.split_go (Py.repeat_str "word " (S n)) [] acc)
      with (Py.split_go (Py.repeat_str "word " n) [] ("word" :: acc)).
    rewrite IH. simpl. lia.
Qed.

Lemma word_count_repeat (n : nat) :
  Py.len (Py.split (Py.repeat_str "word " n)) = Z.of_nat n.
Proof.
  unfold Py.len, Py.split. rewrite split_go_length_words. reflexivity.
Qed.

(** C4. When the evaluation call raises or its output is not JSON, the
    evaluator returns the score [min(5, max(0, word_count // 20))] with the
    feedback "Automated fallback feedback."; the empty transcript scores 0,
    forty words score 2, two hundred words score 5, and in general [n]
    words score [min(5, n // 20)]. *)
Theorem C4_fallback_evaluation :
  (forall transcript,
      evaluate transcript None
      = (Z.min 5 (Z.max 0 (Py.len (Py.split transcript) / 20)),
         JStr "Automated fallback feedback."))
  /\ fst (evaluate "" None) = 0
  /\ fst (evaluate (Py.repeat_str "word " 40) None) = 2
  /\ fst (evaluate (Py.repeat_str "word " 200) None) = 5
  /\ (forall n, fst (evaluate (Py.repeat_str "word " n) None)
                = Z.min 5 (Z.of_nat n / 20)).
Proof.
  split; [reflexivity|].
  assert (G : forall n, fst (evaluate (Py.repeat_str "word " n) None)
                        = Z.min 5 (Z.of_nat n / 20)).
  { intros n. cbn [evaluate fst]. unfold fallback_score.
    rewrite word_count_repeat.
    assert (0 <= Z.of_nat n / 20) by (apply Z.div_pos; lia). lia. }
  split; [reflexivity|].
  split; [rewrite G; reflexivity|].
  split; [rewrite G; reflexivity|exact G].
Qed.

(** Every way of landing in the [except] branch gives the same result. *)
Lemma evaluate_fallback_cases (transcript : string) (reply : eval_reply) :
  match reply with
  | None | Some JNull | Some (JBool _) | Some (JInt _) | Some (JFloat _)
  | Some JNonFinite | Some (JStr _) | Some (JList _) =>
      evaluate transcript reply = (fallback_score transcript, fallback_feedback)
  | Some (JDict d) =>
      Json.to_int (Json.get d "score" (JInt 0)) = None ->
      evaluate transcript reply = (fallback_score transcript, fallback_feedback)
  end.
Proof.
  destruct reply as [[ | | | | | | | d]|]; try reflexivity.
  intros H. cbn [evaluate]. rewrite H. reflexivity.
Qed.

(** C1. The evaluated path stores the model's score as it is: a reply
    [{"score": 10, "feedback": "Excellent"}] for a placeholder question whose
    [max_score] is 5 is answered with score 10, and the score row appended
    is 10 out of 5; a reply with score -3 is stored as -3.  The fallback
    path stays within 0..5. *)
Theorem C1_evaluated_score_not_clamped :
  let reply z := Some (JDict [("score", JInt z); ("feedback", JStr "Excellent")]) in
  let submit z := stt_endpoint 1 0 (Some ["I"; "use"; "Python"]) (reply z) 1 demo_store in
  fst (submit 10)
  = Ok (mkSttResponse "I use Python" 10 (JStr "Excellent"))
  /\ scores (snd (submit 10)) = [Score.mk 1 "Python" 10 5]
  /\ scores (snd (submit (-3))) = [Score.mk 1 "Python" (-3) 5]
  /\ (forall transcript, 0 <= fst (evaluate transcript None) <= 5).
Proof.
  split; [vm_compute; reflexivity|].
  split; [vm_compute; reflexivity|].
  split; [vm_compute; reflexivity|].
  intros t. apply fallback_score_range.
Qed.

(** ** Skill extraction *)

Lemma fold_append_filter {A B} (p : A -> bool) (f : A -> B) (l : list A)
  (acc : list B) :
  fold_left (fun found s => if p s then found ++ [f s] else found) l acc
  = acc ++ map f (filter p l).
Proof.
  revert acc. induction l as [|a l IH]; intros acc; simpl.
  - now rewrite app_nil_r.
  - rewrite IH. destruct (p a); simpl; [now rewrite <- app_assoc|reflexivity].
Qed.

(** The loop collects, in vocabulary order, the capitalized labels that the
    pattern finds. *)
Lemma extract_skills_as_filter (text : string) :
  extract_skills_from_text text
  = match map Py.capitalize
              (filter (fun s => Re.search_word s (Py.lower text)) KNOWN_SKILLS)
    with
    | [] => ["General"]
    | found => found
    end.
Proof.
  unfold extract_skills_from_text.
  rewrite (fold_append_filter (fun s => Re.search_word s (Py.lower text))
                              Py.capitalize KNOWN_SKILLS []).
  cbn [app]. destruct (map Py.capitalize _); reflexivity.
Qed.

Lemma extract_skills_nonempty (text : string) :
  extract_skills_from_text text <> [].
Proof.
  unfold extract_skills_from_text.
  destruct (fold_left _ KNOWN_SKILLS []); discriminate.
Qed.

Lemma word_at_get (s : string) (p : Z) (n : nat) (c : ascii) :
  p = Z.of_nat n -> String.get n s = Some c -> Re.word_at s p = Py.isword c.
Proof.
  intros -> H. unfold Re.word_at.
  destruct (Z.ltb_spec (Z.of_nat n) 0); [lia|].
  now rewrite Nat2Z.id, H.
Qed.

(** For a label that begins and ends with a word character, the pattern
    matches at a position exactly when the label stands there as a whole
    word. *)
Lemma match_at_whole_word (lit s : string) (i : nat) :
  word_delimited lit = true ->
  Re.match_at lit s (Z.of_nat i) = whole_word_at lit s (Z.of_nat i).
Proof.
  unfold word_delimited, Re.match_at, whole_word_at, Re.boundary.
  intros Hd.
  destruct (Re.literal_at lit s (Z.of_nat i)) eqn:L;
    [|now rewrite andb_false_r].
  unfold Re.literal_at in L. apply String.eqb_eq in L.
  rewrite Nat2Z.id in L.
  destruct (String.get 0 lit) as [a|] eqn:Ga; [|discriminate].
  destruct (String.get (String.length lit - 1) lit) as [b|] eqn:Gb;
    [|discriminate].
  apply andb_true_iff in Hd as [Ha Hb].
  assert (Hn : (0 < String.length lit)%nat)
    by (destruct lit; [discriminate|cbn; lia]).
  assert (Hfirst : String.get i s = Some a).
  { rewrite <- Ga, <- L at 1. now rewrite substring_correct1. }
  assert (Hlast : String.get (String.length lit - 1 + i) s = Some b).
  { rewrite <- Gb. rewrite <- L at 3.
    rewrite substring_correct1 by lia. reflexivity. }
  rewrite (word_at_get s (Z.of_nat i) i a eq_refl Hfirst), Ha.
  rewrite (word_at_get s (Z.of_nat i + Re.slen lit - 1)
                       (String.length lit - 1 + i) b); [|unfold Re.slen; lia|exact Hlast].
  rewrite Hb. cbn [xorb andb].
  rewrite !andb_true_r.
  now destruct (Re.word_at s (Z.of_nat i - 1)),
               (Re.word_at s (Z.of_nat i + Re.slen lit)).
Qed.

(** Hence the code extracts what the specification describes from every text
    in which the labels that do not begin and end with a word character
    ("c++" and "c#") do not occur. *)
Lemma extract_skills_agree (text : string) :
  (forall lit i, In lit KNOWN_SKILLS -> word_delimited lit = false ->
                 Re.literal_at lit (Py.lower text) (Z.of_nat i) = false) ->
  extract_skills_from_text text = extract_spec text.
Proof.
  intros H. rewrite extract_skills_as_filter. unfold extract_spec.
  replace (filter (fun s => Re.search_word s (Py.lower text)) KNOWN_SKILLS)
    with (filter (fun s => occurs_as_whole_word s (Py.lower text)) KNOWN_SKILLS);
    [cbv zeta; now destruct (map Py.capitalize _)|].
  apply filter_ext_in. intros lit Hin.
  unfold occurs_as_whole_word, Re.search_word.
  induction (seq 0 (S (String.length (Py.lower text)))) as [|i l IH];
    [reflexivity|].
  cbn [existsb]. rewrite IH. f_equal.
  destruct (word_delimited lit) eqn:D.
  - symmetry. now apply match_at_whole_word.
  - unfold whole_word_at, Re.match_at. rewrite (H lit i Hin D).
    now rewrite andb_false_r.
Qed.

Example ex_word_delimited :
  filter (fun s => negb (word_delimited s)) KNOWN_SKILLS = ["c++"; "c#"].
Proof. vm_compute. reflexivity. Qed.

(** C5. The résumé text "I know C++" contains the vocabulary term as a whole
    word, yet the extraction returns only "General": the pattern asks for a
    word boundary after the final "+", which exists only when a word
    character follows.  Likewise "C# and Java" yields "Java" alone.  The
    result is never empty. *)
Theorem C5_symbol_labels_not_extracted :
  extract_skills_from_text "I know C++" = ["General"]
  /\ extract_spec "I know C++" = ["C++"]
  /\ extract_skills_from_text "C# and Java" = ["Java"]
  /\ extract_spec "C# and Java" = ["Java"; "C#"]
  /\ extract_skills_from_text "c++11" = ["C++"]
  /\ extract_spec "c++11" = ["General"]
  /\ (forall text, extract_skills_from_text text <> []).
Proof.
  repeat (split; [vm_compute; reflexivity|]).
  exact extract_skills_nonempty.
Qed.

(** ** Question-set generation *)

Lemma len_nonneg {A} (l : list A) : 0 <= Py.len l.
Proof. unfold Py.len. lia. Qed.

Lemma len_pos {A} (l : list A) : l <> [] -> 0 < Py.len l.
Proof. destruct l; [congruence|]. unfold Py.len. simpl. lia. Qed.

Lemma index_nonneg {A} (l : list A) (i : Z) :
  0 <= i -> Py.index l i = nth_error l (Z.to_nat i).
Proof.
  intros H. unfold Py.index.
  destruct (0 <=? i) eqn:E; [reflexivity|]. apply Z.leb_gt in E. lia.
Qed.

Lemma index_negative {A} (l : list A) (i : Z) :
  - Py.len l <= i < 0 -> Py.index l i = nth_error l (Z.to_nat (Py.len l + i)).
Proof.
  intros H. unfold Py.index.
  destruct (0 <=? i) eqn:E; [apply Z.leb_le in E; lia|].
  destruct (- Py.len l <=? i) eqn:E'; [reflexivity|].
  apply Z.leb_gt in E'. lia.
Qed.

Lemma index_below {A} (l : list A) (i : Z) :
  i < - Py.len l -> Py.index l i = None.
Proof.
  intros H. pose proof (len_nonneg l). unfold Py.index.
  destruct (0 <=? i) eqn:E; [apply Z.leb_le in E; lia|].
  destruct (- Py.len l <=? i) eqn:E'; [apply Z.leb_le in E'; lia|reflexivity].
Qed.

Lemma placeholder_ok (skills : list string) (i : Z) :
  skills <> [] ->
  exists sk,
    nth_error skills (Z.to_nat (i mod Py.len skills)) = Some sk
    /\ placeholder skills i
       = Some (QuestionSpec.mk (Some sk) (placeholder_text i sk) (Some 5)).
Proof.
  intros Hne. pose proof (len_pos skills Hne) as Hpos.
  assert (Hm : 0 <= i mod Py.len skills < Py.len skills)
    by (apply Z.mod_pos_bound; lia).
  destruct (nth_error skills (Z.to_nat (i mod Py.len skills))) as [sk|] eqn:E.
  - exists sk. split; [reflexivity|]. unfold placeholder.
    destruct (Py.len skills =? 0) eqn:E0; [apply Z.eqb_eq in E0; lia|].
    rewrite index_nonneg by lia. rewrite E. reflexivity.
  - apply nth_error_None in E. unfold Py.len in *. lia.
Qed.

Lemma placeholders_from_ok (skills : list string) :
  skills <> [] ->
  forall n start,
  exists qs,
    placeholders_from skills start n = Some qs
    /\ List.length qs = n
    /\ forall k, (k < n)%nat ->
         exists sk,
           nth_error skills
                     (Z.to_nat ((start + Z.of_nat k) mod Py.len skills))
           = Some sk
           /\ nth_error qs k
              = Some (QuestionSpec.mk
                        (Some sk) (placeholder_text (start + Z.of_nat k) sk)
                        (Some 5)).
Proof.
  intros Hne. induction n as [|n IH]; intros start.
  - exists []. split; [reflexivity|]. split; [reflexivity|]. intros k Hk. lia.
  - destruct (placeholder_ok skills start Hne) as [sk [Hsk Hq]].
    destruct (IH (start + 1)) as [qs [Hqs [Hlen Hnth]]].
    eexists. cbn [placeholders_from]. rewrite Hq, Hqs. cbn [option_map].
    split; [reflexivity|]. split; [simpl; now rewrite Hlen|].
    intros [|k] Hk.
    + exists sk. rewrite Z.add_0_r. split; [exact Hsk|reflexivity].
    + destruct (Hnth k ltac:(lia)) as [sk' [H1 H2]].
      exists sk'. replace (start + Z.of_nat (S k)) with (start + 1 + Z.of_nat k) by lia.
      split; [exact H1|exact H2].
Qed.

Lemma skills_or_general_nonempty (doc_skills : list string) :
  skills_or_general doc_skills <> [].
Proof. destruct doc_skills; discriminate. Qed.


(** With a résumé on file, a failed generation call still starts the
    interview: fifteen questions and fifteen empty answer rows. *)
Lemma start_interview_fallback (ty : string) (user now : Z) (st : Store)
  (r : Resume.t) :
  find_resume st user = Some r ->
  exists qs,
    fallback_questions (skills_or_general (Resume.skills r)) = Some qs
    /\ List.length qs = 15%nat
    /\ start_interview ty user now None st
       = (Ok (next_interview_id st, 15),
          mkStore (resumes st)
                  (interviews st
                     ++ [Interview.mk (next_interview_id st) user ty now qs])
                  (answers st
                     ++ map (answer_placeholder (next_interview_id st)) qs)
                  (scores st) (reports st)).
Proof.
  intros Hr.
  destruct (placeholders_from_ok
              (skills_or_general (Resume.skills r))
              (skills_or_general_nonempty (Resume.skills r)) 15 0)
    as [qs [Hqs [Hlen _]]].
  exists qs. split; [exact Hqs|]. split; [exact Hlen|].
  unfold start_interview. rewrite Hr. cbn [generate_questions].
  unfold fallback_questions. rewrite Hqs.
  unfold Py.len. rewrite Hlen. reflexivity.
Qed.

(** ** Score aggregation *)

Lemma sum_from (l : list Z) (a : Z) : fold_left Z.add l a = a + Py.sum l.
Proof.
  unfold Py.sum. revert a. induction l as [|x l IH]; intros a; simpl.
  - lia.
  - rewrite IH, (IH x). lia.
Qed.

Lemma sum_cons (x : Z) (l : list Z) : Py.sum (x :: l) = x + Py.sum l.
Proof. unfold Py.sum at 1. simpl. apply sum_from. Qed.


Section DictFacts.
Context {V : Type}.
Implicit Types (m : Dict.t V) (k : string) (v : V).

Lemma dict_get_set_same m k v : Dict.get (Dict.set m k v) k = Some v.
Proof.
  induction m as [|[k' v'] m IH]; simpl.
  - now rewrite String.eqb_refl.
  - destruct (String.eqb k' k) eqn:E; simpl; rewrite E; [reflexivity|exact IH].
Qed.

Lemma dict_get_set_other m k k' v :
  k <> k' -> Dict.get (Dict.set m k v) k' = Dict.get m k'.
Proof.
  intros Hne. induction m as [|[k0 v0] m IH]; simpl.
  - destruct (String.eqb_spec k k'); [contradiction|reflexivity].
  - destruct (String.eqb_spec k0 k) as [->|Hk]; simpl.
    + destruct (String.eqb_spec k k'); [contradiction|reflexivity].
    + now rewrite IH.
Qed.

Lemma dict_keys_set m k v :
  Dict.keys (Dict.set m k v)
  = if Dict.mem m k then Dict.keys m else Dict.keys m ++ [k].
Proof.
  unfold Dict.mem. induction m as [|[k0 v0] m IH]; simpl; [reflexivity|].
  destruct (String.eqb k0 k) eqn:E; simpl; [reflexivity|].
  rewrite IH. now destruct (Dict.get m k).
Qed.

Lemma dict_sum_set (f : V -> Z) m k v :
  Py.sum (map f (Dict.values (Dict.set m k v)))
  = Py.sum (map f (Dict.values m)) + f v
    - match Dict.get m k with Some b => f b | None => 0 end.
Proof.
  unfold Dict.values. induction m as [|[k0 v0] m IH]; simpl.
  - rewrite sum_cons. unfold Py.sum. simpl. lia.
  - destruct (String.eqb k0 k) eqn:E; simpl; rewrite !sum_cons.
    + lia.
    + rewrite IH. lia.
Qed.

End DictFacts.

Lemma add_score_eq (m : Dict.t Bucket.t) (s : Score.t) :
  add_score m s
  = Dict.set (if Dict.mem m (Score.skill s) then m
              else Dict.set m (Score.skill s) (Bucket.mk 0 0))
             (Score.skill s) (bump (bucket_of m (Score.skill s)) s).
Proof.
  unfold add_score, bucket_of, Dict.mem.
  destruct (Dict.get m (Score.skill s)) as [b|] eqn:E.
  - rewrite E. reflexivity.
  - rewrite dict_get_set_same. reflexivity.
Qed.

Lemma add_score_keys (m : Dict.t Bucket.t) (s : Score.t) :
  Dict.keys (add_score m s)
  = if Dict.mem m (Score.skill s) then Dict.keys m
    else Dict.keys m ++ [Score.skill s].
Proof.
  rewrite add_score_eq, dict_keys_set.
  destruct (Dict.mem m (Score.skill s)) eqn:E.
  - now rewrite E.
  - unfold Dict.mem at 1. rewrite dict_get_set_same, dict_keys_set, E.
    reflexivity.
Qed.

Lemma add_score_bucket (m : Dict.t Bucket.t) (s : Score.t) (k : string) :
  bucket_of (add_score m s) k
  = if String.eqb (Score.skill s) k then bump (bucket_of m k) s
    else bucket_of m k.
Proof.
  rewrite add_score_eq. unfold bucket_of at 1.
  destruct (String.eqb_spec (Score.skill s) k) as [<-|Hne].
  - now rewrite dict_get_set_same.
  - rewrite dict_get_set_other by exact Hne.
    destruct (Dict.mem m (Score.skill s)); [reflexivity|].
    now rewrite dict_get_set_other by exact Hne.
Qed.

Lemma add_score_mem (m : Dict.t Bucket.t) (s : Score.t) (k : string) :
  Dict.mem (add_score m s) k
  = Dict.mem m k || String.eqb k (Score.skill s).
Proof.
  rewrite add_score_eq. unfold Dict.mem at 1.
  destruct (String.eqb_spec k (Score.skill s)) as [->|Hne].
  - rewrite dict_get_set_same. now rewrite orb_true_r.
  - rewrite orb_false_r.
    rewrite dict_get_set_other by congruence.
    destruct (Dict.mem m (Score.skill s)); [reflexivity|].
    rewrite dict_get_set_other by congruence. reflexivity.
Qed.

Lemma add_score_sums (m : Dict.t Bucket.t) (s : Score.t) :
  Py.sum (map Bucket.obtained (Dict.values (add_score m s)))
  = Py.sum (map Bucket.obtained (Dict.values m)) + Score.score_obtained s
  /\ Py.sum (map Bucket.total (Dict.values (add_score m s)))
     = Py.sum (map Bucket.total (Dict.values m)) + Score.score_total s.
Proof.
  rewrite add_score_eq, !dict_sum_set. unfold bucket_of, Dict.mem.
  destruct (Dict.get m (Score.skill s)) as [b|] eqn:E.
  - rewrite E. simpl. lia.
  - rewrite dict_get_set_same, !dict_sum_set, E. simpl. lia.
Qed.

Lemma filter_filter {A} (p q : A -> bool) (l : list A) :
  filter p (filter q l) = filter (fun x => q x && p x) l.
Proof.
  induction l as [|a l IH]; simpl; [reflexivity|].
  destruct (q a); simpl; [destruct (p a)|]; now rewrite IH.
Qed.

Lemma filter_all {A} (p : A -> bool) (l : list A) :
  (forall x, p x = true) -> filter p l = l.
Proof.
  intros H. induction l as [|a l IH]; simpl; [reflexivity|].
  now rewrite H, IH.
Qed.

(** The keys of the map after the loop: those it started with, then the new
    skills in order of first appearance. *)
Lemma fold_add_score_keys (rows : list Score.t) (m : Dict.t Bucket.t) :
  Dict.keys (fold_left add_score rows m)
  = Dict.keys m
    ++ filter (fun k => negb (Dict.mem m k))
              (first_seen (map Score.skill rows)).
Proof.
  revert m. induction rows as [|s rows IH]; intros m; simpl.
  - now rewrite app_nil_r.
  - rewrite IH, add_score_keys.
    rewrite (filter_filter (fun k => negb (Dict.mem m k))).
    assert (E : filter (fun k => negb (Dict.mem (add_score m s) k))
                       (first_seen (map Score.skill rows))
                = filter (fun x => negb (String.eqb x (Score.skill s))
                                   && negb (Dict.mem m x))
                         (first_seen (map Score.skill rows))).
    { apply filter_ext. intros k. rewrite add_score_mem.
      now destruct (Dict.mem m k), (String.eqb k (Score.skill s)). }
    rewrite E. destruct (Dict.mem m (Score.skill s)); simpl.
    + reflexivity.
    + now rewrite <- app_assoc.
Qed.

Lemma fold_add_score_bucket (rows : list Score.t) (m : Dict.t Bucket.t)
  (k : string) :
  bucket_of (fold_left add_score rows m) k
  = Bucket.mk
      (Bucket.obtained (bucket_of m k)
       + Py.sum (map Score.score_obtained (of_skill k rows)))
      (Bucket.total (bucket_of m k)
       + Py.sum (map Score.score_total (of_skill k rows))).
Proof.
  revert m. induction rows as [|s rows IH]; intros m; simpl.
  - unfold Py.sum. simpl. destruct (bucket_of m k). simpl. f_equal; lia.
  - rewrite IH, add_score_bucket.
    destruct (String.eqb (Score.skill s) k); simpl.
    + rewrite !sum_cons. f_equal; lia.
    + reflexivity.
Qed.

Lemma fold_add_score_mem (rows : list Score.t) (m : Dict.t Bucket.t)
  (k : string) :
  Dict.mem (fold_left add_score rows m) k
  = Dict.mem m k || existsb (String.eqb k) (map Score.skill rows).
Proof.
  revert m. induction rows as [|s rows IH]; intros m; simpl.
  - now rewrite orb_false_r.
  - rewrite IH, add_score_mem. now rewrite orb_assoc.
Qed.

Lemma fold_add_score_sums (rows : list Score.t) (m : Dict.t Bucket.t) :
  Py.sum (map Bucket.obtained (Dict.values (fold_left add_score rows m)))
  = Py.sum (map Bucket.obtained (Dict.values m))
    + Py.sum (map Score.score_obtained rows)
  /\ Py.sum (map Bucket.total (Dict.values (fold_left add_score rows m)))
     = Py.sum (map Bucket.total (Dict.values m))
       + Py.sum (map Score.score_total rows).
Proof.
  revert m. induction rows as [|s rows IH]; intros m; simpl.
  - change (Py.sum []) with 0. lia.
  - destruct (IH (add_score m s)) as [H1 H2].
    destruct (add_score_sums m s) as [H3 H4].
    rewrite H1, H2, H3, H4, !sum_cons. lia.
Qed.

Lemma existsb_eqb_In (k : string) (l : list string) :
  existsb (String.eqb k) l = true <-> In k l.
Proof.
  rewrite existsb_exists. split.
  - intros [x [Hx E]]. apply String.eqb_eq in E. now subst.
  - intros H. exists k. split; [exact H|apply String.eqb_refl].
Qed.

(** C3. The aggregation groups the rows by skill and sums [score_obtained]
    and [score_total] separately in each group; the overall totals are the
    sums over the groups, hence over all rows; the groups come in order of
    first appearance.  The percentage is [0.0] when the overall total is not
    positive and [overall_obtained / overall_total * 100] otherwise: for
    sums that fit in 53 bits, the float quotient of the two sums times
    [100.0], each operation rounded once (1 of 3 gives 33.33333333333333 and
    8 of 15 gives 53.333333333333336), and the nearest float to the exact
    quotient, times [100.0], beyond (9007199254740993 of 3 gives
    3.002399751580331e+17); the bound [2^1023] keeps the quotient within
    the float range, where the division does not raise.  No rows give an
    empty map, totals 0 and percentage [0.0]. *)
Theorem C3_aggregate (rows : list Score.t) :
  let r := aggregate rows in
  Dict.keys (skill_map r) = first_seen (map Score.skill rows)
  /\ (forall k, In k (map Score.skill rows) ->
        Dict.get (skill_map r) k
        = Some (Bucket.mk
                  (Py.sum (map Score.score_obtained (of_skill k rows)))
                  (Py.sum (map Score.score_total (of_skill k rows)))))
  /\ (forall k, ~ In k (map Score.skill rows) -> Dict.get (skill_map r) k = None)
  /\ overall_obtained r
     = Py.sum (map Bucket.obtained (Dict.values (skill_map r)))
  /\ overall_total r = Py.sum (map Bucket.total (Dict.values (skill_map r)))
  /\ overall_obtained r = Py.sum (map Score.score_obtained rows)
  /\ overall_total r = Py.sum (map Score.score_total rows)
  /\ (overall_total r <= 0 -> overall_pct r = 0%float)
  /\ (0 < overall_total r -> Z.abs (overall_obtained r) < 2 ^ 1023 ->
      overall_pct r
      = PrimFloat.mul (Py.truediv (overall_obtained r) (overall_total r))
                      100%float)
  /\ (0 < overall_total r < 2 ^ 53 -> Z.abs (overall_obtained r) < 2 ^ 53 ->
      overall_pct r
      = PrimFloat.mul
          (PrimFloat.div (Py.float_of_int (overall_obtained r))
                         (Py.float_of_int (overall_total r)))
          100%float)
  /\ overall_pct (aggregate [Score.mk 1 "Python" 1 3])
     = 0x1.0aaaaaaaaaaaap+5%float
  /\ overall_pct (aggregate [Score.mk 1 "Python" 3 5; Score.mk 1 "SQL" 5 10])
     = 0x1.aaaaaaaaaaaabp+5%float
  /\ overall_pct (aggregate [Score.mk 1 "Python" 9007199254740993 3])
     = 0x1.0aaaaaaaaaaabp+58%float
  /\ aggregate [] = mkResultView [] 0 0 0%float.
Proof.
  cbv zeta.
  assert (Hpct : overall_pct (aggregate rows)
                 = percent (overall_obtained (aggregate rows))
                           (overall_total (aggregate rows))) by reflexivity.
  assert (Hsum : overall_obtained (aggregate rows)
                 = Py.sum (map Score.score_obtained rows)
                 /\ overall_total (aggregate rows)
                    = Py.sum (map Score.score_total rows)).
  { unfold aggregate. cbn [overall_obtained overall_total].
    pose proof (fold_add_score_sums rows []) as [So St].
    change (Py.sum (map Bucket.obtained (Dict.values (@nil (string * Bucket.t)))))
      with 0 in So.
    change (Py.sum (map Bucket.total (Dict.values (@nil (string * Bucket.t)))))
      with 0 in St.
    split; lia. }
  assert (G : forall k,
             Dict.get (skill_map (aggregate rows)) k
             = if existsb (String.eqb k) (map Score.skill rows)
               then Some (Bucket.mk
                            (Py.sum (map Score.score_obtained (of_skill k rows)))
                            (Py.sum (map Score.score_total (of_skill k rows))))
               else None).
  { intros k. unfold aggregate. cbn [skill_map].
    pose proof (fold_add_score_mem rows [] k) as Hm.
    pose proof (fold_add_score_bucket rows [] k) as Hb.
    unfold Dict.mem, bucket_of in Hm, Hb. simpl in Hm, Hb.
    destruct (Dict.get (fold_left add_score rows []) k) as [b|];
      rewrite <- Hm; [now rewrite Hb|reflexivity]. }
  split.
  { unfold aggregate. cbn [skill_map]. rewrite fold_add_score_keys. simpl.
    apply filter_all. reflexivity. }
  split.
  { intros k Hk. rewrite G. apply existsb_eqb_In in Hk. now rewrite Hk. }
  split.
  { intros k Hk. rewrite G.
    destruct (existsb (String.eqb k) (map Score.skill rows)) eqn:E;
      [apply existsb_eqb_In in E; contradiction|reflexivity]. }
  split; [reflexivity|]. split; [reflexivity|].
  split; [exact (proj1 Hsum)|]. split; [exact (proj2 Hsum)|].
  rewrite Hpct. unfold percent.
  split.
  { intros Hle. destruct (Z.gtb_spec (overall_total (aggregate rows)) 0);
      [lia|reflexivity]. }
  split.
  { intros Hpos _. destruct (Z.gtb_spec (overall_total (aggregate rows)) 0);
      [reflexivity|lia]. }
  split.
  { intros [Hpos Hb] Ha.
    destruct (Z.gtb_spec (overall_total (aggregate rows)) 0); [|lia].
    unfold Py.truediv, Py.fits_mantissa.
    replace (Z.abs (overall_obtained (aggregate rows)) <? 2 ^ 53) with true
      by (symmetry; apply Z.ltb_lt; exact Ha).
    replace (Z.abs (overall_total (aggregate rows)) <? 2 ^ 53) with true
      by (symmetry; apply Z.ltb_lt; lia).
    reflexivity. }
  split; [vm_compute; reflexivity|].
  split; [vm_compute; reflexivity|].
  split; [vm_compute; reflexivity|].
  reflexivity.
Qed.

(** Three rows in two groups: the groups in order of first appearance, 7 of
    10 for Python and 1 of 5 for SQL, 8 of 15 overall. *)
Lemma C3_witness :
  let r := aggregate [Score.mk 1 "Python" 3 5; Score.mk 1 "SQL" 1 5;
                      Score.mk 1 "Python" 4 5] in
  skill_map r = [("Python", Bucket.mk 7 10); ("SQL", Bucket.mk 1 5)]
  /\ overall_obtained r = 8 /\ overall_total r = 15
  /\ overall_pct r = 0x1.aaaaaaaaaaaabp+5%float.
Proof.
  cbv zeta.
  destruct (C3_aggregate [Score.mk 1 "Python" 3 5; Score.mk 1 "SQL" 1 5;
                          Score.mk 1 "Python" 4 5])
    as [_ [_ [_ [_ [_ [Ho [Ht [_ [_ [Hp _]]]]]]]]]].
  split; [vm_compute; reflexivity|].
  split; [rewrite Ho; vm_compute; reflexivity|].
  split; [rewrite Ht; vm_compute; reflexivity|].
  rewrite Hp.
  - vm_compute. reflexivity.
  - rewrite Ht. vm_compute. split; reflexivity.
  - rewrite Ho. vm_compute. reflexivity.
Defined.

(** ** The store under the route handlers *)

Lemma find_interview_some (st : Store) (iid user : Z) (iv : Interview.t) :
  find_interview st iid user = Some iv ->
  In iv (interviews st) /\ Interview.id iv = iid /\ Interview.user_id iv = user.
Proof.
  unfold find_interview. intros H. apply find_some in H as [Hin Hb].
  apply andb_true_iff in Hb as [H1 H2].
  apply Z.eqb_eq in H1. apply Z.eqb_eq in H2. auto.
Qed.

Lemma find_interview_none (st : Store) (iid user : Z) :
  (forall iv, In iv (interviews st) -> Interview.id iv = iid ->
              Interview.user_id iv <> user) ->
  find_interview st iid user = None.
Proof.
  intros H. destruct (find_interview st iid user) as [iv|] eqn:E; [|reflexivity].
  apply find_interview_some in E as [Hin [H1 H2]].
  exfalso. exact (H iv Hin H1 H2).
Qed.

Lemma find_interview_owned (st : Store) (iv : Interview.t) :
  In iv (interviews st) ->
  exists iv', find_interview st (Interview.id iv) (Interview.user_id iv) = Some iv'.
Proof.
  intros Hin. unfold find_interview.
  destruct (find _ (interviews st)) as [iv'|] eqn:E; [now exists iv'|].
  pose proof (find_none _ _ E iv Hin) as Hf. cbn beta in Hf.
  rewrite !Z.eqb_refl in Hf. discriminate.
Qed.

Lemma answer_matches_set (j : Z) (t tr : string) (a : Answer.t) :
  answer_matches j t (set_answer_text tr a) = answer_matches j t a.
Proof. reflexivity. Qed.

Lemma update_first_rows (iid j : Z) (text t tr : string) (rows : list Answer.t) :
  List.length (filter (answer_matches j t)
                      (update_first_answer iid text tr rows))
  = List.length (filter (answer_matches j t) rows).
Proof.
  induction rows as [|a rows IH]; [reflexivity|].
  cbn [update_first_answer].
  destruct (answer_matches iid text a); cbn [filter].
  - rewrite answer_matches_set. now destruct (answer_matches j t a).
  - destruct (answer_matches j t a); cbn [List.length]; now rewrite IH.
Qed.


Lemma update_first_ids (iid : Z) (text tr : string) (rows : list Answer.t) :
  map Answer.interview_id (update_first_answer iid text tr rows)
  = map Answer.interview_id rows.
Proof.
  induction rows as [|a rows IH]; [reflexivity|].
  cbn [update_first_answer].
  destruct (answer_matches iid text a); cbn [map]; [reflexivity|now rewrite IH].
Qed.

Lemma find_answer_none_rows (st : Store) (iid : Z) (text : string) :
  find_answer st iid text = None -> answer_rows st iid text = [].
Proof.
  unfold find_answer, answer_rows. intros H.
  induction (answers st) as [|a rows IH]; [reflexivity|].
  cbn [find filter] in *. destruct (answer_matches iid text a); [discriminate|].
  exact (IH H).
Qed.

Lemma answer_matches_key (iid j : Z) (text t : string) (a : Answer.t) :
  answer_matches iid text a = true -> answer_matches j t a = true ->
  j = iid /\ t = text.
Proof.
  unfold answer_matches. intros H1 H2.
  apply andb_true_iff in H1 as [A1 B1]. apply andb_true_iff in H2 as [A2 B2].
  apply Z.eqb_eq in A1. apply Z.eqb_eq in A2.
  apply String.eqb_eq in B1. apply String.eqb_eq in B2.
  split; congruence.
Qed.

Lemma stt_endpoint_ok (iid idx : Z) (w : stt_reply) (reply : eval_reply)
  (user : Z) (st : Store) (iv : Interview.t) (q : QuestionSpec.t) :
  find_interview st iid user = Some iv ->
  idx < Py.len (Interview.questions iv) ->
  Py.index (Interview.questions iv) idx = Some q ->
  stt_endpoint iid idx w reply user st
  = (Ok (mkSttResponse (transcribe w)
                       (fst (evaluate (transcribe w) reply))
                       (snd (evaluate (transcribe w) reply))),
     mkStore (resumes st) (interviews st)
             (update_answer_row st iid q (transcribe w))
             (scores st
                ++ [Score.mk iid (skill_or_general q)
                             (fst (evaluate (transcribe w) reply))
                             (max_score_or_5 q)])
             (reports st)).
Proof.
  intros Hf Hlt Hq. unfold stt_endpoint. rewrite Hf.
  destruct (idx >=? Py.len (Interview.questions iv)) eqn:E;
    [apply Z.geb_le in E; lia|].
  rewrite Hq. destruct (evaluate (transcribe w) reply). reflexivity.
Qed.

(** A submission either leaves the store as it was, or went through
    [stt_endpoint_ok]. *)
Lemma stt_endpoint_cases (iid idx : Z) (w : stt_reply) (reply : eval_reply)
  (user : Z) (st : Store) :
  (exists e, stt_endpoint iid idx w reply user st = (Err e, st))
  \/ (exists iv q,
        find_interview st iid user = Some iv
        /\ idx < Py.len (Interview.questions iv)
        /\ Py.index (Interview.questions iv) idx = Some q).
Proof.
  unfold stt_endpoint.
  destruct (find_interview st iid user) as [iv|] eqn:Hf; [|left; eauto].
  destruct (idx >=? Py.len (Interview.questions iv)) eqn:E; [left; eauto|].
  destruct (Py.index (Interview.questions iv) idx) as [q|] eqn:Hq;
    [|left; eauto].
  right. exists iv, q. repeat split; try assumption.
  destruct (Z.geb_spec idx (Py.len (Interview.questions iv))); [discriminate|lia].
Qed.

(** Recording keeps one row per key: the number of rows of any question text
    stays the same, except that a text without a row gets its first one. *)
Lemma update_answer_row_count (st : Store) (iid : Z) (q : QuestionSpec.t)
  (tr : string) (j : Z) (t : string) :
  let rows' := filter (answer_matches j t) (update_answer_row st iid q tr) in
  List.length rows' = List.length (answer_rows st j t)
  \/ (answer_rows st j t = [] /\ List.length rows' = 1%nat
      /\ j = iid /\ t = QuestionSpec.question q).
Proof.
  cbv zeta. unfold update_answer_row. cbv zeta.
  destruct (find_answer st iid (QuestionSpec.question q)) as [a|] eqn:E.
  - left. apply update_first_rows.
  - rewrite filter_app, length_app. cbn [filter]. fold (answer_rows st j t).
    destruct (answer_matches j t _) eqn:M.
    + right. apply find_answer_none_rows in E.
      assert (K : j = iid /\ t = QuestionSpec.question q).
      { apply (answer_matches_key iid j (QuestionSpec.question q) t
                                  (Answer.mk iid (QuestionSpec.question q)
                                             (Some tr) (QuestionSpec.skill q)
                                             (max_score_or_5 q)));
          [|exact M].
        unfold answer_matches. cbn. now rewrite Z.eqb_refl, String.eqb_refl. }
      destruct K as [-> ->]. rewrite E. repeat split; reflexivity.
    + left. cbn. lia.
Qed.

Lemma start_interview_cases (ty : string) (user now : Z) (reply : gen_reply)
  (st : Store) :
  (exists e, start_interview ty user now reply st = (Err e, st))
  \/ (exists qs,
        (reply = Some qs
         \/ exists r, find_resume st user = Some r
                      /\ fallback_questions (skills_or_general (Resume.skills r))
                         = Some qs)
        /\ start_interview ty user now reply st
           = (Ok (next_interview_id st, Py.len qs),
              mkStore (resumes st)
                      (interviews st
                         ++ [Interview.mk (next_interview_id st) user ty now qs])
                      (answers st
                         ++ map (answer_placeholder (next_interview_id st)) qs)
                      (scores st) (reports st))).
Proof.
  unfold start_interview.
  destruct (find_resume st user) as [r|] eqn:Hr; [|left; eauto].
  destruct reply as [qs|]; cbn [generate_questions].
  - right. exists qs. split; [now left|reflexivity].
  - destruct (fallback_questions _) as [qs|] eqn:Hq; [|left; eauto].
    right. exists qs. split; [right; eauto|reflexivity].
Qed.

Lemma generate_report_cases (iid user now now' : Z) (st : Store) :
  generate_report_api iid user now now' st = (Err NotFound, st)
  \/ (exists iv,
        find_interview st iid user = Some iv
        /\ generate_report_api iid user now now' st
           = (Ok (mkReportResponse
                    ("/reports/" ++ report_filename iid now)
                    (generate_pdf_report iid now)),
              mkStore (resumes st) (interviews st) (answers st) (scores st)
                      (reports st
                         ++ [Report.mk iid
                               (percent
                                  (Py.sum (map Score.score_obtained
                                               (scores_of st iid)))
                                  (Py.sum (map Score.score_total
                                               (scores_of st iid))))
                               (generate_pdf_report iid now) now']))).
Proof.
  unfold generate_report_api.
  destruct (find_interview st iid user) as [iv|]; [right; eauto|now left].
Qed.

Lemma id_in_range (st : Store) (iv : Interview.t) :
  (forall k iv, nth_error (interviews st) k = Some iv ->
                Interview.id iv = Z.of_nat k + 1) ->
  In iv (interviews st) ->
  1 <= Interview.id iv <= Py.len (interviews st).
Proof.
  intros W1 Hin. apply In_nth_error in Hin as [k Hk].
  assert (k < List.length (interviews st))%nat
    by (apply nth_error_Some; congruence).
  rewrite (W1 k iv Hk). unfold Py.len. lia.
Qed.

Lemma id_unique (st : Store) (iv iv' : Interview.t) :
  (forall k iv, nth_error (interviews st) k = Some iv ->
                Interview.id iv = Z.of_nat k + 1) ->
  In iv (interviews st) -> In iv' (interviews st) ->
  Interview.id iv = Interview.id iv' -> iv = iv'.
Proof.
  intros W1 Hin Hin' E.
  apply In_nth_error in Hin as [k Hk]. apply In_nth_error in Hin' as [k' Hk'].
  rewrite (W1 k iv Hk), (W1 k' iv' Hk') in E.
  assert (k = k') by lia. subst k'. congruence.
Qed.

Lemma filter_none {A} (p : A -> bool) (l : list A) :
  (forall x, In x l -> p x = false) -> filter p l = [].
Proof.
  intros H. induction l as [|a l IH]; [reflexivity|].
  cbn [filter]. rewrite (H a (in_eq a l)). apply IH.
  intros x Hx. apply H. now right.
Qed.

(** Placeholder rows of distinct question texts: at most one per text. *)
Lemma placeholder_rows_distinct (iid : Z) (t : string)
  (qs : list QuestionSpec.t) :
  NoDup (map QuestionSpec.question qs) ->
  (List.length (filter (answer_matches iid t)
                       (map (answer_placeholder iid) qs)) <= 1)%nat.
Proof.
  induction qs as [|q qs IH]; intros Hnd; [simpl; lia|].
  cbn [map] in Hnd. apply NoDup_cons_iff in Hnd as [Hnotin Hnd].
  cbn [map filter].
  destruct (answer_matches iid t (answer_placeholder iid q)) eqn:M.
  - rewrite filter_none; [simpl; lia|].
    intros a Ha. apply in_map_iff in Ha as [q' [<- Hq']].
    destruct (answer_matches iid t (answer_placeholder iid q')) eqn:M';
      [|reflexivity].
    exfalso. apply Hnotin.
    apply andb_true_iff in M as [_ M]. apply andb_true_iff in M' as [_ M'].
    apply String.eqb_eq in M. apply String.eqb_eq in M'.
    cbn in M, M'. rewrite M, <- M'. now apply in_map.
  - exact (IH Hnd).
Qed.

Lemma empty_store_well_formed (rs : list Resume.t) :
  well_formed (empty_store rs).
Proof.
  repeat split; cbn.
  - intros [|k] iv H; discriminate.
  - contradiction.
  - contradiction.
  - intros iv [].
Qed.

Lemma start_interview_well_formed (ty : string) (user now : Z)
  (reply : gen_reply) (st : Store) :
  well_formed st -> well_formed (snd (start_interview ty user now reply st)).
Proof.
  intros W.
  destruct (start_interview_cases ty user now reply st)
    as [[e ->]|[qs [_ ->]]]; [exact W|].
  destruct W as [W1 [W2 W3]]. cbn [snd].
  set (iid := next_interview_id st).
  assert (Hiid : iid = Py.len (interviews st) + 1) by reflexivity.
  assert (Hold : forall a, In a (answers st) -> forall t,
                   answer_matches iid t a = false).
  { intros a Ha t. unfold answer_matches.
    destruct (Z.eqb_spec (Answer.interview_id a) iid) as [E|]; [|reflexivity].
    pose proof (W2 a Ha). lia. }
  assert (Hnew : forall j t, j <> iid ->
                   filter (answer_matches j t) (map (answer_placeholder iid) qs)
                   = []).
  { intros j t Hj. apply filter_none. intros a Ha.
    apply in_map_iff in Ha as [q [<- _]]. unfold answer_matches. cbn.
    destruct (Z.eqb_spec iid j); [congruence|reflexivity]. }
  split; [|split]; cbn [interviews answers].
  - intros k iv Hk.
    destruct (Nat.lt_ge_cases k (List.length (interviews st))) as [Hlt|Hge].
    + rewrite nth_error_app1 in Hk by exact Hlt. exact (W1 k iv Hk).
    + rewrite nth_error_app2 in Hk by exact Hge.
      destruct (k - List.length (interviews st))%nat as [|d] eqn:Ed.
      * cbn in Hk. injection Hk as <-. cbn. unfold Py.len in Hiid. lia.
      * destruct d; discriminate.
  - intros a Ha. unfold Py.len. rewrite length_app. cbn [List.length].
    apply in_app_or in Ha as [Ha|Ha].
    + pose proof (W2 a Ha). unfold Py.len in *. lia.
    + apply in_map_iff in Ha as [q [<- _]]. cbn. unfold Py.len in Hiid. lia.
  - intros iv Hin Hnd t. unfold answer_rows. cbn [answers].
    rewrite filter_app, length_app.
    apply in_app_or in Hin as [Hin|[<-|[]]].
    + rewrite Hnew; [|pose proof (id_in_range st iv W1 Hin); lia].
      cbn. rewrite Nat.add_0_r. exact (W3 iv Hin Hnd t).
    + cbn [Interview.id]. rewrite (filter_none _ (answers st));
        [|intros a Ha; exact (Hold a Ha t)].
      cbn [List.length Nat.add]. apply placeholder_rows_distinct. exact Hnd.
Qed.

Lemma stt_endpoint_well_formed (iid idx : Z) (w : stt_reply)
  (reply : eval_reply) (user : Z) (st : Store) :
  well_formed st -> well_formed (snd (stt_endpoint iid idx w reply user st)).
Proof.
  intros W.
  destruct (stt_endpoint_cases iid idx w reply user st)
    as [[e ->]|[iv [q [Hf [Hlt Hq]]]]]; [exact W|].
  rewrite (stt_endpoint_ok iid idx w reply user st iv q Hf Hlt Hq).
  destruct W as [W1 [W2 W3]]. cbn [snd].
  apply find_interview_some in Hf as [Hin [Hid _]].
  split; [|split]; cbn [interviews answers].
  - exact W1.
  - intros a Ha. unfold update_answer_row in Ha.
    destruct (find_answer st iid (QuestionSpec.question q)).
    + apply (in_map Answer.interview_id) in Ha.
      rewrite update_first_ids in Ha.
      apply in_map_iff in Ha as [a' [<- Ha']]. exact (W2 a' Ha').
    + apply in_app_or in Ha as [Ha|[<-|[]]]; [exact (W2 a Ha)|].
      cbn. rewrite <- Hid. exact (id_in_range st iv W1 Hin).
  - intros iv' Hin' Hnd t. unfold answer_rows. cbn [answers].
    destruct (update_answer_row_count st iid q (transcribe w)
                                    (Interview.id iv') t) as [E|[_ [E _]]];
      cbv zeta in E; rewrite E; [exact (W3 iv' Hin' Hnd t)|lia].
Qed.

Lemma step_well_formed (st : Store) (r : request) :
  well_formed st -> well_formed (step st r).
Proof.
  intros W. destruct r as [u ty now reply|u j i|u j i w reply|u j|u j now now'];
    cbn [step].
  - now apply start_interview_well_formed.
  - exact W.
  - now apply stt_endpoint_well_formed.
  - exact W.
  - destruct (generate_report_cases j u now now' st) as [->|[iv [_ ->]]];
      [exact W|exact W].
Qed.

Lemma run_well_formed (rs : list request) (st : Store) :
  well_formed st -> well_formed (run st rs).
Proof.
  revert st. induction rs as [|r rs IH]; intros st W; [exact W|].
  cbn [run fold_left]. apply IH. now apply step_well_formed.
Qed.

(** ** Placeholder texts are pairwise distinct *)

Lemma append_cancel_l (p a b : string) :
  (p ++ a)%string = (p ++ b)%string -> a = b.
Proof.
  induction p as [|c p IH]; cbn; [auto|]. intros [= H]. exact (IH H).
Qed.

Lemma before_space_uint (d : Decimal.uint) (x : string) :
  before_space (NilEmpty.string_of_uint d ++ String " " x)%string
  = NilEmpty.string_of_uint d.
Proof.
  induction d; cbn; [reflexivity|..]; now rewrite IHd.
Qed.

Lemma before_space_str_of_int (z : Z) (x : string) :
  before_space (Py.str_of_int z ++ String " " x)%string = Py.str_of_int z.
Proof.
  unfold Py.str_of_int, NilZero.string_of_int, NilZero.string_of_uint.
  destruct (Z.to_int z) as [d|d].
  - destruct d; try reflexivity; apply before_space_uint.
  - cbn. f_equal. destruct d; try reflexivity; apply before_space_uint.
Qed.

Lemma to_int_not_nil (z : Z) :
  Z.to_int z <> Decimal.Pos Decimal.Nil /\ Z.to_int z <> Decimal.Neg Decimal.Nil.
Proof.
  destruct z as [|p|p]; cbn; split; try discriminate; intros [= E];
    exact (DecimalPos.Unsigned.to_uint_nonnil p E).
Qed.

Lemma str_of_int_inj (z z' : Z) : Py.str_of_int z = Py.str_of_int z' -> z = z'.
Proof.
  unfold Py.str_of_int. intros H. apply DecimalZ.to_int_inj.
  apply (f_equal NilZero.int_of_string) in H.
  destruct (to_int_not_nil z), (to_int_not_nil z').
  rewrite !NilZero.isi in H by assumption. congruence.
Qed.

Lemma placeholder_text_inj (i j : Z) (sk sk' : string) :
  placeholder_text i sk = placeholder_text j sk' -> i = j.
Proof.
  unfold placeholder_text. intros H. apply append_cancel_l in H.
  apply (f_equal before_space) in H.
  change (" for " ++ sk)%string with (String " " ("for " ++ sk)) in H.
  change (" for " ++ sk')%string with (String " " ("for " ++ sk')) in H.
  rewrite !before_space_str_of_int in H.
  apply str_of_int_inj in H. lia.
Qed.

Lemma some_inj {A} (x y : A) : Some x = Some y -> x = y.
Proof. congruence. Qed.

Lemma fallback_questions_distinct (skills : list string)
  (qs : list QuestionSpec.t) :
  fallback_questions skills = Some qs ->
  NoDup (map QuestionSpec.question qs).
Proof.
  intros Hqs.
  assert (Hne : skills <> []) by (intros ->; discriminate).
  destruct (placeholders_from_ok skills Hne 15 0) as [qs' [Hqs' [Hlen Hnth]]].
  unfold fallback_questions in Hqs. rewrite Hqs in Hqs'. injection Hqs' as <-.
  apply NoDup_nth_error. intros i j Hi E.
  rewrite length_map, Hlen in Hi. rewrite !nth_error_map in E.
  destruct (Hnth i Hi) as [sk [_ Hq]]. rewrite Hq in E.
  cbn [option_map QuestionSpec.question] in E.
  destruct (Nat.lt_ge_cases j 15) as [Hj|Hj].
  - destruct (Hnth j Hj) as [sk' [_ Hq']]. rewrite Hq' in E.
    cbn [option_map QuestionSpec.question] in E.
    apply some_inj, placeholder_text_inj in E. lia.
  - rewrite <- Hlen in Hj. apply nth_error_None in Hj. rewrite Hj in E.
    discriminate.
Qed.

Lemma fallback_questions_max (skills : list string)
  (qs : list QuestionSpec.t) (q : QuestionSpec.t) :
  fallback_questions skills = Some qs -> In q qs -> max_score_or_5 q = 5.
Proof.
  intros Hqs Hin.
  assert (Hne : skills <> []) by (intros ->; discriminate).
  destruct (placeholders_from_ok skills Hne 15 0) as [qs' [Hqs' [Hlen Hnth]]].
  unfold fallback_questions in Hqs. rewrite Hqs in Hqs'. injection Hqs' as <-.
  apply In_nth_error in Hin as [k Hk].
  assert (Hlt : (k < 15)%nat) by (rewrite <- Hlen; apply nth_error_Some; congruence).
  destruct (Hnth k Hlt) as [sk [_ E]]. rewrite Hk in E. injection E as ->.
  reflexivity.
Qed.

(** Every placeholder question names a skill and is out of 5. *)
Lemma fallback_questions_shape (skills : list string)
  (qs : list QuestionSpec.t) (q : QuestionSpec.t) :
  fallback_questions skills = Some qs -> In q qs ->
  exists sk, QuestionSpec.skill q = Some sk
             /\ QuestionSpec.max_score q = Some 5.
Proof.
  intros Hqs Hin.
  assert (Hne : skills <> []) by (intros ->; discriminate).
  destruct (placeholders_from_ok skills Hne 15 0) as [qs' [Hqs' [Hlen Hnth]]].
  unfold fallback_questions in Hqs. rewrite Hqs in Hqs'. injection Hqs' as <-.
  apply In_nth_error in Hin as [k Hk].
  assert (Hlt : (k < 15)%nat) by (rewrite <- Hlen; apply nth_error_Some; congruence).
  destruct (Hnth k Hlt) as [sk [_ E]]. rewrite Hk in E. injection E as ->.
  exists sk. split; reflexivity.
Qed.

(** While the generation call fails, the stored question lists consist of
    placeholder questions only. *)
Lemma step_placeholder_questions (st : Store) (r : request) :
  generation_down r = true ->
  (forall iv q, In iv (interviews st) -> In q (Interview.questions iv) ->
                exists sk, QuestionSpec.skill q = Some sk
                           /\ QuestionSpec.max_score q = Some 5) ->
  forall iv q, In iv (interviews (step st r)) ->
               In q (Interview.questions iv) ->
               exists sk, QuestionSpec.skill q = Some sk
                          /\ QuestionSpec.max_score q = Some 5.
Proof.
  intros Hr HQ.
  destruct r as [u ty now reply|u j i|u j i w reply|u j|u j now now'];
    cbn [step]; try exact HQ.
  - destruct reply as [qs0|]; [discriminate Hr|].
    destruct (start_interview_cases ty u now None st)
      as [[e ->]|[qs [[E|[rd [_ Hfb]]] ->]]];
      [exact HQ|discriminate E|].
    cbn [snd interviews].
    intros iv q Hiv Hq. apply in_app_or in Hiv as [Hiv|[<-|[]]].
    + exact (HQ iv q Hiv Hq).
    + exact (fallback_questions_shape _ _ _ Hfb Hq).
  - destruct (stt_endpoint_cases j i w reply u st)
      as [[e ->]|[iv [q [Hf [Hlt Hq]]]]]; [exact HQ|].
    rewrite (stt_endpoint_ok j i w reply u st iv q Hf Hlt Hq). exact HQ.
  - destruct (generate_report_cases j u now now' st) as [->|[iv [_ ->]]];
      exact HQ.
Qed.

Lemma run_placeholder_questions (reqs : list request) (st : Store) :
  forallb generation_down reqs = true ->
  (forall iv q, In iv (interviews st) -> In q (Interview.questions iv) ->
                exists sk, QuestionSpec.skill q = Some sk
                           /\ QuestionSpec.max_score q = Some 5) ->
  forall iv q, In iv (interviews (run st reqs)) ->
               In q (Interview.questions iv) ->
               exists sk, QuestionSpec.skill q = Some sk
                          /\ QuestionSpec.max_score q = Some 5.
Proof.
  revert st. induction reqs as [|r reqs IH]; intros st Hd HQ; [exact HQ|].
  cbn [forallb] in Hd. apply andb_true_iff in Hd as [Hr Hd].
  cbn [run fold_left]. apply (IH _ Hd). now apply step_placeholder_questions.
Qed.

(** ** One answer row per question text *)

Lemma stt_endpoint_count (iid idx : Z) (w : stt_reply) (reply : eval_reply)
  (user : Z) (st : Store) (j : Z) (t : string) :
  let st' := snd (stt_endpoint iid idx w reply user st) in
  List.length (answer_rows st' j t) = List.length (answer_rows st j t)
  \/ (List.length (answer_rows st j t) = 0%nat
      /\ List.length (answer_rows st' j t) = 1%nat).
Proof.
  cbv zeta.
  destruct (stt_endpoint_cases iid idx w reply user st)
    as [[e ->]|[iv [q [Hf [Hlt Hq]]]]]; [now left|].
  rewrite (stt_endpoint_ok iid idx w reply user st iv q Hf Hlt Hq).
  unfold answer_rows at 1 4. cbn [snd answers].
  destruct (update_answer_row_count st iid q (transcribe w) j t)
    as [E|[E0 [E _]]]; cbv zeta in *.
  - now left.
  - right. rewrite E0. split; [reflexivity|exact E].
Qed.

(** C8. As amended: in every store reached by any sequence of requests,
    an interview whose question texts are pairwise distinct has at most one
    answer row per question text; the placeholder questions of the fallback
    path are always pairwise distinct; and a submission never adds a row
    for a question text that already has one (the count of rows of a text
    is unchanged, or goes from none to one). *)
Theorem C8_one_answer_per_distinct_text :
  (forall (rs : list Resume.t) (reqs : list request) (iv : Interview.t)
          (text : string),
      let st := run (empty_store rs) reqs in
      In iv (interviews st) ->
      NoDup (map QuestionSpec.question (Interview.questions iv)) ->
      (List.length (answer_rows st (Interview.id iv) text) <= 1)%nat)
  /\ (forall skills qs,
        fallback_questions skills = Some qs ->
        NoDup (map QuestionSpec.question qs))
  /\ (forall iid idx w reply user st j t,
        let st' := snd (stt_endpoint iid idx w reply user st) in
        List.length (answer_rows st' j t) = List.length (answer_rows st j t)
        \/ (List.length (answer_rows st j t) = 0%nat
            /\ List.length (answer_rows st' j t) = 1%nat)).
Proof.
  split; [|split].
  - intros rs reqs iv text st Hin Hnd.
    pose proof (run_well_formed reqs (empty_store rs)
                                (empty_store_well_formed rs)) as [_ [_ W3]].
    exact (W3 iv Hin Hnd text).
  - exact fallback_questions_distinct.
  - exact stt_endpoint_count.
Qed.

(** C8, as the specification states it, fails: when the generation call
    returns the same question text twice, the interview starts with two
    answer rows for that text. *)
Lemma C8_duplicate_texts_counterexample :
  let q := QuestionSpec.mk (Some "Python") "What is a decorator?" (Some 5) in
  let st := run (empty_store [Resume.mk 1 ["Python"]])
                [Start 1 "technical" 1730000000000000 (Some [q; q])] in
  List.length (answer_rows st 1 "What is a decorator?") = 2%nat
  /\ ~ (List.length (answer_rows st 1 "What is a decorator?") <= 1)%nat.
Proof.
  cbv zeta. split; [vm_compute; reflexivity|].
  vm_compute. intros H. repeat apply le_S_n in H. inversion H.
Qed.

Lemma C8_witness :
  let q1 := QuestionSpec.mk (Some "Python") "What is a decorator?" (Some 5) in
  let q2 := QuestionSpec.mk (Some "Sql") "What is a join?" None in
  let st := run (empty_store [Resume.mk 1 ["Python"; "Sql"]])
                [Start 1 "technical" 1730000000000000 (Some [q1; q2]);
                 SubmitAnswer 1 1 0 (Some ["A"; "wrapper."]) None;
                 SubmitAnswer 1 1 0 (Some ["A"; "function"; "wrapper."]) None]
  in
  (List.length (answer_rows st 1 "What is a decorator?") <= 1)%nat.
Proof.
  cbv zeta.
  apply (proj1 C8_one_answer_per_distinct_text
               [Resume.mk 1 ["Python"; "Sql"]] _
               (Interview.mk 1 1 "technical" 1730000000000000
                  [QuestionSpec.mk (Some "Python") "What is a decorator?" (Some 5);
                   QuestionSpec.mk (Some "Sql") "What is a join?" None])
               "What is a decorator?").
  - vm_compute. left. reflexivity.
  - cbn. repeat constructor; cbn; intuition discriminate.
Defined.

(** ** Ownership *)




(** ** Question index *)

Lemma question_page_complete (st : Store) (iid idx user : Z)
  (iv : Interview.t) :
  find_interview st iid user = Some iv ->
  Py.len (Interview.questions iv) <= idx ->
  question_page iid idx user st = Ok (Complete iid).
Proof.
  intros Hf Hge. unfold question_page. rewrite Hf.
  destruct (Z.geb_spec idx (Py.len (Interview.questions iv))); [reflexivity|lia].
Qed.

Lemma question_page_below (st : Store) (iid idx user : Z) (iv : Interview.t) :
  find_interview st iid user = Some iv ->
  idx < Py.len (Interview.questions iv) ->
  question_page iid idx user st
  = match Py.index (Interview.questions iv) idx with
    | Some q => Ok (QuestionPage iid idx (QuestionSpec.question q)
                                 (Py.len (Interview.questions iv)))
    | None => Err InternalError
    end.
Proof.
  intros Hf Hlt. unfold question_page. rewrite Hf.
  destruct (Z.geb_spec idx (Py.len (Interview.questions iv))); [lia|reflexivity].
Qed.

Lemma stt_endpoint_invalid_index (st : Store) (iid idx user : Z)
  (w : stt_reply) (reply : eval_reply) (iv : Interview.t) :
  find_interview st iid user = Some iv ->
  Py.len (Interview.questions iv) <= idx ->
  stt_endpoint iid idx w reply user st = (Err InvalidIndex, st).
Proof.
  intros Hf Hge. unfold stt_endpoint. rewrite Hf.
  destruct (Z.geb_spec idx (Py.len (Interview.questions iv))); [reflexivity|lia].
Qed.

Lemma stt_endpoint_index_error (st : Store) (iid idx user : Z)
  (w : stt_reply) (reply : eval_reply) (iv : Interview.t) :
  find_interview st iid user = Some iv ->
  idx < Py.len (Interview.questions iv) ->
  Py.index (Interview.questions iv) idx = None ->
  stt_endpoint iid idx w reply user st = (Err InternalError, st).
Proof.
  intros Hf Hlt Hq. unfold stt_endpoint. rewrite Hf.
  destruct (Z.geb_spec idx (Py.len (Interview.questions iv))); [lia|].
  now rewrite Hq.
Qed.

Lemma index_in_range {A} (l : list A) (i : Z) :
  - Py.len l <= i < Py.len l -> exists x, Py.index l i = Some x.
Proof.
  intros H.
  assert (G : forall n, (n < List.length l)%nat -> exists x, nth_error l n = Some x).
  { intros n Hn. destruct (nth_error l n) eqn:E; [eauto|].
    apply nth_error_None in E. lia. }
  destruct (Z.lt_ge_cases i 0).
  - rewrite index_negative by lia. apply G. unfold Py.len in *. lia.
  - rewrite index_nonneg by lia. apply G. unfold Py.len in *. lia.
Qed.

(** After the update, the first row of the question holds the transcript
    just submitted. *)
Lemma update_answer_row_latest (st : Store) (iid : Z) (q : QuestionSpec.t)
  (tr : string) :
  exists a,
    find (answer_matches iid (QuestionSpec.question q))
         (update_answer_row st iid q tr) = Some a
    /\ Answer.answer_text a = Some tr.
Proof.
  unfold update_answer_row, find_answer. cbv zeta.
  induction (answers st) as [|a rows IH]; cbn [find].
  - cbn [app find]. unfold answer_matches at 1. cbn.
    rewrite Z.eqb_refl, String.eqb_refl. cbn. eauto.
  - destruct (answer_matches iid (QuestionSpec.question q) a) eqn:M.
    + cbn [update_first_answer]. rewrite M. cbn [find].
      rewrite answer_matches_set, M. eauto.
    + destruct (find _ rows) eqn:F.
      * cbn [update_first_answer]. rewrite M. cbn [find]. rewrite M. exact IH.
      * cbn [app find]. rewrite M. exact IH.
Qed.

(** An index within [0, N) records the transcript for that question. *)
Lemma stt_endpoint_in_range (st : Store) (iid idx user : Z) (w : stt_reply)
  (reply : eval_reply) (iv : Interview.t) :
  find_interview st iid user = Some iv ->
  0 <= idx < Py.len (Interview.questions iv) ->
  exists q,
    nth_error (Interview.questions iv) (Z.to_nat idx) = Some q
    /\ stt_endpoint iid idx w reply user st
       = (Ok (mkSttResponse (transcribe w)
                            (fst (evaluate (transcribe w) reply))
                            (snd (evaluate (transcribe w) reply))),
          mkStore (resumes st) (interviews st)
                  (update_answer_row st iid q (transcribe w))
                  (scores st
                     ++ [Score.mk iid (skill_or_general q)
                                  (fst (evaluate (transcribe w) reply))
                                  (max_score_or_5 q)])
                  (reports st)).
Proof.
  intros Hf Hr.
  destruct (index_in_range (Interview.questions iv) idx) as [q Hq]; [lia|].
  exists q. split; [now rewrite index_nonneg in Hq by lia|].
  apply (stt_endpoint_ok iid idx w reply user st iv q Hf); [lia|exact Hq].
Qed.

(** C7. A submission with index -1 for an interview of fifteen questions is
    not rejected with [InvalidIndex]: it is answered normally, the
    transcript is written to the row of question 15 and a score row is
    appended.  With index -16 the subscript raises, which is an internal
    error and not [InvalidIndex] either. *)
Theorem C7_negative_index_not_rejected :
  let out := stt_endpoint 1 (-1) (Some ["hello"]) None 1 demo_store in
  fst out = Ok (mkSttResponse "hello" 0 fallback_feedback)
  /\ fst out <> Err InvalidIndex
  /\ find_answer (snd out) 1 "Placeholder question #15 for Python"
     = Some (Answer.mk 1 "Placeholder question #15 for Python" (Some "hello")
                       (Some "Python") 5)
  /\ scores (snd out) = [Score.mk 1 "Python" 0 5]
  /\ stt_endpoint 1 (-16) (Some ["hello"]) None 1 demo_store
     = (Err InternalError, demo_store)
  /\ stt_endpoint 1 15 (Some ["hello"]) None 1 demo_store
     = (Err InvalidIndex, demo_store).
Proof.
  cbv zeta. split; [vm_compute; reflexivity|].
  split; [vm_compute; discriminate|].
  repeat split; vm_compute; reflexivity.
Qed.

Lemma nth_error_last {A} (l : list A) (x d : A) :
  nth_error l (List.length l - 1) = Some x -> last l d = x.
Proof.
  induction l as [|a l IH]; [discriminate|]. intros H.
  destruct l as [|b l].
  - cbn in H. injection H as <-. reflexivity.
  - change (last (a :: b :: l) d) with (last (b :: l) d). apply IH.
    replace (List.length (a :: b :: l) - 1)%nat
      with (S (List.length (b :: l) - 1)) in H by (cbn [List.length]; lia).
    exact H.
Qed.

(** What a negative index does.  It is never answered with "interview
    complete" or [InvalidIndex].  From [-N] upwards the subscript selects
    question [N + index], counted from the end of the list (the last one
    for -1): the question page shows it, and a submission records the
    transcript for it and appends a score row for it.  Below [-N] the
    subscript raises, and nothing is recorded. *)
Lemma negative_index_cases (st : Store) (user iid idx : Z) (w : stt_reply)
  (reply : eval_reply) (iv : Interview.t) :
  find_interview st iid user = Some iv ->
  idx < 0 ->
  let qs := Interview.questions iv in
  let tr := transcribe w in
  question_page iid idx user st <> Ok (Complete iid)
  /\ fst (stt_endpoint iid idx w reply user st) <> Err InvalidIndex
  /\ (- Py.len qs <= idx ->
      exists q,
        nth_error qs (Z.to_nat (Py.len qs + idx)) = Some q
        /\ (idx = -1 -> last qs q = q)
        /\ question_page iid idx user st
           = Ok (QuestionPage iid idx (QuestionSpec.question q) (Py.len qs))
        /\ stt_endpoint iid idx w reply user st
           = (Ok (mkSttResponse tr (fst (evaluate tr reply))
                                (snd (evaluate tr reply))),
              mkStore (resumes st) (interviews st)
                      (update_answer_row st iid q tr)
                      (scores st
                         ++ [Score.mk iid (skill_or_general q)
                                      (fst (evaluate tr reply))
                                      (max_score_or_5 q)])
                      (reports st)))
  /\ (idx < - Py.len qs ->
      question_page iid idx user st = Err InternalError
      /\ stt_endpoint iid idx w reply user st = (Err InternalError, st)).
Proof.
  intros Hf Hneg qs tr. pose proof (len_nonneg qs) as Hlen.
  assert (Hlt : idx < Py.len qs) by lia.
  rewrite (question_page_below st iid idx user iv Hf Hlt). fold qs.
  destruct (Z.lt_ge_cases idx (- Py.len qs)) as [Hlow|Hin].
  - pose proof (index_below qs idx Hlow) as Hq. rewrite Hq.
    rewrite (stt_endpoint_index_error st iid idx user w reply iv Hf Hlt Hq).
    repeat split; try discriminate. lia.
  - destruct (index_in_range qs idx) as [q Hq]; [lia|]. rewrite Hq.
    rewrite (stt_endpoint_ok iid idx w reply user st iv q Hf Hlt Hq).
    rewrite index_negative in Hq by lia.
    split; [discriminate|]. split; [discriminate|]. split; [|lia].
    intros _. exists q. repeat split; try assumption.
    intros ->. apply nth_error_last.
    replace (List.length qs - 1)%nat with (Z.to_nat (Py.len qs + -1));
      [exact Hq|unfold Py.len; lia].
Qed.

(** C10. Index -16 on an interview of fifteen questions passes the only
    bounds check, [q_index >= len(questions)], in both handlers, and is then
    not served: the subscript [questions[q_index]] raises, so the question
    page and the submission end in an internal error, no question is
    selected and no answer or score row is written.  Index -15 is the last
    that negative indexing maps to a question (the first one).  On an
    interview whose question list is empty, index -1 fails in the same
    way. *)
Theorem C10_index_below_range_raises :
  option_map (fun iv => -16 >=? Py.len (Interview.questions iv))
             (find_interview demo_store 1 1) = Some false
  /\ question_page 1 (-16) 1 demo_store = Err InternalError
  /\ stt_endpoint 1 (-16) (Some ["hello"]) None 1 demo_store
     = (Err InternalError, demo_store)
  /\ scores demo_store = []
  /\ question_page 1 (-15) 1 demo_store
     = Ok (QuestionPage 1 (-15) "Placeholder question #1 for Python" 15)
  /\ (let st := snd (start_interview "technical" 1 1730000000000000 (Some [])
                                     (empty_store [Resume.mk 1 ["Python"]])) in
      question_page 1 (-1) 1 st = Err InternalError
      /\ stt_endpoint 1 (-1) (Some ["hello"]) None 1 st
         = (Err InternalError, st)).
Proof. repeat split; vm_compute; reflexivity. Qed.

(** ** Reports *)

Lemma string_length_append (a b : string) :
  String.length (a ++ b) = (String.length a + String.length b)%nat.
Proof. induction a as [|c a IH]; cbn; [reflexivity|now rewrite IH]. Qed.

Lemma append_cancel_r (a b c : string) :
  (a ++ c)%string = (b ++ c)%string -> a = b.
Proof.
  revert b. induction a as [|x a IH]; intros [|y b] H; cbn in H.
  - reflexivity.
  - apply (f_equal String.length) in H. cbn in H.
    rewrite string_length_append in H. lia.
  - apply (f_equal String.length) in H. cbn in H.
    rewrite string_length_append in H. lia.
  - injection H as -> H. f_equal. exact (IH b H).
Qed.

(** Two reports of one interview share their path exactly when the two
    calls obtained the same stamp. *)
Lemma generate_pdf_report_same_path (iid stamp1 stamp2 : Z) :
  generate_pdf_report iid stamp1 = generate_pdf_report iid stamp2
  <-> stamp1 = stamp2.
Proof.
  unfold generate_pdf_report, report_filename. split.
  - intros H. do 4 apply append_cancel_l in H.
    apply append_cancel_r in H. exact (str_of_int_inj _ _ H).
  - intros ->. reflexivity.
Qed.

(** C9. As amended: two report generations for the same interview, with
    the score rows unchanged in between, record the same overall score,
    the percentage of the interview's score rows; the two artifact paths
    are distinct when the two calls obtain different values of
    [int(datetime.utcnow().timestamp())], and are the same path when they
    obtain the same value. *)
Theorem C9_report_twice (st : Store) (iid user stamp1 now1 stamp2 now2 : Z)
  (iv : Interview.t) :
  find_interview st iid user = Some iv ->
  let st1 := snd (generate_report_api iid user stamp1 now1 st) in
  let st2 := snd (generate_report_api iid user stamp2 now2 st1) in
  exists rep1 rep2,
    reports st2 = reports st ++ [rep1; rep2]
    /\ Report.overall_score rep1 = Report.overall_score rep2
    /\ Report.overall_score rep1
       = percent (Py.sum (map Score.score_obtained (scores_of st iid)))
                 (Py.sum (map Score.score_total (scores_of st iid)))
    /\ Report.pdf_path rep1
       = ("reports/report_" ++ Py.str_of_int iid ++ "_"
            ++ Py.str_of_int stamp1 ++ ".pdf")%string
    /\ Report.pdf_path rep2
       = ("reports/report_" ++ Py.str_of_int iid ++ "_"
            ++ Py.str_of_int stamp2 ++ ".pdf")%string
    /\ (stamp1 <> stamp2 -> Report.pdf_path rep1 <> Report.pdf_path rep2)
    /\ (stamp1 = stamp2 -> Report.pdf_path rep1 = Report.pdf_path rep2).
Proof.
  intros Hf st1 st2. subst st2 st1.
  unfold generate_report_api at 2. rewrite Hf. cbn [snd].
  unfold generate_report_api, find_interview. cbn [interviews].
  fold (find_interview st iid user). rewrite Hf. cbn [snd reports].
  eexists. eexists. split; [rewrite <- app_assoc; reflexivity|].
  cbn [Report.overall_score Report.pdf_path].
  split; [reflexivity|]. split; [reflexivity|].
  split; [reflexivity|]. split; [reflexivity|]. split.
  - intros H E. apply H.
    exact (proj1 (generate_pdf_report_same_path iid stamp1 stamp2) E).
  - intros ->. reflexivity.
Qed.

(** C9, as the specification states it, fails when both calls obtain the
    same stamp, as two calls in quick succession do: the two report rows
    then carry the same path. *)
Lemma C9_same_stamp_counterexample :
  let st1 := snd (generate_report_api 1 1 1730000000 1730000000200000
                                      answered_store) in
  let st2 := snd (generate_report_api 1 1 1730000000 1730000000900000
                                      st1) in
  map Report.pdf_path (reports st2)
  = ["reports/report_1_1730000000.pdf"; "reports/report_1_1730000000.pdf"].
Proof. vm_compute. reflexivity. Qed.

(** On an interview with two scored answers, 3 of 5 and 4 of 5, both
    reports record 70 per cent, under two different paths. *)
Lemma C9_witness :
  let st1 := snd (generate_report_api 1 1 1730000000 1730000000200000
                                      answered_store) in
  let st2 := snd (generate_report_api 1 1 1730000007 1730000007900000
                                      st1) in
  exists rep1 rep2,
    reports st2 = [rep1; rep2]
    /\ Report.overall_score rep1 = 70%float
    /\ Report.overall_score rep2 = 70%float
    /\ Report.pdf_path rep1 = "reports/report_1_1730000000.pdf"
    /\ Report.pdf_path rep2 = "reports/report_1_1730000007.pdf"
    /\ Report.pdf_path rep1 <> Report.pdf_path rep2.
Proof.
  cbv zeta.
  destruct (C9_report_twice answered_store 1 1 1730000000 1730000000200000
                            1730000007 1730000007900000
                            (Interview.mk 1 1 "technical" 1730000000000000
                               (match fallback_questions ["Python"] with
                                | Some qs => qs
                                | None => []
                                end)))
    as [rep1 [rep2 [Hr [He [Hs [Hp1 [Hp2 [Hd _]]]]]]]].
  - vm_compute. reflexivity.
  - exists rep1, rep2. split; [exact Hr|].
    assert (E : Report.overall_score rep1 = 70%float).
    { rewrite Hs. vm_compute. reflexivity. }
    split; [exact E|]. split; [rewrite <- He; exact E|].
    split; [rewrite Hp1; vm_compute; reflexivity|].
    split; [rewrite Hp2; vm_compute; reflexivity|].
    apply Hd. discriminate.
Defined.

(** * Further properties of the code *)

(** ** Skill extraction, continued *)

Lemma kept_labels_distinct (show : string -> string) (keep : string -> bool)
  (labels : list string) (H : NoDup (map show labels)) :
  NoDup (map show (filter keep labels)).
Proof.
  induction labels as [|lit labels IH]; cbn [map filter] in *; [constructor|].
  apply NoDup_cons_iff in H as [Hn Hd].
  destruct (keep lit); [|exact (IH Hd)].
  cbn [map]. constructor; [|exact (IH Hd)].
  intros Hin. apply Hn. apply in_map_iff in Hin as [x [E Hx]].
  apply filter_In in Hx as [Hx _]. rewrite <- E. now apply in_map.
Qed.

Lemma capitalized_vocabulary_nodup : NoDup (map Py.capitalize KNOWN_SKILLS).
Proof.
  vm_compute. repeat constructor; cbn; intuition discriminate.
Qed.

(** X1. Whatever the text, the extracted skills are pairwise distinct and at
    most seventeen; each is "General" or a capitalized vocabulary label in
    the vocabulary's order; and "General" is returned exactly when the
    pattern of no label is found in the lower-cased text. *)
Theorem X1_extracted_skills_shape (text : string) :
  let found :=
    filter (fun s => Re.search_word s (Py.lower text)) KNOWN_SKILLS in
  NoDup (extract_skills_from_text text)
  /\ (List.length (extract_skills_from_text text) <= 17)%nat
  /\ (found = [] -> extract_skills_from_text text = ["General"])
  /\ (found <> [] ->
      extract_skills_from_text text = map Py.capitalize found
      /\ ~ In "General" (extract_skills_from_text text)).
Proof.
  intros found. rewrite extract_skills_as_filter. fold found.
  assert (Hnd : NoDup (map Py.capitalize found))
    by (apply kept_labels_distinct, capitalized_vocabulary_nodup).
  assert (Hlen : (List.length (map Py.capitalize found) <= 17)%nat).
  { rewrite length_map. unfold found.
    etransitivity; [apply filter_length_le|]. cbn. lia. }
  assert (Hgen : ~ In "General" (map Py.capitalize found)).
  { intros Hin. apply in_map_iff in Hin as [x [E Hx]].
    apply filter_In in Hx as [Hx _].
    cbn in Hx. repeat (destruct Hx as [<-|Hx]; [discriminate E|]).
    exact Hx. }
  destruct found as [|lit rest] eqn:Ef.
  - cbn. split; [|split; [|split]].
    + repeat constructor. intros [].
    + lia.
    + reflexivity.
    + intros H. now contradiction H.
  - change (match map Py.capitalize (lit :: rest) with
            | [] => ["General"]
            | _ => map Py.capitalize (lit :: rest)
            end) with (map Py.capitalize (lit :: rest)).
    split; [exact Hnd|]. split; [exact Hlen|]. split; [discriminate|].
    intros _. split; [reflexivity|exact Hgen].
Qed.

Lemma existsb_ext_seq (f g : nat -> bool) (l : list nat) :
  (forall i, f i = g i) -> existsb f l = existsb g l.
Proof.
  intros H. induction l as [|i l IH]; [reflexivity|].
  cbn [existsb]. now rewrite H, IH.
Qed.

(** X2. For a label that begins and ends with a word character, the pattern
    is found in a text exactly when the label occurs there with no word
    character immediately before or after it. *)
Theorem X2_word_label_whole_word (lit s : string) :
  word_delimited lit = true ->
  Re.search_word lit s = occurs_as_whole_word lit s.
Proof.
  intros Hd. unfold Re.search_word, occurs_as_whole_word.
  apply existsb_ext_seq. intros i. now apply match_at_whole_word.
Qed.

Lemma X2_witness :
  Re.search_word "java" "javascript, java" = occurs_as_whole_word "java" "javascript, java".
Proof. apply X2_word_label_whole_word. reflexivity. Defined.

Lemma get_outside (s : string) (n : nat) :
  (String.length s <= n)%nat -> String.get n s = None.
Proof.
  revert n. induction s as [|a s IH]; intros n H; [now destruct n|].
  destruct n as [|n]; cbn in *; [lia|]. apply IH. lia.
Qed.

Lemma word_at_outside (s : string) (p : Z) :
  Re.slen s <= p -> Re.word_at s p = false.
Proof.
  intros H. unfold Re.word_at, Re.slen in *.
  destruct (p <? 0); [reflexivity|].
  rewrite get_outside by lia. reflexivity.
Qed.

(** X3. A label whose last character is not a word character ("c++", "c#")
    is matched only where a word character follows it immediately; in
    particular it is never matched at the very end of a text. *)
Theorem X3_symbol_label_needs_word_after (lit s : string) (i : nat) :
  ends_nonword lit = true ->
  (Re.match_at lit s (Z.of_nat i) = true ->
   Re.word_at s (Z.of_nat i + Re.slen lit) = true)
  /\ ((i + String.length lit)%nat = String.length s ->
      Re.match_at lit s (Z.of_nat i) = false).
Proof.
  unfold ends_nonword. intros He.
  destruct (String.get (String.length lit - 1) lit) as [b|] eqn:Gb;
    [|discriminate].
  apply negb_true_iff in He.
  assert (Hn : (0 < String.length lit)%nat)
    by (destruct lit; [discriminate|cbn; lia]).
  assert (K : Re.match_at lit s (Z.of_nat i) = true ->
              Re.word_at s (Z.of_nat i + Re.slen lit) = true).
  { unfold Re.match_at. intros M.
    apply andb_true_iff in M as [M B2]. apply andb_true_iff in M as [_ L].
    unfold Re.literal_at in L. apply String.eqb_eq in L.
    rewrite Nat2Z.id in L.
    assert (Hlast : String.get (String.length lit - 1 + i) s = Some b).
    { rewrite <- Gb. rewrite <- L at 3.
      rewrite substring_correct1 by lia. reflexivity. }
    unfold Re.boundary in B2.
    rewrite (word_at_get s (Z.of_nat i + Re.slen lit - 1)
                         (String.length lit - 1 + i) b) in B2;
      [|unfold Re.slen; lia|exact Hlast].
    rewrite He in B2. exact B2. }
  split; [exact K|].
  intros Hend. destruct (Re.match_at lit s (Z.of_nat i)) eqn:M; [|reflexivity].
  pose proof (K eq_refl) as W.
  rewrite word_at_outside in W; [discriminate|].
  unfold Re.slen. lia.
Qed.

Lemma X3_witness :
  (Re.match_at "c++" "c++11" (Z.of_nat 0) = true ->
   Re.word_at "c++11" (Z.of_nat 0 + Re.slen "c++") = true)
  /\ ((7 + String.length "c++")%nat = String.length "I know c++" ->
      Re.match_at "c++" "I know c++" (Z.of_nat 7) = false).
Proof.
  split.
  - apply (X3_symbol_label_needs_word_after "c++" "c++11" 0). reflexivity.
  - apply (X3_symbol_label_needs_word_after "c++" "I know c++" 7). reflexivity.
Defined.

Lemma lower_char_idempotent (c : ascii) :
  Py.lower_char (Py.lower_char c) = Py.lower_char c.
Proof. destruct c as [[] [] [] [] [] [] [] []]; reflexivity. Qed.

Lemma lower_idempotent (s : string) : Py.lower (Py.lower s) = Py.lower s.
Proof.
  induction s as [|c s IH]; [reflexivity|].
  cbn [Py.lower]. now rewrite lower_char_idempotent, IH.
Qed.

(** X4. Extraction looks at the lower-cased text only: two texts that differ
    in letter case alone yield the same skills, and lower-casing a text
    beforehand changes nothing. *)
Theorem X4_extraction_ignores_case (text text' : string) :
  extract_skills_from_text (Py.lower text) = extract_skills_from_text text
  /\ (Py.lower text = Py.lower text' ->
      extract_skills_from_text text = extract_skills_from_text text').
Proof.
  split.
  - unfold extract_skills_from_text. now rewrite lower_idempotent.
  - intros H. unfold extract_skills_from_text. now rewrite H.
Qed.

Lemma X4_witness :
  extract_skills_from_text "PYTHON and Sql" = extract_skills_from_text "python AND sql".
Proof.
  apply (proj2 (X4_extraction_ignores_case "PYTHON and Sql" "python AND sql")).
  reflexivity.
Defined.

(** ** Answer evaluation, continued *)

Lemma json_get_absent (d : list (string * json)) (key : string) (default : json) :
  (forall v, ~ In (key, v) d) -> Json.get d key default = default.
Proof.
  induction d as [|[k v] d IH]; intros H; [reflexivity|].
  cbn [Json.get]. destruct (String.eqb_spec k key) as [->|Hk].
  - exfalso. apply (H v). now left.
  - apply IH. intros v' Hin. apply (H v'). now right.
Qed.

(** X5. A reply that is a JSON object without a "score" key is not a
    failure: the score is then 0, whatever the transcript, and the feedback
    is the object's "feedback" (the empty string when that is absent too).
    A "score" bound to null, to a list, to an object or to a non-finite
    float is a value that [int] refuses: the evaluation then takes the
    word-count fallback and its fixed feedback, and the object's own
    "feedback" is dropped. *)
Theorem X5_missing_or_unusable_score (transcript : string)
  (d : list (string * json)) :
  ((forall v, ~ In ("score", v) d) ->
   evaluate transcript (Some (JDict d))
   = (0, Json.get d "feedback" (JStr "")))
  /\ (refused_by_int (Json.get d "score" (JInt 0)) = true ->
      evaluate transcript (Some (JDict d))
      = (Z.min 5 (Z.max 0 (Py.len (Py.split transcript) / 20)),
         JStr "Automated fallback feedback.")).
Proof.
  split; intros H; cbn [evaluate].
  - rewrite json_get_absent by exact H. reflexivity.
  - destruct (Json.get d "score" (JInt 0)); try discriminate H; reflexivity.
Qed.

Lemma X5_witness :
  evaluate (Py.repeat_str "word " 60) (Some (JDict [("feedback", JStr "ok")]))
  = (0, JStr "ok")
  /\ evaluate (Py.repeat_str "word " 60)
              (Some (JDict [("score", JNull); ("feedback", JStr "ok")]))
     = (3, JStr "Automated fallback feedback.").
Proof.
  split.
  - apply (proj1 (X5_missing_or_unusable_score
                    (Py.repeat_str "word " 60) [("feedback", JStr "ok")])).
    intros v [E|[]]. discriminate E.
  - rewrite (proj2 (X5_missing_or_unusable_score
                      (Py.repeat_str "word " 60)
                      [("score", JNull); ("feedback", JStr "ok")]));
      [vm_compute; reflexivity|reflexivity].
Defined.

Lemma flush_app (cur : list ascii) (acc : list string) :
  Py.flush cur acc = Py.flush cur [] ++ acc.
Proof. destruct cur; reflexivity. Qed.

Lemma split_go_acc (s : string) (cur : list ascii) (acc : list string) :
  Py.split_go s cur acc = rev acc ++ Py.split_go s cur [].
Proof.
  revert cur acc. induction s as [|c s IH]; intros cur acc; cbn [Py.split_go].
  - rewrite flush_app, rev_app_distr. reflexivity.
  - destruct (Py.isspace c).
    + rewrite (IH [] (Py.flush cur acc)), (IH [] (Py.flush cur [])).
      rewrite flush_app, rev_app_distr, <- app_assoc. reflexivity.
    + apply IH.
Qed.

Lemma split_go_space (a b : string) (c : ascii) (cur : list ascii) :
  Py.isspace c = true ->
  Py.split_go (a ++ String c b) cur []
  = Py.split_go a cur [] ++ Py.split_go b [] [].
Proof.
  intros Hc. revert cur.
  induction a as [|x a IH]; intros cur; cbn [append Py.split_go].
  - rewrite Hc. rewrite split_go_acc. reflexivity.
  - destruct (Py.isspace x).
    + rewrite split_go_acc, IH, (split_go_acc a [] (Py.flush cur [])).
      now rewrite app_assoc.
    + apply IH.
Qed.

Lemma split_join (segments : list string) :
  Py.split (Py.join " " segments) = List.concat (map Py.split segments).
Proof.
  induction segments as [|p rest IH]; [reflexivity|].
  destruct rest as [|q rest].
  - cbn [Py.join map List.concat]. now rewrite app_nil_r.
  - change (Py.join " " (p :: q :: rest))
      with (p ++ String " " (Py.join " " (q :: rest)))%string.
    unfold Py.split at 1. rewrite split_go_space by reflexivity.
    fold (Py.split p). fold (Py.split (Py.join " " (q :: rest))).
    rewrite IH. reflexivity.
Qed.

(** X6. The words of the transcript are the words of the speech segments,
    in order, however the recogniser cut the segments; so the fallback score
    depends on the total number of words alone, and a failed transcription
    (empty transcript) scores 0. *)
Theorem X6_transcript_words (segments : list string) :
  Py.split (transcribe (Some segments))
  = List.concat (map Py.split segments)
  /\ fallback_score (transcribe (Some segments))
     = Z.min 5 (Py.sum (map (fun seg => Py.len (Py.split seg)) segments) / 20)
  /\ fallback_score (transcribe None) = 0.
Proof.
  split; [apply split_join|]. split; [|reflexivity].
  unfold fallback_score. cbn [transcribe]. rewrite split_join.
  assert (E : Py.len (List.concat (map Py.split segments))
              = Py.sum (map (fun seg => Py.len (Py.split seg)) segments)).
  { induction segments as [|p rest IH]; [reflexivity|].
    cbn [map List.concat]. rewrite sum_cons, <- IH.
    unfold Py.len. rewrite length_app. lia. }
  rewrite E.
  assert (0 <= Py.sum (map (fun seg => Py.len (Py.split seg)) segments)).
  { rewrite <- E. apply len_nonneg. }
  assert (0 <= Py.sum (map (fun seg => Py.len (Py.split seg)) segments) / 20)
    by (apply Z.div_pos; lia).
  lia.
Qed.

(** ** Aggregation and reports, continued *)

Lemma sum_permutation (l l' : list Z) : Permutation l l' -> Py.sum l = Py.sum l'.
Proof.
  induction 1 as [|x l l' _ IH|x y l|l l' l'' _ IH1 _ IH2].
  - reflexivity.
  - now rewrite !sum_cons, IH.
  - rewrite !sum_cons. lia.
  - congruence.
Qed.

Lemma filter_permutation {A} (p : A -> bool) (l l' : list A) :
  Permutation l l' -> Permutation (filter p l) (filter p l').
Proof.
  induction 1 as [|x l l' _ IH|x y l|l l' l'' _ IH1 _ IH2]; cbn [filter].
  - constructor.
  - destruct (p x); [now constructor|exact IH].
  - destruct (p x), (p y); try apply Permutation_refl. apply perm_swap.
  - now apply Permutation_trans with (filter p l').
Qed.

Lemma aggregate_totals (rows : list Score.t) :
  overall_obtained (aggregate rows) = Py.sum (map Score.score_obtained rows)
  /\ overall_total (aggregate rows) = Py.sum (map Score.score_total rows).
Proof.
  unfold aggregate. cbn [overall_obtained overall_total].
  pose proof (fold_add_score_sums rows []) as [So St].
  change (Py.sum (map Bucket.obtained (Dict.values (@nil (string * Bucket.t)))))
    with 0 in So.
  change (Py.sum (map Bucket.total (Dict.values (@nil (string * Bucket.t)))))
    with 0 in St.
  lia.
Qed.

Lemma aggregate_pct (rows : list Score.t) :
  overall_pct (aggregate rows)
  = percent (Py.sum (map Score.score_obtained rows))
            (Py.sum (map Score.score_total rows)).
Proof.
  destruct (aggregate_totals rows) as [Ho Ht].
  unfold aggregate in *. cbn [overall_obtained overall_total overall_pct] in *.
  now rewrite Ho, Ht.
Qed.

Lemma aggregate_get (rows : list Score.t) (k : string) :
  Dict.get (skill_map (aggregate rows)) k
  = if existsb (String.eqb k) (map Score.skill rows)
    then Some (Bucket.mk (Py.sum (map Score.score_obtained (of_skill k rows)))
                         (Py.sum (map Score.score_total (of_skill k rows))))
    else None.
Proof.
  unfold aggregate. cbn [skill_map].
  pose proof (fold_add_score_mem rows [] k) as Hm.
  pose proof (fold_add_score_bucket rows [] k) as Hb.
  unfold Dict.mem, bucket_of in Hm, Hb. simpl in Hm, Hb.
  destruct (Dict.get (fold_left add_score rows []) k) as [b|];
    rewrite <- Hm; [now rewrite Hb|reflexivity].
Qed.

(** X7. The order of the score rows matters for the order of the groups
    only: two orderings of the same rows give every skill the same bucket
    and give the same overall totals and percentage. *)
Theorem X7_aggregate_order_independent (rows rows' : list Score.t) :
  Permutation rows rows' ->
  (forall k, Dict.get (skill_map (aggregate rows)) k
             = Dict.get (skill_map (aggregate rows')) k)
  /\ overall_obtained (aggregate rows) = overall_obtained (aggregate rows')
  /\ overall_total (aggregate rows) = overall_total (aggregate rows')
  /\ overall_pct (aggregate rows) = overall_pct (aggregate rows').
Proof.
  intros P.
  assert (So : Py.sum (map Score.score_obtained rows)
               = Py.sum (map Score.score_obtained rows'))
    by (apply sum_permutation, Permutation_map, P).
  assert (St : Py.sum (map Score.score_total rows)
               = Py.sum (map Score.score_total rows'))
    by (apply sum_permutation, Permutation_map, P).
  split; [|split; [|split]].
  - intros k. rewrite !aggregate_get.
    assert (E : existsb (String.eqb k) (map Score.skill rows)
                = existsb (String.eqb k) (map Score.skill rows')).
    { apply eq_true_iff_eq. rewrite !existsb_eqb_In. split; intros H.
      - exact (Permutation_in _ (Permutation_map Score.skill P) H).
      - exact (Permutation_in _ (Permutation_map Score.skill (Permutation_sym P)) H). }
    rewrite E. unfold of_skill.
    rewrite (sum_permutation _ _ (Permutation_map Score.score_obtained
               (filter_permutation (fun s => String.eqb (Score.skill s) k) _ _ P))).
    rewrite (sum_permutation _ _ (Permutation_map Score.score_total
               (filter_permutation (fun s => String.eqb (Score.skill s) k) _ _ P))).
    reflexivity.
  - destruct (aggregate_totals rows) as [-> _].
    destruct (aggregate_totals rows') as [-> _]. exact So.
  - destruct (aggregate_totals rows) as [_ ->].
    destruct (aggregate_totals rows') as [_ ->]. exact St.
  - rewrite !aggregate_pct. now rewrite So, St.
Qed.

Lemma X7_witness :
  let a := Score.mk 1 "Python" 3 5 in
  let b := Score.mk 1 "Sql" 4 5 in
  let c := Score.mk 1 "Python" 5 5 in
  (forall k, Dict.get (skill_map (aggregate [a; b; c])) k
             = Dict.get (skill_map (aggregate [b; a; c])) k)
  /\ overall_obtained (aggregate [a; b; c]) = overall_obtained (aggregate [b; a; c])
  /\ overall_total (aggregate [a; b; c]) = overall_total (aggregate [b; a; c])
  /\ overall_pct (aggregate [a; b; c]) = overall_pct (aggregate [b; a; c]).
Proof.
  cbv zeta. apply X7_aggregate_order_independent. apply perm_swap.
Defined.

(** X8. The result page and the report agree: for an interview of the
    caller, the overall score stored with a report generated from a store is
    the percentage that the result page shows for that store; for any other
    interview both answer "not found". *)
Theorem X8_result_and_report_agree (st : Store) (iid user now now' : Z) :
  match immediate_result iid user st with
  | Ok r =>
      exists rep,
        reports (snd (generate_report_api iid user now now' st))
        = reports st ++ [rep]
        /\ Report.interview_id rep = iid
        /\ Report.overall_score rep = overall_pct r
  | Err e =>
      e = NotFound
      /\ generate_report_api iid user now now' st = (Err NotFound, st)
  end.
Proof.
  unfold immediate_result, generate_report_api.
  destruct (find_interview st iid user) as [iv|]; [|now split].
  cbn [snd reports]. eexists. split; [reflexivity|].
  cbn [Report.interview_id Report.overall_score].
  split; [reflexivity|]. now rewrite aggregate_pct.
Qed.

(** ** Report paths *)

Lemma before_uint (stop : ascii) (d : Decimal.uint) (x : string) :
  Py.in_range 48 57 stop = false ->
  before stop (NilEmpty.string_of_uint d ++ String stop x)%string
  = NilEmpty.string_of_uint d.
Proof.
  intros Hs.
  assert (Hd : forall c : ascii, Py.in_range 48 57 c = true ->
                                 Ascii.eqb c stop = false).
  { intros c Hc. destruct (Ascii.eqb_spec c stop) as [->|]; [congruence|easy]. }
  induction d; cbn [NilEmpty.string_of_uint append before];
    [now rewrite Ascii.eqb_refl|..];
    rewrite Hd by reflexivity; now rewrite IHd.
Qed.

Lemma before_str_of_int (stop : ascii) (z : Z) (x : string) :
  Py.in_range 48 57 stop = false -> stop <> "-"%char ->
  before stop (Py.str_of_int z ++ String stop x)%string = Py.str_of_int z.
Proof.
  intros Hs Hm.
  assert (Hz : before stop (String "0" (String stop x)) = "0").
  { cbn [before]. destruct (Ascii.eqb_spec "0"%char stop) as [<-|];
      [discriminate Hs|]. now rewrite Ascii.eqb_refl. }
  unfold Py.str_of_int, NilZero.string_of_int, NilZero.string_of_uint.
  destruct (Z.to_int z) as [d|d].
  - destruct d; try (apply before_uint; exact Hs). exact Hz.
  - cbn [append before].
    destruct (Ascii.eqb_spec "-"%char stop) as [E|_]; [now contradiction Hm|].
    f_equal. destruct d; try (apply before_uint; exact Hs). exact Hz.
Qed.

(** X10. The path of a report determines the interview and the stamp, and
    nothing else: two calls of [generate_pdf_report] return the same path
    exactly when they are for the same interview and obtained the same value
    of [int(datetime.utcnow().timestamp())].  Reports of different
    interviews never overwrite each other. *)
Theorem X10_report_path_injective (iid1 stamp1 iid2 stamp2 : Z) :
  generate_pdf_report iid1 stamp1 = generate_pdf_report iid2 stamp2
  <-> iid1 = iid2 /\ stamp1 = stamp2.
Proof.
  split.
  - intros H. unfold generate_pdf_report, report_filename in H.
    do 2 apply append_cancel_l in H.
    assert (E : iid1 = iid2).
    { apply (f_equal (before "_")) in H.
      change ("_" ++ ?a)%string with (String "_" a) in H.
      rewrite !before_str_of_int in H by (reflexivity || discriminate).
      exact (str_of_int_inj _ _ H). }
    split; [exact E|]. subst iid2.
    do 2 apply append_cancel_l in H. apply append_cancel_r in H.
    exact (str_of_int_inj _ _ H).
  - intros [-> ->]. reflexivity.
Qed.

(** ** The interview session over time *)

Lemma find_app_some {A} (p : A -> bool) (l l' : list A) (x : A) :
  find p l = Some x -> find p (l ++ l') = Some x.
Proof.
  induction l as [|a l IH]; [discriminate|].
  cbn [app find]. destruct (p a); [auto|exact IH].
Qed.

Lemma find_app_none {A} (p : A -> bool) (l l' : list A) :
  find p l = None -> find p (l ++ l') = find p l'.
Proof.
  induction l as [|a l IH]; [reflexivity|].
  cbn [app find]. destruct (p a); [discriminate|exact IH].
Qed.

(** Every request keeps the interview rows it found and adds at most one. *)
Lemma step_interviews (st : Store) (r : request) :
  exists new, interviews (step st r) = interviews st ++ new
              /\ (List.length new <= 1)%nat.
Proof.
  destruct r as [u ty now reply|u j i|u j i w reply|u j|u j now now'];
    cbn [step]; try (exists []; rewrite app_nil_r; split; [reflexivity|cbn; lia]).
  - destruct (start_interview_cases ty u now reply st)
      as [[e ->]|[qs [_ ->]]]; cbn [snd interviews].
    + exists []. rewrite app_nil_r. split; [reflexivity|cbn; lia].
    + eexists. split; [reflexivity|cbn; lia].
  - exists []. rewrite app_nil_r. split; [|cbn; lia].
    destruct (stt_endpoint_cases j i w reply u st)
      as [[e ->]|[iv [q [Hf [Hlt Hq]]]]]; [reflexivity|].
    now rewrite (stt_endpoint_ok j i w reply u st iv q Hf Hlt Hq).
  - exists []. rewrite app_nil_r. split; [|cbn; lia].
    destruct (generate_report_cases j u now now' st) as [->|[iv [_ ->]]];
      reflexivity.
Qed.

Lemma find_interview_step (st : Store) (r : request) (iid user : Z)
  (iv : Interview.t) :
  find_interview st iid user = Some iv ->
  find_interview (step st r) iid user = Some iv.
Proof.
  intros H. unfold find_interview in *.
  destruct (step_interviews st r) as [new [-> _]]. now apply find_app_some.
Qed.

(** X11. An interview and its question list never change once created:
    after any further requests, by anyone, the caller's lookup returns the
    very same interview row, and every question page of it is what it
    was. *)
Theorem X11_interview_immutable (st : Store) (reqs : list request)
  (iid user : Z) (iv : Interview.t) :
  find_interview st iid user = Some iv ->
  find_interview (run st reqs) iid user = Some iv
  /\ (forall q_index,
         question_page iid q_index user (run st reqs)
         = question_page iid q_index user st).
Proof.
  intros H.
  assert (G : find_interview (run st reqs) iid user = Some iv).
  { revert st H. induction reqs as [|r reqs IH]; intros st H; [exact H|].
    cbn [run fold_left]. apply IH. now apply find_interview_step. }
  split; [exact G|]. intros i. unfold question_page. now rewrite G, H.
Qed.

Lemma X11_witness :
  let later :=
    run demo_store
        [SubmitAnswer 1 1 0 (Some ["hello"]) None;
         Start 1 "hr" 1730000000000001 (Some []);
         GenerateReport 1 1 1730000000000002 1730000000000003] in
  find_interview later 1 1 = find_interview demo_store 1 1
  /\ (forall q_index,
         question_page 1 q_index 1 later = question_page 1 q_index 1 demo_store).
Proof.
  cbv zeta.
  destruct (X11_interview_immutable
              demo_store
              [SubmitAnswer 1 1 0 (Some ["hello"]) None;
               Start 1 "hr" 1730000000000001 (Some []);
               GenerateReport 1 1 1730000000000002 1730000000000003]
              1 1
              (Interview.mk 1 1 "technical" 1730000000000000
                 (match fallback_questions ["Python"] with
                  | Some qs => qs
                  | None => []
                  end)))
    as [H1 H2].
  - vm_compute. reflexivity.
  - split; [rewrite H1; vm_compute; reflexivity|exact H2].
Defined.

Lemma filter_all_in {A} (p : A -> bool) (l : list A) :
  (forall x, In x l -> p x = true) -> filter p l = l.
Proof.
  intros H. induction l as [|a l IH]; [reflexivity|].
  cbn [filter]. rewrite (H a (in_eq a l)). f_equal. apply IH.
  intros x Hx. apply H. now right.
Qed.

Lemma reachable_well_formed (rs : list Resume.t) (reqs : list request) :
  well_formed (run (empty_store rs) reqs).
Proof. apply run_well_formed, empty_store_well_formed. Qed.

Lemma find_interview_fresh (st : Store) (user : Z) :
  well_formed st -> find_interview st (next_interview_id st) user = None.
Proof.
  intros [W1 _]. apply find_interview_none. intros iv Hin E.
  pose proof (id_in_range st iv W1 Hin). unfold next_interview_id in E. lia.
Qed.

(** X12. When the generation call fails, a start in any reachable store
    stores the fifteen placeholder questions made from the caller's résumé
    skills, under a key that no interview had before, and returns that key
    with the count 15; from then on the owner finds the interview, with
    exactly these questions, and nobody else does; question page [i] shows
    question [i] and the page after the last one is "complete"; and the
    interview has exactly one empty answer row per question, in order, each
    out of 5. *)
Theorem X12_start_then_lookup (rs : list Resume.t) (reqs : list request)
  (ty : string) (user now : Z) (iid n : Z) (st' : Store) :
  let st := run (empty_store rs) reqs in
  start_interview ty user now None st = (Ok (iid, n), st') ->
  (forall u, find_interview st iid u = None)
  /\ exists r qs,
       find_resume st user = Some r
       /\ fallback_questions (skills_or_general (Resume.skills r)) = Some qs
       /\ n = 15 /\ Py.len qs = 15
       /\ st' = mkStore (resumes st)
                        (interviews st ++ [Interview.mk iid user ty now qs])
                        (answers st
                           ++ map (fun q =>
                                     Answer.mk iid (QuestionSpec.question q)
                                               None (QuestionSpec.skill q) 5)
                                  qs)
                        (scores st) (reports st)
       /\ find_interview st' iid user = Some (Interview.mk iid user ty now qs)
       /\ (forall u, u <> user -> find_interview st' iid u = None)
       /\ (forall i q, nth_error qs i = Some q ->
             question_page iid (Z.of_nat i) user st'
             = Ok (QuestionPage iid (Z.of_nat i) (QuestionSpec.question q) 15))
       /\ question_page iid 15 user st' = Ok (Complete iid)
       /\ answers_of st' iid
          = map (fun q => Answer.mk iid (QuestionSpec.question q) None
                                    (QuestionSpec.skill q) 5)
                qs.
Proof.
  intros st H. pose proof (reachable_well_formed rs reqs) as W. fold st in W.
  destruct (start_interview_cases ty user now None st)
    as [[e E]|[qs [[E0|[r [Fr Hfb]]] E]]]; [congruence|discriminate E0|].
  destruct (start_interview_fallback ty user now st r Fr)
    as [qs' [Hfb' [Hlen _]]].
  rewrite Hfb in Hfb'. injection Hfb' as <-.
  assert (Hl : Py.len qs = 15) by (unfold Py.len; rewrite Hlen; reflexivity).
  assert (Hrows : map (answer_placeholder (next_interview_id st)) qs
                  = map (fun q =>
                           Answer.mk (next_interview_id st)
                                     (QuestionSpec.question q) None
                                     (QuestionSpec.skill q) 5) qs).
  { apply map_ext_in. intros q Hq. unfold answer_placeholder.
    now rewrite (fallback_questions_max _ _ _ Hfb Hq). }
  rewrite E, Hl, Hrows in H. injection H as <- <- <-.
  split; [intros u; now apply find_interview_fresh|].
  exists r, qs.
  set (rows := map (fun q =>
                      Answer.mk (next_interview_id st)
                                (QuestionSpec.question q) None
                                (QuestionSpec.skill q) 5) qs).
  assert (Hfind : forall u,
             find_interview
               (mkStore (resumes st)
                        (interviews st
                           ++ [Interview.mk (next_interview_id st) user ty now qs])
                        (answers st ++ rows)
                        (scores st) (reports st))
               (next_interview_id st) u
             = if user =? u
               then Some (Interview.mk (next_interview_id st) user ty now qs)
               else None).
  { intros u. unfold find_interview at 1. cbn [interviews].
    rewrite find_app_none by (apply (find_interview_fresh st u W)).
    cbn [find Interview.id Interview.user_id]. rewrite Z.eqb_refl.
    cbn [andb]. reflexivity. }
  assert (Hme := Hfind user). rewrite Z.eqb_refl in Hme.
  split; [exact Fr|]. split; [exact Hfb|]. split; [reflexivity|].
  split; [exact Hl|]. split; [reflexivity|].
  split; [exact Hme|]. split.
  { intros u Hu. rewrite Hfind.
    destruct (Z.eqb_spec user u); [congruence|reflexivity]. }
  split.
  { intros i q Hq.
    assert (Hi : (i < List.length qs)%nat) by (apply nth_error_Some; congruence).
    rewrite (question_page_below _ _ _ _ _ Hme);
      [|cbn [Interview.questions]; unfold Py.len; lia].
    cbn [Interview.questions]. rewrite index_nonneg by lia.
    now rewrite Nat2Z.id, Hq, Hl. }
  split.
  { apply (question_page_complete _ _ _ _ _ Hme). cbn [Interview.questions]. lia. }
  destruct W as [_ [W2 _]].
  unfold answers_of. cbn [answers]. rewrite filter_app.
  rewrite (filter_none _ (answers st)).
  - cbn [app]. apply filter_all_in.
    intros a Ha. apply in_map_iff in Ha as [q [<- _]]. cbn. apply Z.eqb_refl.
  - intros a Ha. pose proof (W2 a Ha). apply Z.eqb_neq.
    unfold next_interview_id. lia.
Qed.

Lemma X12_witness :
  let st := run (empty_store [Resume.mk 7 ["Python"; "SQL"]]) [] in
  let st' := snd (start_interview "technical" 7 1730000000000000 None st) in
  (forall u, find_interview st 1 u = None)
  /\ find_interview st' 1 7 <> None
  /\ question_page 1 1 7 st'
     = Ok (QuestionPage 1 1 "Placeholder question #2 for SQL" 15)
  /\ question_page 1 15 7 st' = Ok (Complete 1)
  /\ List.length (answers_of st' 1) = 15%nat.
Proof.
  cbv zeta.
  destruct (X12_start_then_lookup
              [Resume.mk 7 ["Python"; "SQL"]] [] "technical" 7
              1730000000000000 1 15
              (snd (start_interview "technical" 7 1730000000000000 None
                      (run (empty_store [Resume.mk 7 ["Python"; "SQL"]]) []))))
    as [H0 [r [qs [_ [Hq [_ [Hl [_ [Hf [_ [Hp [Hc Ha]]]]]]]]]]]].
  - vm_compute. reflexivity.
  - split; [exact H0|]. split; [rewrite Hf; discriminate|].
    split; [|split; [exact Hc|]].
    + vm_compute. reflexivity.
    + rewrite Ha, length_map. unfold Py.len in Hl. lia.
Defined.

(** ** The answers table *)

Lemma update_first_keys (iid : Z) (text tr : string) (rows : list Answer.t) :
  map answer_key (update_first_answer iid text tr rows) = map answer_key rows.
Proof.
  induction rows as [|a rows IH]; [reflexivity|].
  cbn [update_first_answer].
  destruct (answer_matches iid text a); cbn [map]; [reflexivity|now rewrite IH].
Qed.

Lemma update_first_length (iid : Z) (text tr : string) (rows : list Answer.t) :
  List.length (update_first_answer iid text tr rows) = List.length rows.
Proof.
  rewrite <- (length_map answer_key), update_first_keys. apply length_map.
Qed.

Lemma find_answer_by_key (st : Store) (iid : Z) (text : string) :
  In (iid, text) (map answer_key (answers st)) ->
  exists a, find_answer st iid text = Some a.
Proof.
  intros Hin. apply in_map_iff in Hin as [a [E Ha]].
  destruct (find_answer st iid text) as [a'|] eqn:F; [eauto|].
  unfold find_answer in F. pose proof (find_none _ _ F a Ha) as M.
  unfold answer_matches, answer_key in *. injection E as E1 E2.
  rewrite E1, E2, Z.eqb_refl, String.eqb_refl in M. discriminate M.
Qed.

Lemma index_some_in {A} (l : list A) (i : Z) (x : A) :
  Py.index l i = Some x -> In x l.
Proof.
  unfold Py.index.
  destruct (0 <=? i); [apply nth_error_In|].
  destruct (- Py.len l <=? i); [apply nth_error_In|discriminate].
Qed.

Lemma question_keys_in (st : Store) (iv : Interview.t) (q : QuestionSpec.t) :
  In iv (interviews st) -> In q (Interview.questions iv) ->
  In (Interview.id iv, QuestionSpec.question q) (question_keys st).
Proof.
  intros Hiv Hq. unfold question_keys. apply in_concat.
  eexists. split; [apply in_map; exact Hiv|].
  apply (in_map (fun q => (Interview.id iv, QuestionSpec.question q))).
  exact Hq.
Qed.

Lemma step_keys (st : Store) (r : request) :
  map answer_key (answers st) = question_keys st ->
  map answer_key (answers (step st r)) = question_keys (step st r).
Proof.
  intros K.
  destruct r as [u ty now reply|u j i|u j i w reply|u j|u j now now'];
    cbn [step]; try exact K.
  - destruct (start_interview_cases ty u now reply st)
      as [[e ->]|[qs [_ ->]]]; [exact K|].
    cbn [snd]. unfold question_keys. cbn [answers interviews].
    rewrite !map_app, concat_app. fold (question_keys st). rewrite K.
    cbn [map List.concat Interview.id Interview.questions].
    rewrite app_nil_r, map_map. reflexivity.
  - destruct (stt_endpoint_cases j i w reply u st)
      as [[e ->]|[iv [q [Hf [Hlt Hq]]]]]; [exact K|].
    rewrite (stt_endpoint_ok j i w reply u st iv q Hf Hlt Hq).
    cbn [snd]. unfold question_keys. cbn [answers interviews].
    fold (question_keys st). rewrite <- K.
    apply find_interview_some in Hf as [Hin [<- _]].
    destruct (find_answer_by_key st (Interview.id iv) (QuestionSpec.question q))
      as [a Fa].
    { rewrite K. apply question_keys_in; [exact Hin|].
      exact (index_some_in _ _ _ Hq). }
    unfold update_answer_row. cbv zeta. rewrite Fa. apply update_first_keys.
  - destruct (generate_report_cases j u now now' st) as [->|[iv [_ ->]]];
      exact K.
Qed.

(** X13. In every store reached while the generation call fails, so that
    every interview was started with placeholder questions, the answers
    table lists exactly the questions of the interviews: interview by
    interview and question by question, in order.  Submissions therefore
    only ever write into rows that exist; no request changes the number of
    answer rows except the start of an interview. *)
Theorem X13_answers_follow_questions (rs : list Resume.t)
  (reqs : list request) :
  forallb generation_down reqs = true ->
  let st := run (empty_store rs) reqs in
  map answer_key (answers st) = question_keys st
  /\ (forall iid idx w reply user,
         List.length (answers (snd (stt_endpoint iid idx w reply user st)))
         = List.length (answers st))
  /\ (forall iid user now now',
         answers (snd (generate_report_api iid user now now' st)) = answers st).
Proof.
  intros _ st.
  assert (K : map answer_key (answers st) = question_keys st).
  { subst st. generalize (empty_store rs) (eq_refl : map answer_key (answers (empty_store rs)) = question_keys (empty_store rs)).
    induction reqs as [|r reqs IH]; intros s Ks; [exact Ks|].
    cbn [run fold_left]. apply IH. now apply step_keys. }
  split; [exact K|]. split.
  - intros iid idx w reply user.
    pose proof (step_keys st (SubmitAnswer user iid idx w reply) K) as K'.
    cbn [step] in K'.
    rewrite <- (length_map answer_key), K', <- (length_map answer_key (answers st)), K.
    unfold question_keys.
    destruct (step_interviews st (SubmitAnswer user iid idx w reply))
      as [new [E Hn]]. cbn [step] in E.
    destruct (stt_endpoint_cases iid idx w reply user st)
      as [[e ->]|[iv [q [Hf [Hlt Hq]]]]]; [reflexivity|].
    now rewrite (stt_endpoint_ok iid idx w reply user st iv q Hf Hlt Hq).
  - intros iid user now now'.
    destruct (generate_report_cases iid user now now' st) as [->|[iv [_ ->]]];
      reflexivity.
Qed.

Lemma X13_witness :
  let st := run (empty_store [Resume.mk 1 ["Python"]; Resume.mk 2 []])
                [Start 1 "technical" 1730000000000000 None;
                 SubmitAnswer 1 1 0 (Some ["hello"]) None;
                 Start 2 "technical" 1730000000000001 None;
                 SubmitAnswer 1 1 0 (Some ["hello"; "again"]) None] in
  List.length (answers st) = 30%nat
  /\ map answer_key (answers st) = question_keys st
  /\ List.length
       (answers (snd (stt_endpoint 2 (-1) (Some ["last"]) None 2 st)))
     = 30%nat.
Proof.
  cbv zeta.
  destruct (X13_answers_follow_questions
              [Resume.mk 1 ["Python"]; Resume.mk 2 []]
              [Start 1 "technical" 1730000000000000 None;
               SubmitAnswer 1 1 0 (Some ["hello"]) None;
               Start 2 "technical" 1730000000000001 None;
               SubmitAnswer 1 1 0 (Some ["hello"; "again"]) None])
    as [K [L _]]; [reflexivity|].
  split; [vm_compute; reflexivity|]. split; [exact K|].
  rewrite L. vm_compute. reflexivity.
Defined.



(** ** Scores when the external services are out of order *)

Lemma step_scores_bounded (st : Store) (r : request) :
  evaluation_down r = true ->
  (forall s, In s (scores st) -> 0 <= Score.score_obtained s <= 5) ->
  forall s, In s (scores (step st r)) -> 0 <= Score.score_obtained s <= 5.
Proof.
  intros Hr H.
  destruct r as [u ty now reply|u j i|u j i w reply|u j|u j now now'];
    cbn [step]; try exact H.
  - destruct (start_interview_cases ty u now reply st)
      as [[e ->]|[qs [_ ->]]]; exact H.
  - destruct reply as [v|]; [discriminate Hr|].
    destruct (stt_endpoint_cases j i w None u st)
      as [[e ->]|[iv [q [Hf [Hlt Hq]]]]]; [exact H|].
    rewrite (stt_endpoint_ok j i w None u st iv q Hf Hlt Hq).
    cbn [snd scores]. intros s Hs. apply in_app_or in Hs as [Hs|[<-|[]]].
    + exact (H s Hs).
    + cbn [Score.score_obtained evaluate fst]. apply fallback_score_range.
  - destruct (generate_report_cases j u now now' st) as [->|[iv [_ ->]]];
      exact H.
Qed.

Lemma step_totals_five (st : Store) (r : request) :
  generation_down r = true ->
  (forall iv q, In iv (interviews st) -> In q (Interview.questions iv) ->
                max_score_or_5 q = 5) ->
  (forall s, In s (scores st) -> Score.score_total s = 5) ->
  (forall iv q, In iv (interviews (step st r)) ->
                In q (Interview.questions iv) -> max_score_or_5 q = 5)
  /\ (forall s, In s (scores (step st r)) -> Score.score_total s = 5).
Proof.
  intros Hr HQ HS.
  destruct r as [u ty now reply|u j i|u j i w reply|u j|u j now now'];
    cbn [step]; try (split; assumption).
  - destruct reply as [qs0|]; [discriminate Hr|].
    destruct (start_interview_cases ty u now None st)
      as [[e ->]|[qs [[E|[rd [_ Hfb]]] ->]]];
      [split; assumption|discriminate E|].
    cbn [snd interviews scores]. split; [|exact HS].
    intros iv q Hiv Hq. apply in_app_or in Hiv as [Hiv|[<-|[]]].
    + exact (HQ iv q Hiv Hq).
    + exact (fallback_questions_max _ _ _ Hfb Hq).
  - destruct (stt_endpoint_cases j i w reply u st)
      as [[e ->]|[iv [q [Hf [Hlt Hq]]]]]; [split; assumption|].
    rewrite (stt_endpoint_ok j i w reply u st iv q Hf Hlt Hq).
    cbn [snd interviews scores]. split; [exact HQ|].
    intros s Hs. apply in_app_or in Hs as [Hs|[<-|[]]]; [exact (HS s Hs)|].
    cbn [Score.score_total]. apply find_interview_some in Hf as [Hin _].
    exact (HQ iv q Hin (index_some_in _ _ _ Hq)).
  - destruct (generate_report_cases j u now now' st) as [->|[iv [_ ->]]];
      split; assumption.
Qed.

Lemma sum_bounded (rows : list Score.t) :
  (forall s, In s rows ->
             0 <= Score.score_obtained s <= Score.score_total s) ->
  0 <= Py.sum (map Score.score_obtained rows)
       <= Py.sum (map Score.score_total rows).
Proof.
  induction rows as [|s rows IH]; intros H; [cbn; lia|].
  cbn [map]. rewrite !sum_cons.
  pose proof (H s (in_eq s rows)).
  assert (forall s', In s' rows ->
                     0 <= Score.score_obtained s' <= Score.score_total s')
    by (intros s' Hs'; apply H; now right).
  specialize (IH H1). lia.
Qed.

Lemma run_scores_bounded (reqs : list request) (st : Store) :
  forallb evaluation_down reqs = true ->
  (forall s, In s (scores st) -> 0 <= Score.score_obtained s <= 5) ->
  forall s, In s (scores (run st reqs)) -> 0 <= Score.score_obtained s <= 5.
Proof.
  revert st. induction reqs as [|r reqs IH]; intros st Hd H0; [exact H0|].
  cbn [forallb] in Hd. apply andb_true_iff in Hd as [Hr Hd].
  cbn [run fold_left]. apply (IH _ Hd). now apply step_scores_bounded.
Qed.

Lemma run_totals_five (reqs : list request) (st : Store) :
  forallb generation_down reqs = true ->
  (forall iv q, In iv (interviews st) -> In q (Interview.questions iv) ->
                max_score_or_5 q = 5) ->
  (forall s, In s (scores st) -> Score.score_total s = 5) ->
  forall s, In s (scores (run st reqs)) -> Score.score_total s = 5.
Proof.
  revert st. induction reqs as [|r reqs IH]; intros st Hd HQ HS; [exact HS|].
  cbn [forallb] in Hd. apply andb_true_iff in Hd as [Hr Hd].
  cbn [run fold_left].
  destruct (step_totals_five st r Hr HQ HS) as [HQ' HS'].
  exact (IH _ Hd HQ' HS').
Qed.

(** X14. While the evaluation service is out of order, every score written
    is between 0 and 5; while the generation service is out of order, every
    score is out of 5; and with both out of order the result page of any
    interview shows an obtained total between 0 and the overall total. *)
Theorem X14_scores_without_services (rs : list Resume.t)
  (reqs : list request) :
  let st := run (empty_store rs) reqs in
  (forallb evaluation_down reqs = true ->
   forall s, In s (scores st) -> 0 <= Score.score_obtained s <= 5)
  /\ (forallb generation_down reqs = true ->
      forall s, In s (scores st) -> Score.score_total s = 5)
  /\ (forallb evaluation_down reqs = true ->
      forallb generation_down reqs = true ->
      forall iid user r,
        immediate_result iid user st = Ok r ->
        0 <= overall_obtained r <= overall_total r).
Proof.
  intros st.
  assert (A : forallb evaluation_down reqs = true ->
              forall s, In s (scores st) -> 0 <= Score.score_obtained s <= 5).
  { intros Hd. apply (run_scores_bounded reqs _ Hd). intros s []. }
  assert (B : forallb generation_down reqs = true ->
              forall s, In s (scores st) -> Score.score_total s = 5).
  { intros Hd. apply (run_totals_five reqs _ Hd);
      [intros iv q []|intros s []]. }
  split; [exact A|]. split; [exact B|].
  intros He Hg iid user r Hr. unfold immediate_result in Hr.
  destruct (find_interview st iid user); [|discriminate].
  injection Hr as <-.
  destruct (aggregate_totals (scores_of st iid)) as [-> ->].
  apply sum_bounded. intros s Hs. apply filter_In in Hs as [Hs _].
  pose proof (A He s Hs). pose proof (B Hg s Hs). lia.
Qed.

Lemma X14_witness :
  let st := run (empty_store [Resume.mk 1 ["Python"]])
                [Start 1 "technical" 1730000000000000 None;
                 SubmitAnswer 1 1 0 (Some [Py.repeat_str "word " 60]) None;
                 SubmitAnswer 1 1 0 (Some ["short"]) None] in
  (forall s, In s (scores st) -> 0 <= Score.score_obtained s <= 5)
  /\ (forall s, In s (scores st) -> Score.score_total s = 5)
  /\ (forall iid user r,
        immediate_result iid user st = Ok r ->
        0 <= overall_obtained r <= overall_total r).
Proof.
  cbv zeta.
  destruct (X14_scores_without_services
              [Resume.mk 1 ["Python"]]
              [Start 1 "technical" 1730000000000000 None;
               SubmitAnswer 1 1 0 (Some [Py.repeat_str "word " 60]) None;
               SubmitAnswer 1 1 0 (Some ["short"]) None])
    as [A [B C]].
  split; [apply A; reflexivity|].
  split; [apply B; reflexivity|].
  apply C; reflexivity.
Defined.

(** ** Nothing is deleted or rewritten *)

Lemma step_append (st : Store) (r : request) :
  resumes (step st r) = resumes st
  /\ exists ni nk ns nr,
       interviews (step st r) = interviews st ++ ni
       /\ map answer_key (answers (step st r))
          = map answer_key (answers st) ++ nk
       /\ scores (step st r) = scores st ++ ns
       /\ reports (step st r) = reports st ++ nr
       /\ (List.length ni <= if is_start r then 1 else 0)%nat
       /\ (List.length ns <= if is_submission r then 1 else 0)%nat
       /\ (List.length nr <= if is_report r then 1 else 0)%nat.
Proof.
  assert (Unch : step st r = st ->
            resumes (step st r) = resumes st
            /\ exists ni nk ns nr,
                 interviews (step st r) = interviews st ++ ni
                 /\ map answer_key (answers (step st r))
                    = map answer_key (answers st) ++ nk
                 /\ scores (step st r) = scores st ++ ns
                 /\ reports (step st r) = reports st ++ nr
                 /\ (List.length ni <= if is_start r then 1 else 0)%nat
                 /\ (List.length ns <= if is_submission r then 1 else 0)%nat
                 /\ (List.length nr <= if is_report r then 1 else 0)%nat).
  { intros ->. split; [reflexivity|]. exists [], [], [], [].
    rewrite !app_nil_r. repeat split; cbn; lia. }
  destruct r as [u ty now reply|u j i|u j i w reply|u j|u j now now'];
    try (apply Unch; reflexivity).
  - destruct (start_interview_cases ty u now reply st) as [[e E]|[qs [_ E]]].
    + apply Unch. cbn [step]. now rewrite E.
    + cbn [step]. rewrite E. cbn [snd resumes interviews answers scores reports].
      split; [reflexivity|].
      exists [Interview.mk (next_interview_id st) u ty now qs],
             (map answer_key (map (answer_placeholder (next_interview_id st)) qs)),
             [], [].
      rewrite !app_nil_r, map_app. repeat split; cbn; lia.
  - destruct (stt_endpoint_cases j i w reply u st)
      as [[e E]|[iv [q [Hf [Hlt Hq]]]]].
    + apply Unch. cbn [step]. now rewrite E.
    + cbn [step]. rewrite (stt_endpoint_ok j i w reply u st iv q Hf Hlt Hq).
      cbn [snd resumes interviews answers scores reports].
      split; [reflexivity|].
      exists [],
             (match find_answer st j (QuestionSpec.question q) with
              | Some _ => []
              | None => [(j, QuestionSpec.question q)]
              end),
             [Score.mk j (skill_or_general q)
                       (fst (evaluate (transcribe w) reply)) (max_score_or_5 q)],
             [].
      rewrite !app_nil_r. unfold update_answer_row. cbv zeta.
      destruct (find_answer st j (QuestionSpec.question q)).
      * rewrite update_first_keys.
        repeat split; cbn; rewrite ?app_nil_r; try reflexivity; lia.
      * rewrite map_app.
        repeat split; cbn; rewrite ?app_nil_r; try reflexivity; lia.
  - destruct (generate_report_cases j u now now' st) as [E|[iv [_ E]]].
    + apply Unch. cbn [step]. now rewrite E.
    + cbn [step]. rewrite E. cbn [snd resumes interviews answers scores reports].
      split; [reflexivity|].
      exists [], [], [],
             [Report.mk j
                (percent (Py.sum (map Score.score_obtained (scores_of st j)))
                         (Py.sum (map Score.score_total (scores_of st j))))
                (generate_pdf_report j now) now'].
      rewrite !app_nil_r. repeat split; cbn; lia.
Qed.

(** X15. No request deletes, reorders or rewrites an interview, a score or a
    report, or removes an answer row: after any sequence of requests each of
    these tables is the table before with new rows after it, at most one new
    interview per start, one new score per submission and one new report per
    report request.  The résumé collection is never written. *)
Theorem X15_tables_are_append_only (st : Store) (reqs : list request) :
  resumes (run st reqs) = resumes st
  /\ exists ni nk ns nr,
       interviews (run st reqs) = interviews st ++ ni
       /\ map answer_key (answers (run st reqs))
          = map answer_key (answers st) ++ nk
       /\ scores (run st reqs) = scores st ++ ns
       /\ reports (run st reqs) = reports st ++ nr
       /\ (List.length ni <= count_requests is_start reqs)%nat
       /\ (List.length ns <= count_requests is_submission reqs)%nat
       /\ (List.length nr <= count_requests is_report reqs)%nat.
Proof.
  revert st. induction reqs as [|r reqs IH]; intros st.
  - split; [reflexivity|]. exists [], [], [], [].
    rewrite !app_nil_r. repeat split; cbn; lia.
  - cbn [run fold_left].
    destruct (step_append st r)
      as [R [ni [nk [ns [nr [A [B [C [D [Li [Ls Lr]]]]]]]]]]].
    destruct (IH (step st r))
      as [R' [ni' [nk' [ns' [nr' [A' [B' [C' [D' [Li' [Ls' Lr']]]]]]]]]]].
    unfold run in *.
    split; [congruence|].
    exists (ni ++ ni'), (nk ++ nk'), (ns ++ ns'), (nr ++ nr').
    rewrite A', B', C', D', A, B, C, D, <- !app_assoc.
    unfold count_requests in *. cbn [filter].
    repeat split; rewrite length_app.
    + destruct (is_start r); cbn [List.length]; lia.
    + destruct (is_submission r); cbn [List.length]; lia.
    + destruct (is_report r); cbn [List.length]; lia.
Qed.

(** X16. After an accepted submission the answer row that the lookup by
    question text returns holds exactly the transcript just submitted,
    whatever it held before: the latest submission wins, and the transcript
    in the response is the one stored. *)
Theorem X16_latest_submission_wins (st st' : Store) (iid idx user : Z)
  (w : stt_reply) (reply : eval_reply) (resp : stt_response) :
  stt_endpoint iid idx w reply user st = (Ok resp, st') ->
  exists iv q a,
    find_interview st iid user = Some iv
    /\ Py.index (Interview.questions iv) idx = Some q
    /\ find_answer st' iid (QuestionSpec.question q) = Some a
    /\ Answer.answer_text a = Some (transcript resp)
    /\ transcript resp = transcribe w.
Proof.
  intros H.
  destruct (stt_endpoint_cases iid idx w reply user st)
    as [[e E]|[iv [q [Hf [Hlt Hq]]]]]; [congruence|].
  rewrite (stt_endpoint_ok iid idx w reply user st iv q Hf Hlt Hq) in H.
  injection H as <- <-.
  destruct (update_answer_row_latest st iid q (transcribe w)) as [a [Fa Ta]].
  exists iv, q, a. repeat split; assumption.
Qed.

Lemma X16_witness :
  let st1 := snd (stt_endpoint 1 2 (Some ["first"; "try"]) None 1 demo_store) in
  let st2 := snd (stt_endpoint 1 2 (Some ["second"; "try"]) None 1 st1) in
  exists iv q a,
    find_interview st1 1 1 = Some iv
    /\ Py.index (Interview.questions iv) 2 = Some q
    /\ find_answer st2 1 (QuestionSpec.question q) = Some a
    /\ Answer.answer_text a = Some "second try"
    /\ "second try" = transcribe (Some ["second"; "try"]).
Proof.
  cbv zeta.
  apply (X16_latest_submission_wins
           (snd (stt_endpoint 1 2 (Some ["first"; "try"]) None 1 demo_store))
           (snd (stt_endpoint 1 2 (Some ["second"; "try"]) None 1
                   (snd (stt_endpoint 1 2 (Some ["first"; "try"]) None 1
                                      demo_store))))
           1 2 1 (Some ["second"; "try"]) None
           (mkSttResponse "second try" 0 fallback_feedback)).
  vm_compute. reflexivity.
Defined.

(** ** The report drawing *)

Lemma page_break_spec (y : Z) :
  y <= 800 ->
  Forall (drawn_within 80) (fst (page_break y))
  /\ drawn_texts (fst (page_break y)) = []
  /\ 80 <= snd (page_break y) <= 800
  /\ (80 <= y -> snd (page_break y) = y).
Proof.
  intros H. unfold page_break. destruct (Z.ltb_spec y 80); cbn.
  - repeat split; try lia. repeat constructor.
  - repeat split; try lia. constructor.
Qed.

Lemma drawn_within_weaken (lo lo' : Z) (ops : list Pdf.op) :
  lo' <= lo -> Forall (drawn_within lo) ops -> Forall (drawn_within lo') ops.
Proof.
  intros H F. eapply Forall_impl; [|exact F].
  intros [n z|x y t| |]; cbn; try easy. intros [-> Hy]. split; [reflexivity|lia].
Qed.

Lemma draw_scores_layout (rows : list Score.t) (y : Z) :
  80 <= y <= 800 ->
  Forall (drawn_within 80) (fst (draw_scores rows y))
  /\ 80 <= snd (draw_scores rows y) <= 800.
Proof.
  revert y. induction rows as [|s rows IH]; intros y Hy; cbn [draw_scores].
  - cbn. split; [constructor|lia].
  - destruct (page_break_spec (y - 18)) as [Fb [_ [Hb _]]]; [lia|].
    destruct (page_break (y - 18)) as [brk y1]. cbn [fst snd] in Fb, Hb.
    destruct (IH y1 Hb) as [Fo Ho].
    destruct (draw_scores rows y1) as [ops y2]. cbn [fst snd] in *.
    split; [|exact Ho].
    constructor; [exact I|]. constructor; [cbn; lia|].
    apply Forall_app. split; assumption.
Qed.

Lemma draw_chunks_layout (fuel : nat) (text : string) (y : Z) :
  22 <= y <= 800 ->
  Forall (drawn_within 22) (fst (draw_chunks fuel text y))
  /\ 22 <= snd (draw_chunks fuel text y) <= 800.
Proof.
  revert text y. induction fuel as [|k IH]; intros text y Hy;
    cbn [draw_chunks].
  - cbn. split; [constructor|lia].
  - destruct text as [|c r]; [cbn; split; [constructor|lia]|].
    destruct (page_break_spec (y - 14)) as [Fb [_ [Hb _]]]; [lia|].
    destruct (page_break (y - 14)) as [brk y1]. cbn [fst snd] in Fb, Hb.
    destruct (IH (Str.slice_from 120 (String c r)) y1) as [Fo Ho]; [lia|].
    destruct (draw_chunks k (Str.slice_from 120 (String c r)) y1) as [ops y2].
    cbn [fst snd] in *. split; [|exact Ho].
    constructor; [cbn; lia|].
    apply Forall_app. split; [|exact Fo].
    apply (drawn_within_weaken 80); [lia|exact Fb].
Qed.

Lemma draw_answers_layout (rows : list Answer.t) (y : Z) :
  22 <= y <= 800 ->
  Forall (drawn_within 22) (fst (draw_answers rows y))
  /\ 22 <= snd (draw_answers rows y) <= 800.
Proof.
  revert y. induction rows as [|a rows IH]; intros y Hy; cbn [draw_answers].
  - cbn. split; [constructor|lia].
  - destruct (draw_chunks_layout (String.length (stripped_answer a))
                                 (stripped_answer a) y Hy) as [F1 H1].
    destruct (draw_chunks _ (stripped_answer a) y) as [ops1 y1].
    cbn [fst snd] in *.
    destruct (IH y1 H1) as [F2 H2].
    destruct (draw_answers rows y1) as [ops2 y2]. cbn [fst snd] in *.
    split; [|exact H2]. apply Forall_app. split; assumption.
Qed.

Lemma draw_scores_no_save (rows : list Score.t) (y : Z) :
  ~ In Pdf.Save (fst (draw_scores rows y)).
Proof.
  revert y. induction rows as [|s rows IH]; intros y; cbn [draw_scores];
    [intros []|].
  unfold page_break. specialize (IH (if y - 18 <? 80 then 800 else y - 18)).
  destruct (y - 18 <? 80);
    destruct (draw_scores rows _) as [ops y2]; cbn [fst] in *;
    cbn; intuition discriminate.
Qed.

Lemma draw_chunks_no_save (fuel : nat) (text : string) (y : Z) :
  ~ In Pdf.Save (fst (draw_chunks fuel text y)).
Proof.
  revert text y. induction fuel as [|k IH]; intros text y; cbn [draw_chunks];
    [intros []|].
  destruct text as [|c r]; [intros []|].
  unfold page_break.
  specialize (IH (Str.slice_from 120 (String c r))
                 (if y - 14 <? 80 then 800 else y - 14)).
  destruct (y - 14 <? 80);
    destruct (draw_chunks k _ _) as [ops y2]; cbn [fst] in *;
    cbn; intuition discriminate.
Qed.

Lemma draw_answers_no_save (rows : list Answer.t) (y : Z) :
  ~ In Pdf.Save (fst (draw_answers rows y)).
Proof.
  revert y. induction rows as [|a rows IH]; intros y; cbn [draw_answers];
    [intros []|].
  pose proof (draw_chunks_no_save (String.length (stripped_answer a))
                                  (stripped_answer a) y) as Nc.
  destruct (draw_chunks _ (stripped_answer a) y) as [ops1 y2]. cbn [fst] in *.
  specialize (IH y2). destruct (draw_answers rows y2) as [ops2 y3].
  cbn [fst] in *. intros Hin. apply in_app_or in Hin. tauto.
Qed.

Lemma app_assoc_4 {A} (a b c d e : list A) :
  a ++ b ++ c ++ d ++ e = (a ++ b ++ c ++ d) ++ e.
Proof. now rewrite <- !app_assoc. Qed.

(** X17. Everything the report draws is drawn at the left margin (x = 50)
    and at a height between 22 and 800, that is, on the page, however many
    score rows and however long the transcripts; the heading lines sit at
    800, 770, 750 and 720; and the drawing ends with the one call that saves
    the file. *)
Theorem X17_report_drawn_on_page (str_of_datetime : Z -> string)
  (format_2f : float -> string) (interview_id : Z) (interview_obj : Interview.t)
  (answer_rows : list Answer.t) (score_rows : list Score.t)
  (total_obtained total_possible : Z) (overall_pct : float) :
  let ops := report_drawing str_of_datetime format_2f interview_id
                            interview_obj answer_rows score_rows
                            total_obtained total_possible overall_pct in
  Forall (drawn_within 22) ops
  /\ (exists body, ops = body ++ [Pdf.Save] /\ ~ In Pdf.Save body)
  /\ (exists t1 t2 t3 rest,
        ops = Pdf.SetFont "Helvetica-Bold" 16 :: Pdf.DrawString 50 800 t1
              :: Pdf.SetFont "Helvetica" 12 :: Pdf.DrawString 50 770 t2
              :: Pdf.DrawString 50 750 t3
              :: Pdf.SetFont "Helvetica-Bold" 14
              :: Pdf.DrawString 50 720 "Per-Skill Scores:" :: rest).
Proof.
  cbv zeta. unfold report_drawing. cbv zeta.
  change (800 - 30 - 20 - 30 - 20) with 700.
  change (800 - 30 - 20 - 30) with 720.
  change (800 - 30 - 20) with 750. change (800 - 30) with 770.
  destruct (draw_scores_layout score_rows 700) as [Fs Hs]; [lia|].
  pose proof (draw_scores_no_save score_rows 700) as Ns.
  destruct (draw_scores score_rows 700) as [score_ops y1]. cbn [fst snd] in *.
  destruct (draw_answers_layout answer_rows (y1 - 10 - 30 - 18)) as [Fa _];
    [lia|].
  pose proof (draw_answers_no_save answer_rows (y1 - 10 - 30 - 18)) as Na.
  destruct (draw_answers answer_rows (y1 - 10 - 30 - 18)) as [answer_ops y3].
  cbn [fst] in *.
  split; [|split].
  - repeat (constructor; [cbn; try exact I; lia|]).
    apply Forall_app. split; [apply (drawn_within_weaken 80); [lia|exact Fs]|].
    repeat (constructor; [cbn; try exact I; lia|]).
    apply Forall_app. split; [exact Fa|]. repeat constructor.
  - eexists. split.
    + apply app_assoc_4.
    + intros Hin. repeat (apply in_app_or in Hin as [Hin|Hin]);
        cbn in Hin; intuition discriminate.
  - do 4 eexists. reflexivity.
Qed.

Lemma slice_glue (n : nat) (s : string) :
  (Str.slice_to n s ++ Str.slice_from n s)%string = s.
Proof.
  revert s. induction n as [|n IH]; intros [|c r]; cbn; try reflexivity.
  now rewrite IH.
Qed.

Lemma slice_to_length (n : nat) (s : string) :
  String.length (Str.slice_to n s) = Nat.min n (String.length s).
Proof.
  revert s. induction n as [|n IH]; intros [|c r]; cbn; try reflexivity.
  now rewrite IH.
Qed.

Lemma slice_from_length (n : nat) (s : string) :
  String.length (Str.slice_from n s) = (String.length s - n)%nat.
Proof.
  revert s. induction n as [|n IH]; intros [|c r]; cbn; try reflexivity.
  apply IH.
Qed.

Lemma string_append_assoc (a b c : string) :
  ((a ++ b) ++ c)%string = (a ++ (b ++ c))%string.
Proof. induction a as [|x a IH]; cbn; [reflexivity|now rewrite IH]. Qed.

Lemma glue_app (l l' : list string) :
  glue (l ++ l') = (glue l ++ glue l')%string.
Proof.
  unfold glue. induction l as [|x l IH]; cbn [app fold_right];
    [reflexivity|].
  now rewrite IH, string_append_assoc.
Qed.

Lemma drawn_texts_app (a b : list Pdf.op) :
  drawn_texts (a ++ b) = drawn_texts a ++ drawn_texts b.
Proof. apply flat_map_app. Qed.

Lemma draw_scores_texts (rows : list Score.t) (y : Z) :
  drawn_texts (fst (draw_scores rows y)) = map score_line rows.
Proof.
  revert y. induction rows as [|s rows IH]; intros y; cbn [draw_scores];
    [reflexivity|].
  unfold page_break. specialize (IH (if y - 18 <? 80 then 800 else y - 18)).
  destruct (y - 18 <? 80);
    destruct (draw_scores rows _) as [ops y2]; cbn [fst] in *;
    unfold drawn_texts in *; cbn [flat_map app map]; now rewrite IH.
Qed.

Lemma draw_chunks_texts (fuel : nat) (text : string) (y : Z) :
  (String.length text <= fuel)%nat ->
  glue (drawn_texts (fst (draw_chunks fuel text y))) = text
  /\ Forall (fun t => (1 <= String.length t <= 120)%nat)
            (drawn_texts (fst (draw_chunks fuel text y))).
Proof.
  revert text y. induction fuel as [|k IH]; intros text y Hf;
    cbn [draw_chunks].
  - destruct text; [cbn; split; [reflexivity|constructor]|cbn in Hf; lia].
  - destruct text as [|c r]; [cbn; split; [reflexivity|constructor]|].
    assert (Hrest : (String.length (Str.slice_from 120 (String c r)) <= k)%nat).
    { rewrite slice_from_length. cbn [String.length] in *. lia. }
    pose proof (slice_to_length 120 (String c r)) as Hlen.
    pose proof (slice_glue 120 (String c r)) as Hglue.
    unfold page_break.
    destruct (IH (Str.slice_from 120 (String c r))
                 (if y - 14 <? 80 then 800 else y - 14) Hrest) as [G F].
    destruct (y - 14 <? 80);
      destruct (draw_chunks k _ _) as [ops y2]; cbn [fst] in *;
      unfold drawn_texts, glue in *; cbn [flat_map app fold_right];
      (split;
       [rewrite G; exact Hglue
       |constructor; [rewrite Hlen; cbn [String.length]; lia|exact F]]).
Qed.

Lemma draw_answers_texts (rows : list Answer.t) (y : Z) :
  glue (drawn_texts (fst (draw_answers rows y)))
  = glue (map stripped_answer rows)
  /\ Forall (fun t => (1 <= String.length t <= 120)%nat)
            (drawn_texts (fst (draw_answers rows y))).
Proof.
  revert y. induction rows as [|a rows IH]; intros y; cbn [draw_answers].
  - cbn. split; [reflexivity|constructor].
  - destruct (draw_chunks_texts (String.length (stripped_answer a))
                                (stripped_answer a) y (le_n _)) as [G1 F1].
    destruct (draw_chunks _ (stripped_answer a) y) as [ops1 y1].
    cbn [fst] in *.
    destruct (IH y1) as [G2 F2].
    destruct (draw_answers rows y1) as [ops2 y2]. cbn [fst] in *.
    rewrite drawn_texts_app, glue_app, G1, G2. split; [reflexivity|].
    apply Forall_app. split; assumption.
Qed.

(** X18. The report shows, in this order: the three heading lines and
    "Per-Skill Scores:", one line "skill: obtained/total" per score row,
    the overall line, "Answers (transcripts):", and then the transcripts cut
    into pieces of 1 to 120 characters.  Read one after another, the pieces
    are exactly the stripped answer texts in the order of the rows: page
    breaks lose nothing, and an answer that is missing or blank adds no
    piece. *)
Theorem X18_report_texts (str_of_datetime : Z -> string)
  (format_2f : float -> string) (interview_id : Z) (interview_obj : Interview.t)
  (answer_rows : list Answer.t) (score_rows : list Score.t)
  (total_obtained total_possible : Z) (overall_pct : float) :
  exists pieces,
    drawn_texts (report_drawing str_of_datetime format_2f interview_id
                                interview_obj answer_rows score_rows
                                total_obtained total_possible overall_pct)
    = [ ("Interview Report - ID " ++ Py.str_of_int interview_id)%string;
        ("Date: " ++ str_of_datetime (Interview.date interview_obj))%string;
        ("Interview Type: " ++ Interview.type interview_obj)%string;
        "Per-Skill Scores:" ]
      ++ map score_line score_rows
      ++ [ ("Overall: " ++ Py.str_of_int total_obtained ++ "/"
              ++ Py.str_of_int total_possible ++ " ("
              ++ format_2f overall_pct ++ "%)")%string;
           "Answers (transcripts):" ]
      ++ pieces
    /\ glue pieces = glue (map stripped_answer answer_rows)
    /\ Forall (fun t => (1 <= String.length t <= 120)%nat) pieces.
Proof.
  unfold report_drawing. cbv zeta.
  pose proof (draw_scores_texts score_rows (800 - 30 - 20 - 30 - 20)) as Ts.
  destruct (draw_scores score_rows (800 - 30 - 20 - 30 - 20)) as [score_ops y1].
  cbn [fst] in Ts.
  destruct (draw_answers_texts answer_rows (y1 - 10 - 30 - 18)) as [G F].
  destruct (draw_answers answer_rows (y1 - 10 - 30 - 18)) as [answer_ops y3].
  cbn [fst] in *.
  exists (drawn_texts answer_ops). split; [|split; assumption].
  rewrite !drawn_texts_app, Ts. cbn [drawn_texts flat_map app].
  now rewrite app_nil_r.
Qed.

(** ** Registration *)














(** ** Rejected requests *)

(** X21. A request that a handler refuses writes nothing: a start refused
    with "Resume not found", a submission refused with "Interview not found"
    or "Invalid question index" and a report request refused with
    "Interview not found" all leave the store exactly as it was. *)
Theorem X21_errors_write_nothing (st : Store) :
  (forall ty user now reply st',
      start_interview ty user now reply st = (Err ResumeMissing, st') ->
      st' = st /\ find_resume st user = None)
  /\ (forall iid idx w reply user st',
         stt_endpoint iid idx w reply user st = (Err NotFound, st') ->
         st' = st /\ find_interview st iid user = None)
  /\ (forall iid idx w reply user st',
         stt_endpoint iid idx w reply user st = (Err InvalidIndex, st') ->
         st' = st
         /\ exists iv, find_interview st iid user = Some iv
                       /\ Py.len (Interview.questions iv) <= idx)
  /\ (forall iid user now now' st',
         generate_report_api iid user now now' st = (Err NotFound, st') ->
         st' = st /\ find_interview st iid user = None).
Proof.
  split; [|split; [|split]].
  - intros ty user now reply st' H. unfold start_interview in H.
    destruct (find_resume st user) as [r|]; [|injection H as <-; now split].
    destruct (generate_questions _ reply); discriminate H.
  - intros iid idx w reply user st' H. unfold stt_endpoint in H.
    destruct (find_interview st iid user) as [iv|];
      [|injection H as <-; now split].
    destruct (idx >=? Py.len (Interview.questions iv)); [discriminate H|].
    destruct (Py.index (Interview.questions iv) idx); [|discriminate H].
    destruct (evaluate (transcribe w) reply). discriminate H.
  - intros iid idx w reply user st' H. unfold stt_endpoint in H.
    destruct (find_interview st iid user) as [iv|]; [|discriminate H].
    destruct (Z.geb_spec idx (Py.len (Interview.questions iv))) as [Hge|Hlt].
    + injection H as <-. split; [reflexivity|]. exists iv. split; [reflexivity|lia].
    + destruct (Py.index (Interview.questions iv) idx); [|discriminate H].
      destruct (evaluate (transcribe w) reply). discriminate H.
  - intros iid user now now' st' H. unfold generate_report_api in H.
    destruct (find_interview st iid user) as [iv|];
      [discriminate H|injection H as <-; now split].
Qed.

Lemma X21_witness :
  snd (start_interview "technical" 9 1730000000000000 None demo_store)
  = demo_store
  /\ snd (stt_endpoint 1 0 (Some ["hello"]) None 2 demo_store) = demo_store
  /\ snd (stt_endpoint 1 15 (Some ["hello"]) None 1 demo_store) = demo_store
  /\ snd (generate_report_api 1 2 1730000000 1730000000000001 demo_store)
     = demo_store.
Proof.
  destruct (X21_errors_write_nothing demo_store) as [A [B [C D]]].
  split; [|split; [|split]].
  - apply (A "technical" 9 1730000000000000 None). vm_compute. reflexivity.
  - apply (B 1 0 (Some ["hello"]) None 2). vm_compute. reflexivity.
  - apply (C 1 15 (Some ["hello"]) None 1). vm_compute. reflexivity.
  - apply (D 1 2 1730000000 1730000000000001). vm_compute. reflexivity.
Defined.

(** ** The groups of the result page *)

Lemma first_seen_in (l : list string) (k : string) :
  In k (first_seen l) -> In k l.
Proof.
  induction l as [|x l IH]; [intros []|].
  cbn [first_seen]. intros [<-|H]; [now left|].
  right. apply IH. apply filter_In in H. tauto.
Qed.

Lemma step_score_origin (st : Store) (r : request) :
  (forall s, In s (scores st) ->
     exists iv q, In iv (interviews st)
                  /\ Interview.id iv = Score.interview_id s
                  /\ In q (Interview.questions iv)
                  /\ Score.skill s = skill_or_general q
                  /\ Score.score_total s = max_score_or_5 q) ->
  forall s, In s (scores (step st r)) ->
    exists iv q, In iv (interviews (step st r))
                 /\ Interview.id iv = Score.interview_id s
                 /\ In q (Interview.questions iv)
                 /\ Score.skill s = skill_or_general q
                 /\ Score.score_total s = max_score_or_5 q.
Proof.
  intros H s Hs.
  destruct (step_interviews st r) as [new [Ei _]].
  assert (Old : In s (scores st) ->
                exists iv q, In iv (interviews (step st r))
                             /\ Interview.id iv = Score.interview_id s
                             /\ In q (Interview.questions iv)
                             /\ Score.skill s = skill_or_general q
                             /\ Score.score_total s = max_score_or_5 q).
  { intros Hin. destruct (H s Hin) as [iv [q [Hiv K]]].
    exists iv, q. split; [rewrite Ei; apply in_or_app; now left|exact K]. }
  destruct r as [u ty now reply|u j i|u j i w reply|u j|u j now now'];
    cbn [step] in *; try (now apply Old).
  - destruct (start_interview_cases ty u now reply st)
      as [[e E]|[qs [_ E]]]; rewrite E in *; cbn [snd scores] in *;
      now apply Old.
  - destruct (stt_endpoint_cases j i w reply u st)
      as [[e E]|[iv [q [Hf [Hlt Hq]]]]];
      [rewrite E in *; cbn [snd] in *; now apply Old|].
    rewrite (stt_endpoint_ok j i w reply u st iv q Hf Hlt Hq) in *.
    cbn [snd scores interviews] in *.
    apply in_app_or in Hs as [Hs|[<-|[]]]; [now apply Old|].
    apply find_interview_some in Hf as [Hin [Hid _]].
    exists iv, q. cbn. repeat split; try assumption.
    exact (index_some_in _ _ _ Hq).
  - destruct (generate_report_cases j u now now' st) as [E|[iv [_ E]]];
      rewrite E in *; cbn [snd scores] in *; now apply Old.
Qed.

Lemma run_score_origin (reqs : list request) (st : Store) :
  (forall s, In s (scores st) ->
     exists iv q, In iv (interviews st)
                  /\ Interview.id iv = Score.interview_id s
                  /\ In q (Interview.questions iv)
                  /\ Score.skill s = skill_or_general q
                  /\ Score.score_total s = max_score_or_5 q) ->
  forall s, In s (scores (run st reqs)) ->
    exists iv q, In iv (interviews (run st reqs))
                 /\ Interview.id iv = Score.interview_id s
                 /\ In q (Interview.questions iv)
                 /\ Score.skill s = skill_or_general q
                 /\ Score.score_total s = max_score_or_5 q.
Proof.
  revert st. induction reqs as [|r reqs IH]; intros st H; [exact H|].
  cbn [run fold_left]. apply IH. now apply step_score_origin.
Qed.

(** X22. In every store reached while the generation call fails, so that
    every interview was started with placeholder questions, the groups of
    an interview's result page are skills of that interview's own
    questions: no group comes from another interview or from anywhere
    else. *)
Theorem X22_result_groups_from_questions (rs : list Resume.t)
  (reqs : list request) (iid user : Z) (iv : Interview.t) (r : result_view)
  (k : string) :
  forallb generation_down reqs = true ->
  let st := run (empty_store rs) reqs in
  find_interview st iid user = Some iv ->
  immediate_result iid user st = Ok r ->
  In k (Dict.keys (skill_map r)) ->
  exists q, In q (Interview.questions iv) /\ QuestionSpec.skill q = Some k.
Proof.
  intros Hgen st Hf Hr Hk. unfold immediate_result in Hr. rewrite Hf in Hr.
  injection Hr as <-. unfold aggregate in Hk. cbn [skill_map] in Hk.
  rewrite fold_add_score_keys in Hk. cbn [Dict.keys map app] in Hk.
  apply filter_In in Hk as [Hk _]. apply first_seen_in in Hk.
  apply in_map_iff in Hk as [s [Es Hs]].
  apply filter_In in Hs as [Hs Hid]. apply Z.eqb_eq in Hid.
  destruct (run_score_origin reqs (empty_store rs)) with (s := s)
    as [iv' [q [Hiv' [Hid' [Hq [Hsk _]]]]]];
    [intros s0 []|exact Hs|].
  fold st in Hiv'.
  pose proof (reachable_well_formed rs reqs) as [W1 _]. fold st in W1.
  apply find_interview_some in Hf as [Hin [Hi _]].
  assert (iv' = iv) by (apply (id_unique st iv' iv W1 Hiv' Hin); congruence).
  subst iv'. exists q. split; [exact Hq|].
  destruct (run_placeholder_questions reqs (empty_store rs) Hgen) with
    (iv := iv) (q := q) as [sk [Hq1 _]];
    [intros iv0 q0 []|exact Hin|exact Hq|].
  unfold skill_or_general in Hsk. rewrite Hq1 in Hsk. congruence.
Qed.

Lemma X22_witness :
  let st := run (empty_store [Resume.mk 1 ["Python"]])
                [Start 1 "technical" 1730000000000000 None;
                 SubmitAnswer 1 1 3 (Some ["hello"]) None] in
  exists q,
    In q (match fallback_questions ["Python"] with Some qs => qs | None => [] end)
    /\ QuestionSpec.skill q = Some "Python".
Proof.
  cbv zeta.
  apply (X22_result_groups_from_questions
           [Resume.mk 1 ["Python"]]
           [Start 1 "technical" 1730000000000000 None;
            SubmitAnswer 1 1 3 (Some ["hello"]) None]
           1 1
           (Interview.mk 1 1 "technical" 1730000000000000
              (match fallback_questions ["Python"] with
               | Some qs => qs
               | None => []
               end))
           (mkResultView [("Python", Bucket.mk 0 5)] 0 5 0%float)
           "Python").
  - reflexivity.
  - vm_compute. reflexivity.
  - vm_compute. reflexivity.
  - cbn. left. reflexivity.
Defined.

(** ** Placeholder questions and the skills *)

(** X23. On the fallback path every question is for one of the résumé's
    skills, and question [j] is for skill [j] as long as there are skills
    left: with at most fifteen skills every skill gets a question, with more
    only the first fifteen do. *)
Theorem X23_placeholders_cover_skills (doc_skills : list string) :
  let skills := skills_or_general doc_skills in
  exists qs,
    fallback_questions skills = Some qs
    /\ (forall q, In q qs ->
          exists sk, In sk skills /\ QuestionSpec.skill q = Some sk)
    /\ (forall j sk, (j < 15)%nat -> nth_error skills j = Some sk ->
          exists q, nth_error qs j = Some q /\ QuestionSpec.skill q = Some sk)
    /\ ((List.length skills <= 15)%nat ->
        forall sk, In sk skills ->
          exists q, In q qs /\ QuestionSpec.skill q = Some sk).
Proof.
  intros skills.
  destruct (placeholders_from_ok skills (skills_or_general_nonempty doc_skills)
                                 15 0) as [qs [Hqs [Hlen Hnth]]].
  assert (B : forall j sk, (j < 15)%nat -> nth_error skills j = Some sk ->
                exists q, nth_error qs j = Some q
                          /\ QuestionSpec.skill q = Some sk).
  { intros j sk Hj Hsk. destruct (Hnth j Hj) as [sk' [H1 H2]].
    assert (Hjn : (j < List.length skills)%nat)
      by (apply nth_error_Some; congruence).
    rewrite Z.add_0_l, Z.mod_small in H1 by (unfold Py.len; lia).
    rewrite Nat2Z.id, Hsk in H1. injection H1 as <-.
    eexists. split; [exact H2|reflexivity]. }
  exists qs. split; [exact Hqs|]. split; [|split; [exact B|]].
  - intros q Hq. apply In_nth_error in Hq as [k Hk].
    assert (Hlt : (k < 15)%nat)
      by (rewrite <- Hlen; apply nth_error_Some; congruence).
    destruct (Hnth k Hlt) as [sk [H1 H2]]. rewrite Hk in H2.
    injection H2 as ->. exists sk. split; [|reflexivity].
    exact (nth_error_In _ _ H1).
  - intros Hn sk Hsk. apply In_nth_error in Hsk as [j Hj].
    assert (Hjn : (j < List.length skills)%nat)
      by (apply nth_error_Some; congruence).
    destruct (B j sk ltac:(lia) Hj) as [q [Hq Hs]].
    exists q. split; [exact (nth_error_In _ _ Hq)|exact Hs].
Qed.
